(** * ModelBiorbd: a shallow embedding of [shoulder/models/model_biorbd.py]

    The Python class [ModelBiorbd] orchestrates calls into the biorbd
    rigid-body and muscle engine.  The engine is external to the repository:
    it is represented here by a record of uninterpreted functions
    ([Engine]), and the part of its state the Python code relies on (muscle
    parameters, kinematic cache, muscle states) is a record [Model] that is
    threaded through every operation together with the log of the engine
    calls made so far.  Python exceptions are values of [Exception]; an
    operation is a function from the model to a result and the model left
    behind, so that a raised exception still shows what was mutated before
    it. *)

From stdpp Require Import base list strings.
From Stdlib Require Import ZArith Lia.

Open Scope string_scope.

(** ** Enumerations *)

(** Modelled from the spec: [enums.py] is not part of the sources at hand.
    [ControlsTypes] has the two members the code names, torque and muscle
    excitation; [OtherControl] stands for any further member. *)
Inductive ControlsTypes := TORQUE | EMG | OtherControl (tag : nat).

(** Modelled from the spec: the integration methods named by the code, and
    any further member of the enumeration. *)
Inductive IntegrationMethods := RK45 | RK4 | OtherMethod (tag : nat).

(** Modelled from the spec: only the optimal fiber length is recognised;
    [OtherParameter] stands for any other member of the enumeration. *)
Inductive MuscleParameter := OPTIMAL_LENGTH | OtherParameter (tag : nat).

(** The muscle type identifiers of the engine ([brbd.HILL], ...); the code
    compares [muscle.type()] against four of them. *)
Inductive MuscleTypeId :=
  IDEALIZED_ACTUATOR | HILL | HILL_THELEN | HILL_DE_GROOTE | OTHER_MUSCLE_TYPE (id : nat).

(** The classes the four identifiers are upcast to. *)
Inductive MuscleClass := IdealizedActuator | HillType | HillThelenType | HillDeGrooteType.

(** The concrete representation of an array: [type(q)] in the source. *)
Inductive DataType := NdArray | MX | SX.

#[global] Instance ControlsTypes_eq_dec : EqDecision ControlsTypes.
Proof. solve_decision. Defined.
#[global] Instance IntegrationMethods_eq_dec : EqDecision IntegrationMethods.
Proof. solve_decision. Defined.
#[global] Instance MuscleParameter_eq_dec : EqDecision MuscleParameter.
Proof. solve_decision. Defined.
#[global] Instance MuscleTypeId_eq_dec : EqDecision MuscleTypeId.
Proof. solve_decision. Defined.
#[global] Instance DataType_eq_dec : EqDecision DataType.
Proof. solve_decision. Defined.

(** ** Exceptions *)

Inductive PyClass :=
  ValueError | NotImplementedError | IndexError | RuntimeError | TypeError | AttributeError.

(** The messages of the source, with the values its f-strings interpolate. *)
Inductive Message :=
| MustHaveSameType (who : string)
    (* "<who> must have the same type" *)
| EmgControlsShouldHave (expected got : nat)
    (* "EMG controls should have {n_muscles} muscles, but got {shape[0]}" *)
| TorqueControlsShouldHave (expected got : nat)
    (* "Torque controls should have {n_q} generalized coordinates, but got {shape[0]}" *)
| ControlNotImplemented (c : ControlsTypes)
| IntegrationMethodNotImplemented (m : IntegrationMethods)
| ParameterNotImplemented (p : MuscleParameter)
| MuscleTypeNotSupported (t : MuscleTypeId)
| OutOfBounds
    (* raised by indexing: an index outside the array, or too many indices *)
| EngineFailure
    (* raised inside the engine, e.g. for a muscle that does not exist *)
| NoAttribute (attribute : string)
    (* "... object has no attribute '<attribute>'" *)
| NotARealNumber
    (* numpy: "float() argument must be a string or a real number, not 'Scalar'" *)
| WrongArgumentsForOverload (function : string)
    (* "Wrong number or type of arguments for overloaded function '<function>'" *)
| ListIndicesMustBeIntegers
    (* "list indices must be integers or slices, not tuple" *)
| SolverMethodUnknown (method : string).
    (* scipy: "`method` must be one of ... or OdeSolver class." *)

Record Exception := Exc { exc_class : PyClass; exc_message : Message }.

(** The error taxonomy of the specification, read off the exceptions. *)
Definition is_type_mismatch (e : Exception) : Prop :=
  exists who, e = Exc ValueError (MustHaveSameType who).

Definition is_dimension_mismatch (e : Exception) : Prop :=
  exists expected got, got <> expected /\
    (e = Exc ValueError (EmgControlsShouldHave expected got) \/
     e = Exc ValueError (TorqueControlsShouldHave expected got)).

Definition is_unsupported_control (e : Exception) : Prop :=
  exists c, e = Exc NotImplementedError (ControlNotImplemented c).

Definition is_unimplemented_parameter (e : Exception) : Prop :=
  exists p, e = Exc NotImplementedError (ParameterNotImplemented p).

Inductive Result (A : Type) := Ok (a : A) | Raise (e : Exception).
Arguments Ok {A} a.
Arguments Raise {A} e.

(** ** Arrays *)

(** A two-dimensional array: its shape and its rows.  The shape is kept
    apart from the rows because an array with no row still has a number of
    columns. *)
Record Matrix (A : Type) := Mat { nrows : nat; ncols : nat; rows : list (list A) }.
Arguments Mat {A} nrows ncols rows.
Arguments nrows {A} m.
Arguments ncols {A} m.
Arguments rows {A} m.

(** [m[j, i]], and [m[j, i] = v]; both raise outside the shape. *)
Definition mat_get {A} (m : Matrix A) (j i : nat) : option A :=
  if decide (j < nrows m /\ i < ncols m) then rows m !! j ≫= (.!! i) else None.

Definition mat_set {A} (m : Matrix A) (j i : nat) (v : A) : option (Matrix A) :=
  if decide (j < nrows m /\ i < ncols m)
  then Some (Mat (nrows m) (ncols m) (alter (<[i := v]>) j (rows m)))
  else None.

(** [m[:, i]] *)
Definition mat_column {A} (m : Matrix A) (i : nat) : option (list A) :=
  if decide (i < ncols m) then mapM (.!! i) (rows m) else None.

(** A freshly allocated array [data_type((n, k))]: no cell has been written
    yet ([None] stands for whatever the allocation leaves there). *)
Definition mat_alloc {A} (n k : nat) : Matrix (option A) :=
  Mat n k (replicate n (replicate k None)).

Definition mat_wf {A} (m : Matrix A) : Prop :=
  length (rows m) = nrows m /\ Forall (fun r => length r = ncols m) (rows m).

(** An input of the batch functions: a one-dimensional array (shape
    [(n,)], only numpy has those) or a two-dimensional one whose columns
    are the samples. *)
Inductive Array (V : Type) :=
| Arr1 (ty : DataType) (xs : list V)
| Arr2 (ty : DataType) (m : Matrix V).
Arguments Arr1 {V} ty xs.
Arguments Arr2 {V} ty m.

(** A state or control vector of the dynamics functions. *)
Record Vector (V : Type) := Vec { vtype : DataType; vdata : list V }.
Arguments Vec {V} vtype vdata.
Arguments vtype {V} v.
Arguments vdata {V} v.

(** An output of the batch functions: [data_type((n, k))] and what has been
    stored in it. *)
Record Out (V : Type) := MkOut { out_type : DataType; out_cells : Matrix (option V) }.
Arguments MkOut {V} out_type out_cells.
Arguments out_type {V} o.
Arguments out_cells {V} o.

(** ** The engine and its state *)

Record Muscle (V : Type) := MkMuscle { muscle_type : MuscleTypeId; optimal_length : V }.
Arguments MkMuscle {V} muscle_type optimal_length.
Arguments muscle_type {V} m.
Arguments optimal_length {V} m.

(** What a [ModelBiorbd] object holds: the casadi flag and the engine's
    model.  Of the latter: the number of generalized coordinates, the
    muscles with their parameters, the kinematic cache written by
    [updateMuscles] (the pose, and the velocity when one was given) and the
    muscle states handed out by [stateSet]. *)
Record Model (V : Type) := MkModel {
  use_casadi : bool;
  nbQ : nat;
  muscles : list (Muscle V);
  kinematics : option (list V * option (list V));
  muscle_states : list V
}.
Arguments MkModel {V} use_casadi nbQ muscles kinematics muscle_states.
Arguments use_casadi {V} m.
Arguments nbQ {V} m.
Arguments muscles {V} m.
Arguments kinematics {V} m.
Arguments muscle_states {V} m.

Definition nbMuscleTotal {V} (m : Model V) : nat := length (muscles m).

(** The calls into the engine that evaluate or mutate something.  The
    getters [nbQ()] and [nbMuscleTotal()] read the fixed topology and are
    not recorded. *)
Inductive EngineCall (V : Type) :=
| Call_updateMuscles (q : list V) (qdot : option (list V))
| Call_muscle (j : nat)
| Call_setOptimalLength (j : nat) (v : V)
| Call_stateSet
| Call_muscularJointTorque (q qdot : list V)
| Call_ForwardDynamics (q qdot tau : list V).
Arguments Call_updateMuscles {V} q qdot.
Arguments Call_muscle {V} j.
Arguments Call_setOptimalLength {V} j v.
Arguments Call_stateSet {V}.
Arguments Call_muscularJointTorque {V} q qdot.
Arguments Call_ForwardDynamics {V} q qdot tau.

(** The quantities the engine computes; they are not interpreted.  Each
    one may depend on the engine's model (parameters and kinematic cache).
    The functions stand for the engine where it accepts its arguments;
    what it does with a pose of another size than [nbQ] is not modelled.
    [casadi_evaluate] and [casadi_number] are casadi's: the number a
    constant expression evaluates to, and the constant of a number. *)
Record Engine (V : Type) := MkEngine {
  eng_length : Model V -> nat -> list V -> V;
  eng_velocity : Model V -> nat -> list V -> list V -> V;
  eng_FlPE : Model V -> MuscleClass -> nat -> V;
  eng_FlCE : Model V -> MuscleClass -> nat -> V * V -> V;
  eng_FvCE : Model V -> MuscleClass -> nat -> V;
  eng_force : Model V -> MuscleClass -> nat -> V * V -> V;
  eng_muscularJointTorque : Model V -> list V -> list V -> list V -> list V;
  eng_ForwardDynamics : Model V -> list V -> list V -> list V -> list V;
  casadi_evaluate : V -> V;
  casadi_number : nat -> V
}.
Arguments MkEngine {V}.
Arguments eng_length {V} e.
Arguments eng_velocity {V} e.
Arguments eng_FlPE {V} e.
Arguments eng_FlCE {V} e.
Arguments eng_FvCE {V} e.
Arguments eng_force {V} e.
Arguments eng_muscularJointTorque {V} e.
Arguments eng_ForwardDynamics {V} e.
Arguments casadi_evaluate {V} e.
Arguments casadi_number {V} e.

(** The state every operation runs in: the model and the engine calls made
    so far, oldest first. *)
Record St (V : Type) := MkSt { model : Model V; trace : list (EngineCall V) }.
Arguments MkSt {V} model trace.
Arguments model {V} s.
Arguments trace {V} s.

(** ** Operations that may raise and may mutate the model *)

Definition M (V A : Type) : Type := St V -> Result A * St V.

Definition ret {V A} (a : A) : M V A := fun s => (Ok a, s).
Definition raise {V A} (c : PyClass) (msg : Message) : M V A := fun s => (Raise (Exc c msg), s).
Definition bind {V A B} (c : M V A) (k : A -> M V B) : M V B :=
  fun s => match c s with
           | (Ok a, s') => k a s'
           | (Raise e, s') => (Raise e, s')
           end.

Notation "'let!' x ':=' c 'in' k" := (bind c (fun x => k))
  (at level 10, x pattern, c at level 200, k at level 200).

Definition gets {V A} (f : Model V -> A) : M V A := fun s => (Ok (f (model s)), s).
Definition modify {V} (f : Model V -> Model V) : M V unit :=
  fun s => (Ok tt, MkSt (f (model s)) (trace s)).
Definition record_call {V} (c : EngineCall V) : M V unit :=
  fun s => (Ok tt, MkSt (model s) (trace s ++ [c])).

(** An index operation: [None] is Python's [IndexError]. *)
Definition index {V A} (o : option A) : M V A :=
  match o with Some a => ret a | None => raise IndexError OutOfBounds end.

(** [for x in xs: acc = body(x, acc)] *)
Fixpoint for_each {V X S} (xs : list X) (body : X -> S -> M V S) (acc : S) : M V S :=
  match xs with
  | [] => ret acc
  | x :: xs' => let! acc' := body x acc in for_each xs' body acc'
  end.

(** [range(lo, hi)] *)
Definition range (lo hi : nat) : list nat := seq lo (hi - lo).

(** ** Helpers of the repository *)

(** The [muscle_index] argument as the caller gives it. *)
Inductive MuscleIndex := IndexInt (j : nat) | IndexRange (start stop : nat).

(** A Python [slice(start, stop)]. *)
Record Slice := MkSlice { slice_start : nat; slice_stop : nat }.

(** Modelled from the spec: [helpers.parse_muscle_index] is not part of the
    sources at hand.  A muscle index selection is a range over muscle
    indices and defaults to all muscles, [0 .. n_muscles]; a single index
    selects that muscle alone. *)
Definition parse_muscle_index (muscle_index : option MuscleIndex) (n_muscles : nat) : Slice :=
  match muscle_index with
  | None => MkSlice 0 n_muscles
  | Some (IndexInt j) => MkSlice j (S j)
  | Some (IndexRange start stop) => MkSlice start stop
  end.

(** [slice.indices(len)] for a slice with non-negative bounds and no step:
    both bounds are clipped to [len]; the step is 1. *)
Definition slice_indices (s : Slice) (len : nat) : nat * nat :=
  (slice_start s `min` len, slice_stop s `min` len).

(** Modelled from the spec: [helpers.concatenate] is not part of the sources
    at hand.  The state vector is the concatenation of pose and velocity. *)
Definition concatenate {V} (a b : Vector V) : Vector V :=
  Vec (vtype a) (vdata a ++ vdata b).

(** [isinstance(x, data_type)] for the array classes, none of which is a
    subclass of another. *)
Definition isinstance (ty data_type : DataType) : bool := bool_decide (ty = data_type).

Definition array_type {V} (a : Array V) : DataType :=
  match a with Arr1 ty _ => ty | Arr2 ty _ => ty end.

(** [len(a.shape)] *)
Definition ndim {V} (a : Array V) : nat :=
  match a with Arr1 _ _ => 1 | Arr2 _ _ => 2 end.

(** [a.shape[1]]: the shape of a one-dimensional array has no second entry. *)
Definition shape1 {V} (a : Array V) : option nat :=
  match a with Arr1 _ _ => None | Arr2 _ m => Some (ncols m) end.

(** [a[:, np.newaxis]] on a one-dimensional array: one column. *)
Definition newaxis {V} (a : Array V) : Array V :=
  match a with
  | Arr1 ty xs => Arr2 ty (Mat (length xs) 1 (map (fun x => [x]) xs))
  | Arr2 ty m => Arr2 ty m
  end.

(** [if len(a.shape) == 1: a = a[:, np.newaxis]] *)
Definition promote {V} (a : Array V) : Array V :=
  if decide (ndim a = 1) then newaxis a else a.

(** [a[:, i]] and [a[j, i]]: two indices into a one-dimensional array raise. *)
Definition column {V} (a : Array V) (i : nat) : option (list V) :=
  match a with Arr1 _ _ => None | Arr2 _ m => mat_column m i end.

Definition item {V} (a : Array V) (j i : nat) : option V :=
  match a with Arr1 _ _ => None | Arr2 _ m => mat_get m j i end.

(** [out[j, i] = v] *)
Definition store {V} (o : Out V) (j i : nat) (v : V) : option (Out V) :=
  (fun m => MkOut (out_type o) m) <$> mat_set (out_cells o) j i (Some v).

(** An array of shape [(n, k)]: numpy's [data_type((n, k))] and, for the
    casadi classes, [data_type(n, k)]. *)
Definition alloc {V} (data_type : DataType) (n k : nat) : Out V :=
  MkOut data_type (mat_alloc n k).

(** [data_type((n, k))] as such.  numpy allocates an array of that shape.
    A casadi class reads the tuple as the entries of a column vector: the
    result has shape [(2, 1)] and holds the numbers [n] and [k], whose
    casadi constants are [number n] and [number k]. *)
Definition alloc_tuple {V} (number : nat -> V) (data_type : DataType) (n k : nat) : Out V :=
  match data_type with
  | NdArray => alloc data_type n k
  | MX | SX => MkOut data_type (Mat 2 1 [[Some (number n)]; [Some (number k)]])
  end.

(** [results.y] of [scipy.integrate.solve_ivp]: an array with a row for
    each state and a column for each sample stored or, when the solver
    stored no sample, the empty list it started from. *)
Inductive Solution (V : Type) :=
| Grid (y : Matrix V)
| NoSample.
Arguments Grid {V} y.
Arguments NoSample {V}.

(** [x[:n]] and [x[n:]] *)
Definition vec_to {V} (x : Vector V) (n : nat) : Vector V := Vec (vtype x) (take n (vdata x)).
Definition vec_from {V} (x : Vector V) (n : nat) : Vector V := Vec (vtype x) (drop n (vdata x)).

(** [y[:n, :]] and [y[n:, :]] *)
Definition rows_to {A} (y : Matrix A) (n : nat) : Matrix A :=
  Mat (n `min` nrows y) (ncols y) (take n (rows y)).
Definition rows_from {A} (y : Matrix A) (n : nat) : Matrix A :=
  Mat (nrows y - n) (ncols y) (drop n (rows y)).

(** ** The methods of [ModelBiorbd] *)

Section ModelBiorbd.

Context {V : Type}.
Variable E : Engine V.

(** [self.n_q] and [self.n_muscles] *)
Definition n_q : M V nat := gets nbQ.
Definition n_muscles : M V nat := gets nbMuscleTotal.

(** [self._model.updateMuscles(q, True)] and
    [self._model.updateMuscles(q, qdot, True)]: the kinematic cache is
    overwritten. *)
Definition updateMuscles (q : list V) (qdot : option (list V)) : M V unit :=
  let! _ := record_call (Call_updateMuscles q qdot) in
  modify (fun m => MkModel (use_casadi m) (nbQ m) (muscles m) (Some (q, qdot)) (muscle_states m)).

(** [self._model.muscle(j)]: the engine raises for a muscle it does not have. *)
Definition muscle (j : nat) : M V (Muscle V) :=
  let! _ := record_call (Call_muscle j) in
  let! ms := gets muscles in
  match ms !! j with
  | Some mus => ret mus
  | None => raise RuntimeError EngineFailure
  end.

Definition _upcast_muscle (mus : Muscle V) : M V MuscleClass :=
  let muscle_type_id := muscle_type mus in
  if decide (muscle_type_id = IDEALIZED_ACTUATOR) then ret IdealizedActuator
  else if decide (muscle_type_id = HILL) then ret HillType
  else if decide (muscle_type_id = HILL_THELEN) then ret HillThelenType
  else if decide (muscle_type_id = HILL_DE_GROOTE) then ret HillDeGrooteType
  else raise ValueError (MuscleTypeNotSupported muscle_type_id).

(** [out[j, i] = x] for a result [x] that the engine has just given and
    the code has not converted.  The numeric engine gives a float, which is
    stored.  The casadi engine gives its [Scalar] wrapper: numpy finds the
    cell and then fails to convert the value, and the casadi classes have
    no overload of their setter that takes it.  ([muscle_force] converts
    with [to_mx()] before it stores; the two other functions do not.) *)
Definition store_result (out : Out V) (j i : nat) (x : V) : M V (Out V) :=
  let! casadi := gets use_casadi in
  if casadi
  then
    match out_type out with
    | NdArray =>
        let! _ := index (store out j i x) in
        raise TypeError NotARealNumber
    | MX => raise NotImplementedError (WrongArgumentsForOverload "MX_set")
    | SX => raise NotImplementedError (WrongArgumentsForOverload "SX_set")
    end
  else index (store out j i x).

(** [mus.FlPE()], [mus.FlCE(activation)] and [mus.FvCE()]: methods of the
    Hill classes.  [IdealizedActuator] has none of them, so the attribute
    lookup raises. *)
Definition hill_coefficient (attribute : string) (mus : MuscleClass) (value : Model V -> V)
  : M V V :=
  match mus with
  | IdealizedActuator => raise AttributeError (NoAttribute attribute)
  | HillType | HillThelenType | HillDeGrooteType => gets value
  end.

(** The [updateMuscles] call at the head of every sample of a batch. *)
Definition update_sample (q : Array V) (qdot : option (Array V)) (i : nat) : M V unit :=
  match qdot with
  | None =>
      let! qi := index (column q i) in
      updateMuscles qi None
  | Some qd =>
      let! qi := index (column q i) in
      let! qdi := index (column qd i) in
      updateMuscles qi (Some qdi)
  end.

(** The body of the loop over the muscles in [muscles_kinematics], for
    sample [i] and muscle [j]. *)
Definition kinematics_of_muscle
  (q : Array V) (qdot : option (Array V)) (i j : nat) (acc : Out V * Out V)
  : M V (Out V * Out V) :=
  let (lengths, velocities) := acc in
  let! _ := muscle j in
  let! qi := index (column q i) in
  let! len := gets (fun m => eng_length E m j qi) in
  let! lengths := store_result lengths j i len in
  match qdot with
  | Some qd =>
      let! _ := muscle j in
      let! qi := index (column q i) in
      let! qdi := index (column qd i) in
      let! vel := gets (fun m => eng_velocity E m j qi qdi) in
      let! velocities := store_result velocities j i vel in
      ret (lengths, velocities)
  | None => ret (lengths, velocities)
  end.

Definition muscles_kinematics
  (q : Array V) (qdot : option (Array V)) (muscle_index : option MuscleIndex)
  : M V (Out V * option (Out V)) :=
  let data_type := array_type q in
  if match qdot with
     | Some qd => negb (isinstance (array_type qd) data_type)
     | None => false
     end
  then raise ValueError (MustHaveSameType "q and qdot")
  else
    let! n := n_muscles in
    let muscle_index := parse_muscle_index muscle_index n in
    let n_muscles := length (range (slice_start muscle_index) (slice_stop muscle_index)) in
    let data_type := array_type q in
    let! k := index (shape1 q) in
    let lengths := alloc_tuple (casadi_number E) data_type n_muscles k in
    let velocities := alloc_tuple (casadi_number E) data_type n_muscles k in
    let! (lengths, velocities) :=
      for_each (range 0 k) (fun i acc =>
        let! _ := update_sample q qdot i in
        let! nb := gets nbMuscleTotal in
        for_each (range 0 nb) (kinematics_of_muscle q qdot i) acc)
        (lengths, velocities) in
    match qdot with
    | None => ret (lengths, None)
    | Some _ => ret (lengths, Some velocities)
    end.

(** The body of the loop over the muscles in [muscle_force_coefficients]. *)
Definition coefficients_of_muscle
  (emg : Array V) (qdot : option (Array V)) (i j : nat) (acc : Out V * Out V * Out V)
  : M V (Out V * Out V * Out V) :=
  let '(out_flpe, out_flce, out_fvce) := acc in
  let! m := muscle j in
  let! mus := _upcast_muscle m in
  let! e1 := index (item emg j i) in
  let! e2 := index (item emg j i) in
  let activation := (e1, e2) in
  let! flpe := hill_coefficient "FlPE" mus (fun m => eng_FlPE E m mus j) in
  let! out_flpe := store_result out_flpe j i flpe in
  let! flce := hill_coefficient "FlCE" mus (fun m => eng_FlCE E m mus j activation) in
  let! out_flce := store_result out_flce j i flce in
  match qdot with
  | Some _ =>
      let! fvce := hill_coefficient "FvCE" mus (fun m => eng_FvCE E m mus j) in
      let! out_fvce := store_result out_fvce j i fvce in
      ret (out_flpe, out_flce, out_fvce)
  | None => ret (out_flpe, out_flce, out_fvce)
  end.

Definition muscle_force_coefficients
  (emg q : Array V) (qdot : option (Array V)) (muscle_index : option MuscleIndex)
  : M V (Out V * Out V * option (Out V)) :=
  let data_type := array_type emg in
  if negb (isinstance (array_type q) data_type)
     || match qdot with
        | Some qd => negb (isinstance (array_type qd) data_type)
        | None => false
        end
  then raise ValueError (MustHaveSameType "emg, q and qdot")
  else
    let! n := n_muscles in
    let muscle_index := parse_muscle_index muscle_index n in
    let q := promote q in
    let qdot := promote <$> qdot in
    let n_muscles := length (range (slice_start muscle_index) (slice_stop muscle_index)) in
    let! k := index (shape1 q) in
    let out_flpe := alloc_tuple (casadi_number E) data_type n_muscles k in
    let out_flce := alloc_tuple (casadi_number E) data_type n_muscles k in
    let out_fvce := alloc_tuple (casadi_number E) data_type n_muscles k in
    let! (out_flpe, out_flce, out_fvce) :=
      for_each (range 0 k) (fun i acc =>
        let! _ := update_sample q qdot i in
        for_each (range (slice_start muscle_index) (slice_stop muscle_index))
          (coefficients_of_muscle emg qdot i) acc)
        (out_flpe, out_flce, out_fvce) in
    match qdot with
    | None => ret (out_flpe, out_flce, None)
    | Some _ => ret (out_flpe, out_flce, Some out_fvce)
    end.

(** The body of the loop over the selected muscles in [muscle_force];
    [muscle_index] is the list the source builds from the slice. *)
Definition force_of_muscle
  (data_type : DataType) (emg : Array V) (muscle_index : list nat) (i j : nat)
  (out_force : Out V) : M V (Out V) :=
  let! mj := index (muscle_index !! j) in
  let! m := muscle mj in
  let! mus := _upcast_muscle m in
  let! e1 := index (item emg j i) in
  let! e2 := index (item emg j i) in
  let activation := (e1, e2) in
  let! force_tp := gets (fun m => eng_force E m mus mj activation) in
  let! casadi := gets use_casadi in
  let force_tp :=
    if casadi
    then if decide (data_type = NdArray) then casadi_evaluate E force_tp else force_tp
    else force_tp in
  index (store out_force j i force_tp).

(** Both allocations of the source, [data_type(n, k)] for the casadi
    classes and [data_type((n, k))] otherwise, give an array of that
    shape.  The test [qdot is None] in the loop is the source's. *)
Definition muscle_force
  (emg q : Array V) (qdot : option (Array V)) (muscle_index : option MuscleIndex)
  : M V (Out V) :=
  let data_type := array_type emg in
  if negb (isinstance (array_type q) data_type)
     || match qdot with
        | Some qd => negb (isinstance (array_type qd) data_type)
        | None => true
        end
  then raise ValueError (MustHaveSameType "emg, q and qdot")
  else
    let emg := promote emg in
    let! n := n_muscles in
    let muscle_index := parse_muscle_index muscle_index n in
    let q := promote q in
    let qdot := promote <$> qdot in
    let n_muscles := length (range (slice_start muscle_index) (slice_stop muscle_index)) in
    let muscle_index :=
      let (start, stop) := slice_indices muscle_index n_muscles in range start stop in
    let! k := index (shape1 q) in
    let out_force :=
      if decide (data_type = MX \/ data_type = SX)
      then alloc data_type n_muscles k
      else alloc data_type n_muscles k in
    for_each (range 0 k) (fun i out_force =>
      let! _ := update_sample q qdot i in
      for_each (range 0 n_muscles) (force_of_muscle data_type emg muscle_index i) out_force)
      out_force.

(** [self._model.muscle(index).characteristics().setOptimalLength(v)] *)
Definition set_muscle_parameters (index : nat) (optimal_length : V) : M V unit :=
  let! _ := muscle index in
  let! _ := record_call (Call_setOptimalLength index optimal_length) in
  modify (fun m =>
    MkModel (use_casadi m) (nbQ m)
      (alter (fun mus => MkMuscle (muscle_type mus) optimal_length) index (muscles m))
      (kinematics m) (muscle_states m)).

(** [.optimalLength().to_mx()]: the conversion [to_mx()] unwraps a result
    of the casadi engine and leaves its value as it is.  The code calls it
    whatever the engine; the numeric engine gives a float, which has no
    such method. *)
Definition get_muscle_parameter (index : nat) (parameter_to_get : MuscleParameter) : M V V :=
  if decide (parameter_to_get = OPTIMAL_LENGTH)
  then
    let! mus := muscle index in
    let! casadi := gets use_casadi in
    if casadi
    then ret (optimal_length mus)
    else raise AttributeError (NoAttribute "to_mx")
  else raise NotImplementedError (ParameterNotImplemented parameter_to_get).

(** The class of an unwrapped engine result: [to_mx()] under casadi,
    [to_array()] otherwise. *)
Definition engine_result (xs : list V) : M V (Vector V) :=
  let! casadi := gets use_casadi in
  ret (Vec (if casadi then MX else NdArray) xs).

(** The time argument of the dynamics functions is never read;
    [forward_dynamics] passes the empty list ([None] here). *)
Definition _forward_dynamics (t : option V) (x tau : Vector V) : M V (Vector V) :=
  let! nq := n_q in
  let q := vec_to x nq in
  let! nq := n_q in
  let qdot := vec_from x nq in
  let! _ := record_call (Call_ForwardDynamics (vdata q) (vdata qdot) (vdata tau)) in
  let! qddot := gets (fun m => eng_ForwardDynamics E m (vdata q) (vdata qdot) (vdata tau)) in
  let! qddot := engine_result qddot in
  ret (concatenate qdot qddot).

(** The loop that would set the activations from [emg] is commented out in
    the source: [emg] is not read. *)
Definition _forward_dynamics_muscles (t : option V) (x emg : Vector V) : M V (Vector V) :=
  let! nq := n_q in
  let q := vec_to x nq in
  let! nq := n_q in
  let qdot := vec_from x nq in
  let! _ := record_call Call_stateSet in
  let! states := gets muscle_states in
  let! _ := record_call (Call_muscularJointTorque (vdata q) (vdata qdot)) in
  let! tau := gets (fun m => eng_muscularJointTorque E m states (vdata q) (vdata qdot)) in
  let! tau := engine_result tau in
  _forward_dynamics t x tau.

Definition forward_dynamics
  (q qdot controls : Vector V) (controls_type : ControlsTypes)
  : M V (Vector V * Vector V) :=
  let data_type := vtype q in
  if negb (isinstance (vtype qdot) data_type) || negb (isinstance (vtype controls) data_type)
  then raise ValueError (MustHaveSameType "q, qdot and controls")
  else
    let! func :=
      if decide (controls_type = EMG) then
        let! n := n_muscles in
        if decide (length (vdata controls) <> n)
        then
          let! n := n_muscles in
          raise ValueError (EmgControlsShouldHave n (length (vdata controls)))
        else ret (fun x => _forward_dynamics_muscles None x controls)
      else if decide (controls_type = TORQUE) then
        let! n := n_q in
        if decide (length (vdata controls) <> n)
        then
          let! n := n_q in
          raise ValueError (TorqueControlsShouldHave n (length (vdata controls)))
        else ret (fun x => _forward_dynamics None x controls)
      else raise NotImplementedError (ControlNotImplemented controls_type) in
    let! results := func (concatenate q qdot) in
    let! nq := n_q in
    let q := vec_to results nq in
    let! nq := n_q in
    let qdot := vec_from results nq in
    ret (q, qdot).

(** [results.y[:n, :]] and [results.y[n:, :]]: a list takes no tuple of
    indices. *)
Definition solution_rows (y : Solution V) (part : Matrix V -> Matrix V) : M V (Matrix V) :=
  match y with
  | Grid m => ret (part m)
  | NoSample => raise TypeError ListIndicesMustBeIntegers
  end.

(** [scipy.integrate.solve_ivp(fun, t_span, y0, method, t_eval)] is outside
    the repository: any function of these arguments, which may call [fun]
    and may fail; it gives [results.y]. *)
Variable solve_ivp :
  (V -> Vector V -> M V (Vector V)) -> V * V -> Vector V -> string -> list V ->
  M V (Solution V).

(** The source first binds [func] to [partial(self.forward_dynamics,
    tau=controls)]; each branch of the dispatch below overwrites it or
    raises, and building the partial application calls nothing. *)
Definition integrate
  (t : list V) (states controls : Vector V)
  (controls_type : ControlsTypes) (integration_method : IntegrationMethods)
  : M V (Matrix V * Matrix V) :=
  let data_type := vtype states in
  if negb (isinstance (vtype controls) data_type)
  then raise ValueError (MustHaveSameType "states and controls")
  else
    let! func :=
      if decide (controls_type = EMG) then
        let! n := n_muscles in
        if decide (length (vdata controls) <> n)
        then
          let! n := n_muscles in
          raise ValueError (EmgControlsShouldHave n (length (vdata controls)))
        else ret (fun t x => _forward_dynamics_muscles (Some t) x controls)
      else if decide (controls_type = TORQUE) then
        let! n := n_q in
        if decide (length (vdata controls) <> n)
        then
          let! n := n_q in
          raise ValueError (TorqueControlsShouldHave n (length (vdata controls)))
        else ret (fun t x => _forward_dynamics (Some t) x controls)
      else raise NotImplementedError (ControlNotImplemented controls_type) in
    let! method :=
      if decide (integration_method = RK45) then ret "RK45"
      else if decide (integration_method = RK4) then ret "RK4"
      else raise NotImplementedError (IntegrationMethodNotImplemented integration_method) in
    let! t0 := index (head t) in
    let! t1 := index (last t) in
    let t_span := (t0, t1) in
    let! y := solve_ivp func t_span states method t in
    let! nq := n_q in
    let! q := solution_rows y (fun m => rows_to m nq) in
    let! nq := n_q in
    let! qdot := solution_rows y (fun m => rows_from m nq) in
    ret (q, qdot).

End ModelBiorbd.

(** The number of muscles a selection stands for: [len(range(start, stop))]
    of the slice it is parsed to. *)
Definition selected (muscle_index : option MuscleIndex) (n_muscles : nat) : nat :=
  let s := parse_muscle_index muscle_index n_muscles in
  length (range (slice_start s) (slice_stop s)).

(** The muscle types [_upcast_muscle] has a class for. *)
Definition supported (t : MuscleTypeId) : Prop :=
  t = IDEALIZED_ACTUATOR \/ t = HILL \/ t = HILL_THELEN \/ t = HILL_DE_GROOTE.

(** The muscle types of the Hill family: those whose class has the
    coefficients [FlPE], [FlCE] and [FvCE]. *)
Definition hill (t : MuscleTypeId) : Prop :=
  t = HILL \/ t = HILL_THELEN \/ t = HILL_DE_GROOTE.

(** The first [b] muscles of the model are of supported types. *)
Definition supported_muscles {V} (m : Model V) (b : nat) : Prop :=
  forall j mus, j < b -> muscles m !! j = Some mus -> supported (muscle_type mus).

(** The first [b] muscles of the model are of the Hill family. *)
Definition hill_muscles {V} (m : Model V) (b : nat) : Prop :=
  forall j mus, j < b -> muscles m !! j = Some mus -> hill (muscle_type mus).

(** ** The solver

    [scipy.integrate.solve_ivp] is outside the repository; what is said of
    it here is modelled on its documentation and its code.  The names of
    the methods it knows; its first statement, which refuses any other
    name in the state it was called in; and what it gives for a span of no
    length when [t_eval] is given: it takes no step and stores no sample,
    so that [results.y] is the empty list it started from. *)
Definition solver_methods : list string :=
  ["RK23"; "RK45"; "DOP853"; "Radau"; "BDF"; "LSODA"].

Definition rejects_unknown_methods {V}
  (solve_ivp : (V -> Vector V -> M V (Vector V)) -> V * V -> Vector V -> string -> list V ->
               M V (Solution V)) : Prop :=
  forall func t_span y0 method t_eval s,
    method ∉ solver_methods ->
    solve_ivp func t_span y0 method t_eval s
    = (Raise (Exc ValueError (SolverMethodUnknown method)), s).

Definition stores_no_sample_on_empty_span {V}
  (solve_ivp : (V -> Vector V -> M V (Vector V)) -> V * V -> Vector V -> string -> list V ->
               M V (Solution V)) : Prop :=
  forall func t0 y0 method t_eval s y s',
    solve_ivp func (t0, t0) y0 method t_eval s = (Ok y, s') -> y = NoSample.

(** ** Sequences of calls

    The calls a client can make on a model, and the state a sequence of
    them leaves behind; a call that raises leaves what it had mutated until
    then.  [integrate] is not among them: what it does to the model is
    decided by the solver. *)
Inductive Call (V : Type) :=
| Do_muscles_kinematics (q : Array V) (qdot : option (Array V)) (mi : option MuscleIndex)
| Do_muscle_force_coefficients (emg q : Array V) (qdot : option (Array V)) (mi : option MuscleIndex)
| Do_muscle_force (emg q : Array V) (qdot : option (Array V)) (mi : option MuscleIndex)
| Do_set_muscle_parameters (index : nat) (optimal_length : V)
| Do_get_muscle_parameter (index : nat) (p : MuscleParameter)
| Do_forward_dynamics (q qdot controls : Vector V) (controls_type : ControlsTypes).
Arguments Do_muscles_kinematics {V} q qdot mi.
Arguments Do_muscle_force_coefficients {V} emg q qdot mi.
Arguments Do_muscle_force {V} emg q qdot mi.
Arguments Do_set_muscle_parameters {V} index optimal_length.
Arguments Do_get_muscle_parameter {V} index p.
Arguments Do_forward_dynamics {V} q qdot controls controls_type.

Definition after_call {V} (E : Engine V) (s : St V) (c : Call V) : St V :=
  match c with
  | Do_muscles_kinematics q qdot mi => snd (muscles_kinematics E q qdot mi s)
  | Do_muscle_force_coefficients emg q qdot mi => snd (muscle_force_coefficients E emg q qdot mi s)
  | Do_muscle_force emg q qdot mi => snd (muscle_force E emg q qdot mi s)
  | Do_set_muscle_parameters index v => snd (set_muscle_parameters index v s)
  | Do_get_muscle_parameter index p => snd (get_muscle_parameter index p s)
  | Do_forward_dynamics q qdot controls controls_type =>
      snd (forward_dynamics E q qdot controls controls_type s)
  end.

Definition after_calls {V} (E : Engine V) (s : St V) (cs : list (Call V)) : St V :=
  foldl (after_call E) s cs.

(** A call that sets the parameter of muscle [index]. *)
Definition sets_muscle {V} (index : nat) (c : Call V) : Prop :=
  match c with
  | Do_set_muscle_parameters j _ => j = index
  | _ => False
  end.

(** The dimension a control vector of each kind is checked against: [n_q]
    for a torque, [n_muscles] for an excitation; no other kind is handled. *)
Definition expected_dimension {V} (m : Model V) (controls_type : ControlsTypes) : option nat :=
  match controls_type with
  | TORQUE => Some (nbQ m)
  | EMG => Some (nbMuscleTotal m)
  | OtherControl _ => None
  end.

(** ** Vocabulary of the properties *)

(** An operation that does not touch the muscles and their parameters. *)
Definition keeps_muscles {V A} (c : M V A) : Prop :=
  forall s, muscles (model (snd (c s))) = muscles (model s).

(** What an operation returns, when it returns. *)
Definition yields {V A} (c : M V A) (P : A -> Prop) : Prop :=
  forall s a s', c s = (Ok a, s') -> P a.

(** The optimal length the engine holds for muscle [index]. *)
Definition current_optimal_length {V} (index : nat) (s : St V) : option V :=
  optimal_length <$> muscles (model s) !! index.

(** The shape of an output array. *)
Definition shape_of {V} (o : Out V) : nat * nat :=
  (nrows (out_cells o), ncols (out_cells o)).

(** [o'] has the shape and the class of [o]. *)
Definition same_out {V} (o o' : Out V) : Prop :=
  shape_of o' = shape_of o /\ out_type o' = out_type o.

(** The dynamics function [integrate] binds for each kind of control, and
    the method name it passes to the solver. *)
Definition dynamics_of {V} (E : Engine V) (controls_type : ControlsTypes)
  (controls : Vector V) : option (V -> Vector V -> M V (Vector V)) :=
  match controls_type with
  | TORQUE => Some (fun t x => _forward_dynamics E (Some t) x controls)
  | EMG => Some (fun t x => _forward_dynamics_muscles E (Some t) x controls)
  | OtherControl _ => None
  end.

Definition method_name (integration_method : IntegrationMethods) : option string :=
  match integration_method with
  | RK45 => Some "RK45"
  | RK4 => Some "RK4"
  | OtherMethod _ => None
  end.

(** ** What a batch computes *)

(** [a[:, i]], where it exists. *)
Definition col {V} (a : Array V) (i : nat) : list V := default [] (column a i).

(** The model once [updateMuscles] has been called with a pose and a
    velocity, and the model in which the quantities of sample [i] of a
    batch are computed. *)
Definition with_kinematics {V} (m : Model V) (q : list V) (qdot : option (list V)) : Model V :=
  MkModel (use_casadi m) (nbQ m) (muscles m) (Some (q, qdot)) (muscle_states m).

Definition at_sample {V} (m : Model V) (q : Array V) (qdot : option (Array V)) (i : nat)
  : Model V :=
  with_kinematics m (col q i) ((fun qd => col qd i) <$> qdot).

(** The model after [k] samples of a batch. *)
Definition model_after {V} (m : Model V) (q : Array V) (qdot : option (Array V)) (k : nat)
  : Model V :=
  match k with
  | 0 => m
  | S i => at_sample m q qdot i
  end.

(** The class [_upcast_muscle] gives a muscle type. *)
Definition class_of (t : MuscleTypeId) : option MuscleClass :=
  match t with
  | IDEALIZED_ACTUATOR => Some IdealizedActuator
  | HILL => Some HillType
  | HILL_THELEN => Some HillThelenType
  | HILL_DE_GROOTE => Some HillDeGrooteType
  | OTHER_MUSCLE_TYPE _ => None
  end.

(** The entry [out[j, i]] of an output, and an output whose rows fit its
    shape. *)
Definition cell {V} (o : Out V) (j i : nat) : option (option V) := mat_get (out_cells o) j i.
Definition out_wf {V} (o : Out V) : Prop := mat_wf (out_cells o).

(** An output of shape [(n, k)] in which the entries [done] hold the
    values [f], which are defined there. *)
Definition filled {V} (o : Out V) (n k : nat) (f : nat -> nat -> option V)
  (done : nat -> nat -> Prop) : Prop :=
  out_wf o /\ shape_of o = (n, k) /\
  forall j i, done j i -> is_Some (f j i) /\ cell o j i = Some (f j i).

(** The entries written when the samples before [i] are complete and the
    muscles before [j] are done for sample [i]. *)
Definition progress (n i j : nat) (j' i' : nat) : Prop :=
  j' < n /\ i' < i \/ i' = i /\ j' < j.

(** The engine calls of a batch of [k] samples over the muscles [0 .. n),
    [per j] being the calls made for muscle [j]. *)
Definition sample_calls {V} (per : nat -> list (EngineCall V))
  (q : Array V) (qdot : option (Array V)) (n i : nat) : list (EngineCall V) :=
  Call_updateMuscles (col q i) ((fun qd => col qd i) <$> qdot)
  :: flat_map per (range 0 n).

Definition batch_calls {V} (per : nat -> list (EngineCall V))
  (q : Array V) (qdot : option (Array V)) (n k : nat) : list (EngineCall V) :=
  flat_map (sample_calls per q qdot n) (range 0 k).

(** The entries [muscles_kinematics] stores for muscle [j] and sample [i],
    and the engine calls it makes for a muscle. *)
Definition expected_length {V} (E : Engine V) (m : Model V)
  (q : Array V) (qdot : option (Array V)) (j i : nat) : V :=
  eng_length E (at_sample m q qdot i) j (col q i).

Definition expected_velocity {V} (E : Engine V) (m : Model V)
  (q qd : Array V) (j i : nat) : V :=
  eng_velocity E (at_sample m q (Some qd) i) j (col q i) (col qd i).

Definition kinematics_calls {V} (qdot : option (Array V)) (j : nat) : list (EngineCall V) :=
  match qdot with
  | Some _ => [Call_muscle j; Call_muscle j]
  | None => [Call_muscle j]
  end.

(** The outputs of [muscles_kinematics] when the samples before [i] are
    complete and the muscles before [j] are done for sample [i]. *)
Definition kinematics_inv {V} (E : Engine V) (m0 : Model V) (q : Array V) (qdot : option (Array V))
  (n k i j : nat) (acc : Out V * Out V) : Prop :=
  filled (fst acc) n k (fun j i => Some (expected_length E m0 q qdot j i))
    (progress n i j) /\
  match qdot with
  | Some qd =>
      filled (snd acc) n k (fun j i => Some (expected_velocity E m0 q qd j i))
        (progress n i j)
  | None => True
  end.

(** The class of muscle [j] of a model, when it has one. *)
Definition class_of_muscle {V} (m : Model V) (j : nat) : option MuscleClass :=
  match muscles m !! j with
  | Some mus => class_of (muscle_type mus)
  | None => None
  end.

(** The class of muscle [j] when it is one of the Hill classes. *)
Definition hill_class_of_muscle {V} (m : Model V) (j : nat) : option MuscleClass :=
  match class_of_muscle m j with
  | Some IdealizedActuator | None => None
  | Some c => Some c
  end.

(** The entries [muscle_force_coefficients] and [muscle_force] store for
    muscle [j] and sample [i]: the activation is the pair of the excitation
    [emg[j, i]] with itself. *)
Definition expected_flpe {V} (E : Engine V) (m : Model V)
  (q : Array V) (qdot : option (Array V)) (j i : nat) : option V :=
  match hill_class_of_muscle m j with
  | Some c => Some (eng_FlPE E (at_sample m q qdot i) c j)
  | None => None
  end.

Definition expected_flce {V} (E : Engine V) (m : Model V)
  (emg q : Array V) (qdot : option (Array V)) (j i : nat) : option V :=
  match hill_class_of_muscle m j, item emg j i with
  | Some c, Some e => Some (eng_FlCE E (at_sample m q qdot i) c j (e, e))
  | _, _ => None
  end.

Definition expected_fvce {V} (E : Engine V) (m : Model V)
  (q : Array V) (qdot : option (Array V)) (j i : nat) : option V :=
  match hill_class_of_muscle m j with
  | Some c => Some (eng_FvCE E (at_sample m q qdot i) c j)
  | None => None
  end.

Definition expected_force {V} (E : Engine V) (m : Model V) (data_type : DataType)
  (emg q : Array V) (qdot : option (Array V)) (j i : nat) : option V :=
  match class_of_muscle m j, item emg j i with
  | Some c, Some e =>
      let force := eng_force E (at_sample m q qdot i) c j (e, e) in
      Some (if use_casadi m
            then if decide (data_type = NdArray) then casadi_evaluate E force else force
            else force)
  | _, _ => None
  end.

(** The outputs of [muscle_force_coefficients] when the samples before [i]
    are complete and the muscles before [j] are done for sample [i]. *)
Definition coefficients_inv {V} (E : Engine V) (m0 : Model V)
  (emg q : Array V) (qdot : option (Array V))
  (n k i j : nat) (acc : Out V * Out V * Out V) : Prop :=
  filled (fst (fst acc)) n k (expected_flpe E m0 q qdot) (progress n i j) /\
  filled (snd (fst acc)) n k (expected_flce E m0 emg q qdot) (progress n i j) /\
  match qdot with
  | Some _ => filled (snd acc) n k (expected_fvce E m0 q qdot) (progress n i j)
  | None => True
  end.

(** ** The name of a model *)

(** [s.split(sep)] for a separator that is not empty: the pieces of [s]
    between the occurrences of [sep], found from left to right.  [skip]
    counts the characters of an occurrence that are still to be passed,
    [cur] is the piece being read. *)
Fixpoint split_from (sep : string) (skip : nat) (cur s : string) : list string :=
  match s with
  | EmptyString => [cur]
  | String c s' =>
      match skip with
      | S n => split_from sep n cur s'
      | 0 =>
          if String.prefix sep s
          then cur :: split_from sep (String.length sep - 1) "" s'
          else split_from sep 0 (cur ++ String c "") s'
      end
  end.

Definition split (sep s : string) : list string := split_from sep 0 "" s.

(** The property [name]: the engine gives the absolute path of the model
    file, and the name is
    [path.split("/")[-1].split(".bioMod")[0]]. *)
Definition name (path : string) : string :=
  hd "" (split ".bioMod" (default "" (last (split "/" path)))).

(** The character [c] occurs in [s]. *)
Fixpoint has_char (c : Ascii.ascii) (s : string) : bool :=
  match s with
  | EmptyString => false
  | String c' s' => Ascii.eqb c c' || has_char c s'
  end.

(** ** What stays of a model *)

(** Two models that differ in the kinematic cache and in optimal lengths
    at most: the casadi flag, the number of generalized coordinates, the
    muscle states and the type of every muscle are the same. *)
Definition same_topology {V} (m m' : Model V) : Prop :=
  use_casadi m' = use_casadi m /\ nbQ m' = nbQ m /\
  muscle_states m' = muscle_states m /\
  muscle_type <$> muscles m' = muscle_type <$> muscles m.

(** An operation that takes every model to a model related to it. *)
Definition frames {V A} (R : Model V -> Model V -> Prop) (c : M V A) : Prop :=
  forall s, R (model s) (model (snd (c s))).

(** ** Models used in the examples

    An engine over the integers whose results tell the muscle, the sample
    and the excitation apart, a model with five Hill muscles and one degree
    of freedom, and a solver that returns the initial state at every
    sample. *)

Module Fixture.

Local Open Scope Z_scope.

Definition engine : Engine Z :=
  MkEngine
    (fun _ j q => 100 * Z.of_nat j + hd 0 q)
    (fun _ j _ qdot => 100 * Z.of_nat j + hd 0 qdot)
    (fun _ _ j => 1000 + Z.of_nat j)
    (fun _ _ j a => 2000 + 10 * Z.of_nat j + fst a)
    (fun _ _ j => 3000 + Z.of_nat j)
    (fun _ _ j a => 4000 + 10 * Z.of_nat j + fst a)
    (fun _ states q _ => map (fun x => x + foldr Z.add 0 states) q)
    (fun _ _ _ tau => tau)
    (fun v => v)
    Z.of_nat.

Definition five_muscles : Model Z :=
  MkModel false 1 (replicate 5 (MkMuscle HILL 7)) None [0; 0; 0; 0; 0].

Definition start : St Z := MkSt five_muscles [].

Definition constant_solver
  (f : Z -> Vector Z -> M Z (Vector Z)) (t_span : Z * Z) (y0 : Vector Z)
  (method : string) (t_eval : list Z) : M Z (Solution Z) :=
  ret (Grid (Mat (length (vdata y0)) (length t_eval)
               (map (fun y => replicate (length t_eval) y) (vdata y0)))).

(** A solver that does what [solve_ivp] does with the method name and with
    a span of no length, where it evaluates the dynamics once before it
    finds that there is no step to take; on any other span it holds the
    initial state. *)
Definition documented_solver
  (f : Z -> Vector Z -> M Z (Vector Z)) (t_span : Z * Z) (y0 : Vector Z)
  (method : string) (t_eval : list Z) : M Z (Solution Z) :=
  if decide (method ∈ solver_methods)
  then
    if decide (fst t_span = snd t_span)
    then
      let! _ := f (fst t_span) y0 in
      ret NoSample
    else constant_solver f t_span y0 method t_eval
  else raise ValueError (SolverMethodUnknown method).

(** One sample of a one-degree-of-freedom pose, as a matrix and as a plain
    vector; excitations for the five muscles. *)
Definition pose : Array Z := Arr2 NdArray (Mat 1 1 [[3]]).
Definition velocity : Array Z := Arr2 NdArray (Mat 1 1 [[4]]).
Definition pose_1d : Array Z := Arr1 NdArray [3].
Definition velocity_1d : Array Z := Arr1 NdArray [4].
Definition excitation : Array Z := Arr2 NdArray (Mat 5 1 [[1]; [2]; [3]; [4]; [5]]).
Definition excitation_1d : Array Z := Arr1 NdArray [1; 2; 3; 4; 5].
Definition symbolic_pose : Array Z := Arr2 MX (Mat 1 1 [[3]]).

(** State and control vectors for the same model. *)
Definition q0 : Vector Z := Vec NdArray [3].
Definition qdot0 : Vector Z := Vec NdArray [4].
Definition torque : Vector Z := Vec NdArray [9].
Definition long_torque : Vector Z := Vec NdArray [9; 9].
Definition symbolic_long_torque : Vector Z := Vec MX [9; 9].
Definition symbolic_torque : Vector Z := Vec MX [9].
Definition excitations : Vector Z := Vec NdArray [1; 2; 3; 4; 5].
Definition other_excitations : Vector Z := Vec NdArray [0; 0; 0; 9; 9].

(** Two samples of the pose and of the velocity, excitations with a column
    for each, and a pose without samples. *)
Definition poses : Matrix Z := Mat 1 2 [[3; 5]].
Definition velocities : Matrix Z := Mat 1 2 [[4; 6]].
Definition excitation_rows : Matrix Z :=
  Mat 5 2 [[1; 10]; [2; 20]; [3; 30]; [4; 40]; [5; 50]].
Definition no_pose : Matrix Z := Mat 1 0 [[]].

(** A model whose third muscle is of a type the code does not name. *)
Definition odd_muscles : Model Z :=
  MkModel false 1
    [MkMuscle HILL 7; MkMuscle HILL_THELEN 7; MkMuscle (OTHER_MUSCLE_TYPE 9) 7]
    None [0; 0; 0].

Definition odd_start : St Z := MkSt odd_muscles [].

(** The five muscles on the casadi engine, and a model that begins with an
    idealized actuator. *)
Definition casadi_muscles : Model Z :=
  MkModel true 1 (replicate 5 (MkMuscle HILL 7)) None [0; 0; 0; 0; 0].

Definition casadi_start : St Z := MkSt casadi_muscles [].

Definition actuator_first : Model Z :=
  MkModel false 1 [MkMuscle IDEALIZED_ACTUATOR 7; MkMuscle HILL 7] None [0; 0].

Definition actuator_start : St Z := MkSt actuator_first [].

End Fixture.

(** * Properties *)

(** ** Running an operation *)

Section Running.

Context {V : Type}.

Lemma bind_ok {A B} (c : M V A) (k : A -> M V B) s a s' :
  c s = (Ok a, s') -> bind c k s = k a s'.
Proof. intros H. unfold bind. now rewrite H. Qed.

Lemma bind_raise {A B} (c : M V A) (k : A -> M V B) s e s' :
  c s = (Raise e, s') -> bind c k s = (Raise e, s').
Proof. intros H. unfold bind. now rewrite H. Qed.

Lemma bind_ret {A B} (a : A) (k : A -> M V B) s : bind (ret a) k s = k a s.
Proof. reflexivity. Qed.

Lemma bind_inv {A B} (c : M V A) (k : A -> M V B) s b s' :
  bind c k s = (Ok b, s') ->
  exists a s1, c s = (Ok a, s1) /\ k a s1 = (Ok b, s').
Proof.
  unfold bind. destruct (c s) as [[a|e] s1]; [eauto | discriminate].
Qed.

Lemma index_inv {A} (o : option A) (s : St V) a s' :
  index o s = (Ok a, s') -> o = Some a /\ s' = s.
Proof. destruct o; simpl; unfold ret, raise; now intros [= -> ->]. Qed.

Lemma isinstance_true ty data_type : ty = data_type -> isinstance ty data_type = true.
Proof. intros ->. unfold isinstance. now apply bool_decide_eq_true. Qed.

Lemma isinstance_false ty data_type : ty <> data_type -> isinstance ty data_type = false.
Proof. intros H. unfold isinstance. now apply bool_decide_eq_false. Qed.

End Running.

(** ** The guards at the head of each method *)

Section Guards.

Context {V : Type}.
Variable E : Engine V.

(** C6.  When the velocities are not of the class of the poses,
    [muscles_kinematics] raises the same-type error; when the poses, or the
    velocities that were given, are not of the class of the excitations,
    so does [muscle_force_coefficients].  In both cases the state is the
    one the call started in: the model is as it was and the engine has not
    been called. *)
Theorem type_mismatch_fails_fast :
  (forall (q qd : Array V) muscle_index s,
     array_type qd <> array_type q ->
     exists e, is_type_mismatch e /\
       muscles_kinematics E q (Some qd) muscle_index s = (Raise e, s)) /\
  (forall (emg q : Array V) qdot muscle_index s,
     (array_type q <> array_type emg \/
      exists qd, qdot = Some qd /\ array_type qd <> array_type emg) ->
     exists e, is_type_mismatch e /\
       muscle_force_coefficients E emg q qdot muscle_index s = (Raise e, s)).
Proof.
  split.
  - intros q qd mi s Hne.
    exists (Exc ValueError (MustHaveSameType "q and qdot")). split; [now eexists|].
    unfold muscles_kinematics. now rewrite (isinstance_false _ _ Hne).
  - intros emg q qdot mi s Hne.
    exists (Exc ValueError (MustHaveSameType "emg, q and qdot")). split; [now eexists|].
    unfold muscle_force_coefficients.
    destruct Hne as [Hq | (qd & -> & Hqd)].
    + now rewrite (isinstance_false _ _ Hq).
    + rewrite (isinstance_false _ _ Hqd). simpl. now rewrite orb_true_r.
Qed.

Variable solve_ivp :
  (V -> Vector V -> M V (Vector V)) -> V * V -> Vector V -> string -> list V ->
  M V (Solution V).

(** C10.  When the controls are not of the class of the initial state,
    [integrate] raises the same-type error in the state it was called in,
    whatever the solver: the dynamics function has not been built, and
    neither the solver nor the engine has been called. *)
Theorem integrate_type_mismatch_fails_fast
  (t : list V) (states controls : Vector V) controls_type integration_method s :
  vtype controls <> vtype states ->
  exists e, is_type_mismatch e /\
    integrate E solve_ivp t states controls controls_type integration_method s
    = (Raise e, s).
Proof.
  intros Hne.
  exists (Exc ValueError (MustHaveSameType "states and controls")). split; [now eexists|].
  unfold integrate. now rewrite (isinstance_false _ _ Hne).
Qed.

(** X7.  When the poses are not of the class of the excitations, or the
    velocities are not (or are missing), [muscle_force] raises the
    same-type error in the state the call started in. *)
Lemma muscle_force_type_mismatch_fails_fast (emg q : Array V) qdot muscle_index s :
  (array_type q <> array_type emg \/
   forall qd, qdot = Some qd -> array_type qd <> array_type emg) ->
  exists e, is_type_mismatch e /\
    muscle_force E emg q qdot muscle_index s = (Raise e, s).
Proof.
  intros Hne.
  exists (Exc ValueError (MustHaveSameType "emg, q and qdot")). split; [now eexists|].
  unfold muscle_force. destruct Hne as [Hq | Hqd].
  - now rewrite (isinstance_false _ _ Hq).
  - destruct qdot as [qd|]; simpl.
    + rewrite (isinstance_false _ _ (Hqd qd eq_refl)). simpl. now rewrite orb_true_r.
    + now rewrite orb_true_r.
Qed.

(** The dispatch on the kind of control, shared by [forward_dynamics] and
    [integrate]: a control of the wrong length raises in place. *)
Lemma forward_dynamics_same_type (q qdot controls : Vector V) :
  vtype qdot = vtype q -> vtype controls = vtype q ->
  negb (isinstance (vtype qdot) (vtype q)) || negb (isinstance (vtype controls) (vtype q))
  = false.
Proof. intros H1 H2. now rewrite !isinstance_true. Qed.

(** C4, as the code has it.  The classes of pose, velocity and controls
    are compared first.  When they agree, a control vector whose length is
    not the one expected for its kind raises the dimension error, and a kind
    that is neither torque nor excitation raises the not-implemented error;
    when they do not agree the same-type error is raised whatever the length
    and the kind.  In each case the state is the one the call started in:
    the engine has not been called and the kinematic cache is untouched. *)
Theorem forward_dynamics_checks_controls (q qdot controls : Vector V) controls_type s :
  (vtype qdot = vtype q -> vtype controls = vtype q ->
   forall n, expected_dimension (model s) controls_type = Some n ->
     length (vdata controls) <> n ->
     exists e, is_dimension_mismatch e /\
       forward_dynamics E q qdot controls controls_type s = (Raise e, s)) /\
  (vtype qdot = vtype q -> vtype controls = vtype q ->
   expected_dimension (model s) controls_type = None ->
     exists e, is_unsupported_control e /\
       forward_dynamics E q qdot controls controls_type s = (Raise e, s)) /\
  (vtype qdot <> vtype q \/ vtype controls <> vtype q ->
     exists e, is_type_mismatch e /\
       forward_dynamics E q qdot controls controls_type s = (Raise e, s)).
Proof.
  split; [|split].
  - intros H1 H2 n Hn Hlen. unfold forward_dynamics.
    rewrite (forward_dynamics_same_type _ _ _ H1 H2).
    destruct controls_type as [| |tag]; simpl in Hn; [| |discriminate];
      injection Hn as <-.
    + exists (Exc ValueError
                (TorqueControlsShouldHave (nbQ (model s)) (length (vdata controls)))).
      split; [eexists _, _; split; [|right; reflexivity]; assumption|].
      unfold bind, n_q, gets; simpl.
      now destruct (decide (length (vdata controls) <> nbQ (model s))).
    + exists (Exc ValueError
                (EmgControlsShouldHave (nbMuscleTotal (model s)) (length (vdata controls)))).
      split; [eexists _, _; split; [|left; reflexivity]; assumption|].
      unfold bind, n_muscles, gets; simpl.
      now destruct (decide (length (vdata controls) <> nbMuscleTotal (model s))).
  - intros H1 H2 Hn. unfold forward_dynamics.
    rewrite (forward_dynamics_same_type _ _ _ H1 H2).
    destruct controls_type as [| |tag]; try discriminate.
    exists (Exc NotImplementedError (ControlNotImplemented (OtherControl tag))).
    split; [now eexists|]. reflexivity.
  - intros Hne.
    exists (Exc ValueError (MustHaveSameType "q, qdot and controls")). split; [now eexists|].
    unfold forward_dynamics. destruct Hne as [Hne | Hne];
      rewrite (isinstance_false _ _ Hne); simpl; [reflexivity|].
    now rewrite orb_true_r.
Qed.


(** X3.  [integrate] has the same dispatch on the kind of control: with
    controls of the class of the initial state, a length other than the
    one their kind asks for raises the dimension error, and a kind that is
    neither torque nor muscle the unsupported-control error, in the state
    the call started in. *)
Lemma integrate_checks_controls
  (t : list V) (states controls : Vector V) controls_type integration_method s :
  vtype controls = vtype states ->
  (forall n, expected_dimension (model s) controls_type = Some n ->
     length (vdata controls) <> n) ->
  exists e,
    integrate E solve_ivp t states controls controls_type integration_method s
    = (Raise e, s) /\
    match expected_dimension (model s) controls_type with
    | Some _ => is_dimension_mismatch e
    | None => is_unsupported_control e
    end.
Proof.
  intros Hty Hlen. unfold integrate. rewrite (isinstance_true _ _ Hty); simpl negb; cbv iota.
  destruct controls_type as [| |tag]; simpl in *.
  - specialize (Hlen _ eq_refl). eexists. split.
    + unfold bind, n_q, gets; simpl.
      destruct (decide (length (vdata controls) <> nbQ (model s))); [reflexivity|tauto].
    + eexists _, _. split; [|right; reflexivity]. assumption.
  - specialize (Hlen _ eq_refl). eexists. split.
    + unfold bind, n_muscles, gets; simpl.
      destruct (decide (length (vdata controls) <> nbMuscleTotal (model s)));
        [reflexivity|tauto].
    + eexists _, _. split; [|left; reflexivity]. assumption.
  - eexists. split; [reflexivity | now eexists].
Qed.

End Guards.

(** ** What an operation leaves of the model *)

Section Frame.

Context {V : Type}.

Lemma keeps_ret {A} (a : A) : keeps_muscles (@ret V A a).
Proof. now intros s. Qed.

Lemma keeps_raise {A} c msg : keeps_muscles (@raise V A c msg).
Proof. now intros s. Qed.

Lemma keeps_gets {A} (f : Model V -> A) : keeps_muscles (gets f).
Proof. now intros s. Qed.

Lemma keeps_record_call c : keeps_muscles (@record_call V c).
Proof. now intros s. Qed.

Lemma keeps_index {A} (o : option A) : keeps_muscles (@index V A o).
Proof. destruct o; [apply keeps_ret | apply keeps_raise]. Qed.

Lemma keeps_bind {A B} (c : M V A) (k : A -> M V B) :
  keeps_muscles c -> (forall a, keeps_muscles (k a)) -> keeps_muscles (bind c k).
Proof.
  intros Hc Hk s. unfold bind. specialize (Hc s).
  destruct (c s) as [[a|e] s']; simpl in *; [|assumption].
  now rewrite Hk.
Qed.

Lemma keeps_bind_post {A B} (Q : A -> Prop) (c : M V A) (k : A -> M V B) :
  keeps_muscles c ->
  (forall s a s', c s = (Ok a, s') -> Q a) ->
  (forall a, Q a -> keeps_muscles (k a)) ->
  keeps_muscles (bind c k).
Proof.
  intros Hc HQ Hk s. unfold bind. specialize (Hc s). specialize (HQ s).
  destruct (c s) as [[a|e] s']; simpl in *; [|assumption].
  rewrite (Hk a); eauto.
Qed.

Lemma keeps_for_each {X S} (xs : list X) (body : X -> S -> M V S) acc :
  (forall x a, keeps_muscles (body x a)) -> keeps_muscles (for_each xs body acc).
Proof.
  intros Hbody. revert acc.
  induction xs as [|x xs IH]; intros acc; simpl.
  - apply keeps_ret.
  - apply keeps_bind; [apply Hbody | intros a; apply IH].
Qed.

Lemma keeps_updateMuscles q qdot : keeps_muscles (@updateMuscles V q qdot).
Proof. now intros s. Qed.

Lemma keeps_muscle j : keeps_muscles (@muscle V j).
Proof.
  intros s. unfold muscle, bind, record_call, gets; simpl.
  now destruct (muscles (model s) !! j).
Qed.

Lemma keeps_upcast (mus : Muscle V) : keeps_muscles (_upcast_muscle mus).
Proof.
  unfold _upcast_muscle.
  repeat (case_decide; [apply keeps_ret|]). apply keeps_raise.
Qed.

Lemma keeps_store_result (out : Out V) j i x : keeps_muscles (store_result out j i x).
Proof.
  intros s. unfold store_result, bind, gets, index, ret, raise; simpl.
  destruct (use_casadi (model s)); [destruct (out_type out)|];
    now destruct (store out j i x).
Qed.

Lemma keeps_hill_coefficient attribute mus (value : Model V -> V) :
  keeps_muscles (hill_coefficient attribute mus value).
Proof. destruct mus; first [apply keeps_raise | apply keeps_gets]. Qed.

End Frame.

Ltac keeps_step :=
  first
    [ apply keeps_ret | apply keeps_raise | apply keeps_gets | apply keeps_record_call
    | apply keeps_index | apply keeps_updateMuscles | apply keeps_muscle
    | apply keeps_upcast | apply keeps_store_result | apply keeps_hill_coefficient
    | apply keeps_bind; [|intros ?]
    | apply keeps_for_each; intros ? ?
    | match goal with
      | |- keeps_muscles (match ?x with _ => _ end) => destruct x
      | |- keeps_muscles (let (_, _) := ?x in _) => destruct x
      end ].

Ltac keeps := repeat keeps_step.

Section FrameOfMethods.

Context {V : Type}.
Variable E : Engine V.

Lemma keeps_update_sample (q : Array V) qdot i : keeps_muscles (update_sample q qdot i).
Proof. unfold update_sample. keeps. Qed.

Lemma keeps_kinematics_of_muscle (q : Array V) qdot i j acc :
  keeps_muscles (kinematics_of_muscle E q qdot i j acc).
Proof. unfold kinematics_of_muscle. keeps. Qed.

Lemma keeps_coefficients_of_muscle (emg : Array V) qdot i j acc :
  keeps_muscles (coefficients_of_muscle E emg qdot i j acc).
Proof. unfold coefficients_of_muscle. keeps. Qed.

Lemma keeps_force_of_muscle data_type (emg : Array V) muscle_index i j acc :
  keeps_muscles (force_of_muscle E data_type emg muscle_index i j acc).
Proof. unfold force_of_muscle. keeps. Qed.

Lemma keeps_muscles_kinematics (q : Array V) qdot mi :
  keeps_muscles (muscles_kinematics E q qdot mi).
Proof.
  unfold muscles_kinematics, n_muscles.
  keeps; first [apply keeps_update_sample | apply keeps_kinematics_of_muscle].
Qed.

Lemma keeps_muscle_force_coefficients (emg q : Array V) qdot mi :
  keeps_muscles (muscle_force_coefficients E emg q qdot mi).
Proof.
  unfold muscle_force_coefficients, n_muscles.
  keeps; first [apply keeps_update_sample | apply keeps_coefficients_of_muscle].
Qed.

Lemma keeps_muscle_force (emg q : Array V) qdot mi :
  keeps_muscles (muscle_force E emg q qdot mi).
Proof.
  unfold muscle_force, n_muscles.
  keeps; first [apply keeps_update_sample | apply keeps_force_of_muscle].
Qed.

Lemma keeps__forward_dynamics t (x tau : Vector V) :
  keeps_muscles (_forward_dynamics E t x tau).
Proof. unfold _forward_dynamics, engine_result, n_q. keeps. Qed.

Lemma keeps__forward_dynamics_muscles t (x emg : Vector V) :
  keeps_muscles (_forward_dynamics_muscles E t x emg).
Proof.
  unfold _forward_dynamics_muscles, engine_result, n_q. keeps.
Qed.

Lemma keeps_forward_dynamics (q qdot controls : Vector V) controls_type :
  keeps_muscles (forward_dynamics E q qdot controls controls_type).
Proof.
  unfold forward_dynamics.
  destruct (negb _ || negb _); [apply keeps_raise|].
  apply keeps_bind_post with (Q := fun func => forall x, keeps_muscles (func x)).
  - unfold n_q, n_muscles. repeat case_decide; keeps.
  - intros s func s'. unfold bind, n_q, n_muscles, gets, ret, raise; simpl.
    repeat case_decide; simpl; intros [= <- <-]; intros x.
    + apply keeps__forward_dynamics_muscles.
    + apply keeps__forward_dynamics.
  - intros func Hfunc. unfold n_q. keeps. apply Hfunc.
Qed.

End FrameOfMethods.

(** ** The dynamics function *)

Section Dynamics.

Context {V : Type}.
Variable E : Engine V.

(** The derivative computed from a state under muscle control: the torque
    is the one the engine derives from its own muscle states. *)
Lemma _forward_dynamics_muscles_unfold t (x emg : Vector V) s :
  _forward_dynamics_muscles E t x emg s =
  let q := take (nbQ (model s)) (vdata x) in
  let qdot := drop (nbQ (model s)) (vdata x) in
  let tau := eng_muscularJointTorque E (model s) (muscle_states (model s)) q qdot in
  let ty := if use_casadi (model s) then MX else NdArray in
  (Ok (Vec (vtype x) (qdot ++ eng_ForwardDynamics E (model s) q qdot tau)),
   MkSt (model s)
     (((trace s ++ [Call_stateSet]) ++ [Call_muscularJointTorque q qdot])
        ++ [Call_ForwardDynamics q qdot tau])).
Proof. reflexivity. Qed.

Lemma forward_dynamics_returns_same_type
  (q qdot controls : Vector V) controls_type s d s' :
  forward_dynamics E q qdot controls controls_type s = (Ok d, s') ->
  vtype qdot = vtype q /\ vtype controls = vtype q.
Proof.
  unfold forward_dynamics, isinstance.
  destruct (decide (vtype qdot = vtype q)) as [Hq|Hq];
    [rewrite (bool_decide_eq_true_2 _ Hq) | now rewrite (bool_decide_eq_false_2 _ Hq)].
  destruct (decide (vtype controls = vtype q)) as [Hc|Hc];
    [now split | now rewrite (bool_decide_eq_false_2 _ Hc)].
Qed.

(** Under muscle control the values of the excitations are not read. *)
Lemma excitation_values_not_read (q qdot : Vector V) (ty : DataType) (e1 e2 : list V) s :
  length e1 = nbMuscleTotal (model s) ->
  length e2 = nbMuscleTotal (model s) ->
  forward_dynamics E q qdot (Vec ty e1) EMG s = forward_dynamics E q qdot (Vec ty e2) EMG s.
Proof.
  intros H1 H2. unfold forward_dynamics.
  destruct (negb _ || negb _); [reflexivity|].
  unfold bind, n_muscles, n_q, gets, ret, raise; simpl. rewrite H1, H2.
  now destruct (decide (nbMuscleTotal (model s) <> nbMuscleTotal (model s))).
Qed.

Lemma forward_dynamics_of_excitation_returns (q qdot e : Vector V) s :
  vtype qdot = vtype q -> vtype e = vtype q ->
  length (vdata e) = nbMuscleTotal (model s) ->
  exists d s', forward_dynamics E q qdot e EMG s = (Ok d, s').
Proof.
  intros Hqd Hty Hlen. unfold forward_dynamics.
  rewrite (forward_dynamics_same_type q qdot e Hqd Hty).
  unfold bind, n_muscles, n_q, gets, ret, raise; simpl. rewrite Hlen.
  destruct (decide (nbMuscleTotal (model s) <> nbMuscleTotal (model s))); [congruence|].
  rewrite _forward_dynamics_muscles_unfold. simpl. eauto.
Qed.

(** C2.  Under muscle control the excitations are checked for their length
    and then not read.  For any two excitation vectors of [n_muscles]
    entries each: the derivatives returned for them are the same, and so
    are the states left behind; when the two are of one class the calls
    are equal altogether, errors included; and when that class is the one
    of the pose and of the velocity, the call does return a derivative. *)
Theorem excitation_has_no_effect (q qdot e1 e2 : Vector V) s :
  length (vdata e1) = nbMuscleTotal (model s) ->
  length (vdata e2) = nbMuscleTotal (model s) ->
  (forall d1 s1 d2 s2,
     forward_dynamics E q qdot e1 EMG s = (Ok d1, s1) ->
     forward_dynamics E q qdot e2 EMG s = (Ok d2, s2) ->
     d1 = d2 /\ s1 = s2) /\
  (vtype e1 = vtype e2 ->
   forward_dynamics E q qdot e1 EMG s = forward_dynamics E q qdot e2 EMG s) /\
  (vtype qdot = vtype q -> vtype e1 = vtype q ->
   exists d s', forward_dynamics E q qdot e1 EMG s = (Ok d, s')).
Proof.
  intros H1 H2.
  assert (Hsame : vtype e1 = vtype e2 ->
            forward_dynamics E q qdot e1 EMG s = forward_dynamics E q qdot e2 EMG s).
  { destruct e1 as [ty1 d1], e2 as [ty2 d2]; simpl in *. intros <-.
    now apply excitation_values_not_read. }
  split; [|split].
  - intros d1 s1 d2 s2 Hd1 Hd2.
    destruct (forward_dynamics_returns_same_type _ _ _ _ _ _ _ Hd1) as [_ Ht1].
    destruct (forward_dynamics_returns_same_type _ _ _ _ _ _ _ Hd2) as [_ Ht2].
    rewrite Hsame in Hd1 by congruence. rewrite Hd1 in Hd2. now injection Hd2 as <- <-.
  - exact Hsame.
  - intros Hqd Hty. now apply forward_dynamics_of_excitation_returns.
Qed.

End Dynamics.

(** ** The parameter accessor *)

Section Parameters.

Context {V : Type}.
Variable E : Engine V.

Lemma muscle_found j (mus : Muscle V) s :
  muscles (model s) !! j = Some mus ->
  muscle j s = (Ok mus, MkSt (model s) (trace s ++ [Call_muscle j])).
Proof. intros H. unfold muscle, bind, record_call, gets; simpl. now rewrite H. Qed.

Lemma muscle_missing j (s : St V) :
  muscles (model s) !! j = None ->
  muscle j s
  = (Raise (Exc RuntimeError EngineFailure), MkSt (model s) (trace s ++ [Call_muscle j])).
Proof. intros H. unfold muscle, bind, record_call, gets; simpl. now rewrite H. Qed.

(** C7.  A parameter kind other than the optimal length raises the
    not-implemented error in the state the call started in, for every
    index.  For the optimal length of a muscle of the model, the muscle is
    fetched and the model is left as it was; the value the engine holds is
    returned on the casadi engine only: on the numeric engine the call
    raises [AttributeError], [to_mx] being called on a float. *)
Theorem get_muscle_parameter_cases :
  (forall index p (s : St V),
     p <> OPTIMAL_LENGTH ->
     exists e, is_unimplemented_parameter e /\
       get_muscle_parameter index p s = (Raise e, s)) /\
  (forall index (mus : Muscle V) s,
     muscles (model s) !! index = Some mus ->
     get_muscle_parameter index OPTIMAL_LENGTH s
     = (if use_casadi (model s)
        then Ok (optimal_length mus)
        else Raise (Exc AttributeError (NoAttribute "to_mx")),
        MkSt (model s) (trace s ++ [Call_muscle index]))).
Proof.
  split.
  - intros index p s Hp.
    exists (Exc NotImplementedError (ParameterNotImplemented p)). split; [now eexists|].
    unfold get_muscle_parameter. now destruct (decide (p = OPTIMAL_LENGTH)).
  - intros index mus s Hmus. unfold get_muscle_parameter; simpl.
    rewrite (bind_ok _ _ _ _ _ (muscle_found _ _ _ Hmus)).
    unfold bind, gets, ret, raise; simpl. now destruct (use_casadi (model s)).
Qed.

Lemma set_muscle_parameters_sets index v (s : St V) :
  index < nbMuscleTotal (model s) ->
  fst (set_muscle_parameters index v s) = Ok tt /\
  current_optimal_length index (snd (set_muscle_parameters index v s)) = Some v.
Proof.
  intros Hlt. destruct (lookup_lt_is_Some_2 (muscles (model s)) index Hlt) as [mus Hmus].
  unfold set_muscle_parameters.
  rewrite (bind_ok _ _ _ _ _ (muscle_found _ _ _ Hmus)).
  unfold current_optimal_length, bind, record_call, modify; simpl. split; [reflexivity|].
  rewrite list_lookup_alter_eq, Hmus. reflexivity.
Qed.

Lemma set_muscle_parameters_other index j v (s : St V) :
  j <> index ->
  current_optimal_length index (snd (set_muscle_parameters j v s))
  = current_optimal_length index s.
Proof.
  intros Hne. unfold set_muscle_parameters, current_optimal_length.
  destruct (muscles (model s) !! j) as [mus|] eqn:Hmus.
  - rewrite (bind_ok _ _ _ _ _ (muscle_found _ _ _ Hmus)).
    unfold bind, record_call, modify; simpl.
    now rewrite list_lookup_alter_ne.
  - now rewrite (bind_raise _ _ _ _ _ (muscle_missing _ _ Hmus)).
Qed.

Lemma get_muscle_parameter_keeps index p : keeps_muscles (@get_muscle_parameter V index p).
Proof. unfold get_muscle_parameter. case_decide; keeps. Qed.

(** No call but a set on muscle [index] changes its optimal length. *)
Lemma after_call_optimal_length index (c : Call V) s :
  ~ sets_muscle index c ->
  current_optimal_length index (after_call E s c) = current_optimal_length index s.
Proof.
  intros Hc. unfold current_optimal_length.
  destruct c; simpl in *;
    try (now rewrite ?keeps_muscles_kinematics, ?keeps_muscle_force_coefficients,
           ?keeps_muscle_force, ?keeps_forward_dynamics, ?get_muscle_parameter_keeps).
  now apply set_muscle_parameters_other.
Qed.

Lemma after_calls_optimal_length index (cs : list (Call V)) s :
  Forall (fun c => ~ sets_muscle index c) cs ->
  current_optimal_length index (after_calls E s cs) = current_optimal_length index s.
Proof.
  intros Hcs. revert s. induction Hcs as [|c cs Hc _ IH]; intros s; simpl.
  - reflexivity.
  - unfold after_calls in *; simpl. now rewrite IH, after_call_optimal_length.
Qed.

End Parameters.

(** ** The batch evaluator *)

Section Batches.

Context {V : Type}.
Variable E : Engine V.

Lemma store_shape (o o' : Out V) j i v :
  store o j i v = Some o' -> shape_of o' = shape_of o /\ out_type o' = out_type o.
Proof.
  unfold store, mat_set.
  destruct (decide (j < nrows (out_cells o) /\ i < ncols (out_cells o)));
    simpl; now intros [= <-].
Qed.

Lemma store_inside (o : Out V) j i v :
  j < fst (shape_of o) -> i < snd (shape_of o) -> is_Some (store o j i v).
Proof.
  unfold shape_of, store, mat_set; simpl. intros Hj Hi.
  destruct (decide (j < nrows (out_cells o) /\ i < ncols (out_cells o))); [|tauto].
  simpl. eauto.
Qed.

Lemma store_outside (o : Out V) j i v :
  fst (shape_of o) <= j -> store o j i v = None.
Proof.
  unfold shape_of, store, mat_set; simpl. intros Hj.
  destruct (decide (j < nrows (out_cells o) /\ i < ncols (out_cells o))); [lia|].
  reflexivity.
Qed.

Lemma alloc_shape data_type n k : shape_of (@alloc V data_type n k) = (n, k).
Proof. reflexivity. Qed.

(** On the numeric engine a result is stored as any value is; numpy's
    [data_type((n, k))] is an array of that shape. *)
Lemma bind_store_result {B} (o : Out V) j i x (k : Out V -> M V B) s :
  use_casadi (model s) = false ->
  bind (store_result o j i x) k s = bind (index (store o j i x)) k s.
Proof. intros H. unfold store_result, bind at 1 2, gets. now rewrite H. Qed.

Lemma store_result_numeric (o : Out V) j i x s :
  use_casadi (model s) = false -> store_result o j i x s = index (store o j i x) s.
Proof. intros H. unfold store_result, bind, gets. now rewrite H. Qed.

Lemma store_result_inv (o o' : Out V) j i x s s' :
  store_result o j i x s = (Ok o', s') -> store o j i x = Some o' /\ s' = s.
Proof.
  unfold store_result, bind, gets, raise.
  destruct (use_casadi (model s)).
  - destruct (out_type o); [|discriminate..]. simpl.
    now destruct (store o j i x).
  - intros H. now apply index_inv in H.
Qed.

Lemma alloc_tuple_numpy number n k : @alloc_tuple V number NdArray n k = alloc NdArray n k.
Proof. reflexivity. Qed.

Lemma bind_hill_coefficient {B} attribute c (value : Model V -> V) (k : V -> M V B) s :
  c <> IdealizedActuator ->
  bind (hill_coefficient attribute c value) k s = k (value (model s)) s.
Proof. now destruct c. Qed.

(** What holds of the accumulator before a loop and is kept by every
    iteration that completes holds after the loop, if it completes. *)
Lemma for_each_post {X S} (P : S -> Prop) (xs : list X) (body : X -> S -> M V S) :
  (forall x a s a' s', P a -> body x a s = (Ok a', s') -> P a') ->
  forall acc s acc' s', P acc -> for_each xs body acc s = (Ok acc', s') -> P acc'.
Proof.
  intros Hbody. induction xs as [|x xs IH]; intros acc s acc' s' Hacc; simpl.
  - unfold ret. now intros [= <- _].
  - intros Hrun. apply bind_inv in Hrun as (a & s1 & Hx & Hrest). eauto.
Qed.

(** A loop whose every iteration completes, keeping an invariant of the
    accumulator and the state, completes. *)
Lemma for_each_completes {X S} (I : S -> St V -> Prop) (xs : list X)
  (body : X -> S -> M V S) :
  (forall x a s, x ∈ xs -> I a s -> exists a' s', body x a s = (Ok a', s') /\ I a' s') ->
  forall acc s, I acc s ->
    exists acc' s', for_each xs body acc s = (Ok acc', s') /\ I acc' s'.
Proof.
  induction xs as [|x xs IH]; intros Hbody acc s Hacc; simpl.
  - eauto.
  - destruct (Hbody x acc s) as (a & s1 & Hx & Ha); [left | assumption |].
    rewrite (bind_ok _ _ _ _ _ Hx). apply IH; [|assumption].
    intros y b t Hy. apply Hbody. now right.
Qed.

(** The iteration at which a loop raises, after a prefix that completes. *)
Lemma for_each_raises {X S} (xs ys : list X) (x : X) (body : X -> S -> M V S)
  acc s a1 s1 e s2 :
  for_each xs body acc s = (Ok a1, s1) ->
  body x a1 s1 = (Raise e, s2) ->
  for_each (xs ++ x :: ys) body acc s = (Raise e, s2).
Proof.
  revert acc s. induction xs as [|z xs IH]; intros acc s; simpl.
  - unfold ret. intros [= -> ->] Hx. now rewrite (bind_raise _ _ _ _ _ Hx).
  - intros Hrun Hx. apply bind_inv in Hrun as (a & t & Hz & Hrest).
    rewrite (bind_ok _ _ _ _ _ Hz). eauto.
Qed.

Lemma elem_of_range lo hi j : j ∈ range lo hi <-> lo <= j < hi.
Proof. unfold range. rewrite elem_of_seq. lia. Qed.

Lemma length_range lo hi : length (range lo hi) = hi - lo.
Proof. unfold range. apply length_seq. Qed.


(** *** What an operation returns, when it returns *)

Lemma yields_any {A} (c : M V A) : yields c (fun _ => True).
Proof. now intros s a s' _. Qed.

Lemma yields_ret {A} (a : A) (P : A -> Prop) : P a -> yields (@ret V A a) P.
Proof. intros Ha s b s'. unfold ret. now intros [= <- _]. Qed.

Lemma yields_raise {A} c msg (P : A -> Prop) : yields (@raise V A c msg) P.
Proof. intros s a s'. unfold raise. discriminate. Qed.

Lemma yields_bind {A B} (c : M V A) (k : A -> M V B) (Q : A -> Prop) (P : B -> Prop) :
  yields c Q -> (forall a, Q a -> yields (k a) P) -> yields (bind c k) P.
Proof.
  intros Hc Hk s b s' Hrun. apply bind_inv in Hrun as (a & s1 & Ha & Hb).
  exact (Hk a (Hc _ _ _ Ha) _ _ _ Hb).
Qed.

Lemma yields_index {A} (o : option A) (P : A -> Prop) :
  (forall a, o = Some a -> P a) -> yields (@index V A o) P.
Proof. intros Ho s a s' Hrun. apply index_inv in Hrun as [-> _]. now apply Ho. Qed.

Lemma yields_store (o : Out V) j i v :
  yields (V := V) (index (store o j i v))
    (fun o' => shape_of o' = shape_of o /\ out_type o' = out_type o).
Proof. apply yields_index. intros o'. apply store_shape. Qed.

Lemma yields_store_result (o : Out V) j i v :
  yields (store_result o j i v)
    (fun o' => shape_of o' = shape_of o /\ out_type o' = out_type o).
Proof.
  intros s o' s' Hrun. apply store_result_inv in Hrun as [Hrun _].
  now apply store_shape in Hrun.
Qed.

Lemma yields_for_each {X S} (P : S -> Prop) (xs : list X) (body : X -> S -> M V S) acc :
  P acc -> (forall x a, P a -> yields (body x a) P) -> yields (for_each xs body acc) P.
Proof.
  intros Hacc Hbody s acc' s' Hrun.
  apply (for_each_post P xs body) with (acc := acc) (s := s) (s' := s'); try assumption.
  intros x a t a' t' Ha Hx. exact (Hbody x a Ha _ _ _ Hx).
Qed.

(** Skip a step whose result does not matter, and follow a store. *)
Ltac skip_step := eapply yields_bind; [apply yields_any | intros ? _].
Ltac store_step :=
  eapply yields_bind;
  [first [apply yields_store | apply yields_store_result] | intros ? [? ?]].

Lemma kinematics_of_muscle_shape (q : Array V) qdot i j lengths velocities :
  yields (kinematics_of_muscle E q qdot i j (lengths, velocities))
    (fun acc => same_out lengths (fst acc) /\ same_out velocities (snd acc)).
Proof.
  unfold kinematics_of_muscle, same_out. do 3 skip_step. store_step.
  destruct qdot as [qd|].
  - do 4 skip_step. store_step. now apply yields_ret.
  - now apply yields_ret.
Qed.

Lemma coefficients_of_muscle_shape (emg : Array V) qdot i j out_flpe out_flce out_fvce :
  yields (coefficients_of_muscle E emg qdot i j (out_flpe, out_flce, out_fvce))
    (fun acc => same_out out_flpe (fst (fst acc)) /\ same_out out_flce (snd (fst acc))
                /\ same_out out_fvce (snd acc)).
Proof.
  unfold coefficients_of_muscle, same_out. do 5 skip_step. store_step. skip_step. store_step.
  destruct qdot as [qd|].
  - skip_step. store_step. now apply yields_ret.
  - now apply yields_ret.
Qed.

Lemma force_of_muscle_shape data_type (emg : Array V) muscle_index i j out_force :
  yields (force_of_muscle E data_type emg muscle_index i j out_force) (same_out out_force).
Proof. unfold force_of_muscle, same_out. do 7 skip_step. apply yields_store. Qed.


Lemma yields_weaken {A} (c : M V A) (Q P : A -> Prop) :
  yields c Q -> (forall a, Q a -> P a) -> yields c P.
Proof. intros Hc HQP s a s' Hrun. exact (HQP a (Hc _ _ _ Hrun)). Qed.

Lemma same_out_trans (o1 o2 o3 : Out V) : same_out o1 o2 -> same_out o2 o3 -> same_out o1 o3.
Proof. unfold same_out. intros [-> ->] [-> ->]. now split. Qed.

Lemma same_out_refl (o : Out V) : same_out o o.
Proof. now split. Qed.

(** The outputs of [muscles_kinematics] and [muscle_force_coefficients]
    have the shape of what [data_type((n, k))] gives for the number [n] of
    selected muscles and the number [k] of columns of the (promoted)
    poses; the output of [muscle_force] has the shape [(n, k)]. *)
Lemma muscles_kinematics_shape (q : Array V) qdot mi s lengths velocities s' :
  muscles_kinematics E q qdot mi s = (Ok (lengths, velocities), s') ->
  exists k, shape1 q = Some k /\
    let o0 := alloc_tuple (casadi_number E) (array_type q)
                (selected mi (nbMuscleTotal (model s))) k in
    shape_of lengths = shape_of o0 /\
    forall o, velocities = Some o -> shape_of o = shape_of o0.
Proof.
  unfold muscles_kinematics. cbv zeta.
  destruct (match qdot with Some _ => _ | None => _ end); [discriminate|].
  intros Hrun. apply bind_inv in Hrun as (n & s1 & Hn & Hrun).
  unfold n_muscles, gets in Hn. injection Hn as <- <-.
  apply bind_inv in Hrun as (k & s1 & Hk & Hrun). apply index_inv in Hk as [Hk ->].
  apply bind_inv in Hrun as ([ls vs] & s2 & Hloop & Hrun).
  exists k. split; [assumption|]. unfold selected.
  set (o0 := alloc_tuple _ _ _ _) in *.
  apply (yields_for_each
           (fun acc => same_out o0 (fst acc) /\ same_out o0 (snd acc))) in Hloop.
  - destruct Hloop as [[Hl _] [Hv _]]; simpl in *.
    destruct qdot; unfold ret in Hrun; injection Hrun as <- <- <-;
      (split; [assumption|]); [now intros o [= <-] | discriminate].
  - split; apply same_out_refl.
  - intros i [l v] [Hl Hv]. do 2 skip_step.
    apply yields_for_each; [now split|].
    intros j [l' v'] [Hl' Hv'].
    eapply yields_weaken; [apply kinematics_of_muscle_shape|].
    intros [l2 v2]; simpl in *; intros [H1 H2]. split; (eapply same_out_trans; [|eassumption]; assumption).
Qed.

Lemma muscle_force_coefficients_shape (emg q : Array V) qdot mi s o1 o2 o3 s' :
  muscle_force_coefficients E emg q qdot mi s = (Ok (o1, o2, o3), s') ->
  exists k, shape1 (promote q) = Some k /\
    let o0 := alloc_tuple (casadi_number E) (array_type emg)
                (selected mi (nbMuscleTotal (model s))) k in
    shape_of o1 = shape_of o0 /\ shape_of o2 = shape_of o0 /\
    forall o, o3 = Some o -> shape_of o = shape_of o0.
Proof.
  unfold muscle_force_coefficients. cbv zeta. destruct (negb _ || _); [discriminate|].
  intros Hrun. apply bind_inv in Hrun as (n & s1 & Hn & Hrun).
  unfold n_muscles, gets in Hn. injection Hn as <- <-.
  apply bind_inv in Hrun as (k & s1 & Hk & Hrun). apply index_inv in Hk as [Hk ->].
  apply bind_inv in Hrun as ([[a b] c] & s2 & Hloop & Hrun).
  exists k. split; [assumption|]. unfold selected.
  set (o0 := alloc_tuple _ _ _ _) in *.
  apply (yields_for_each
           (fun acc => same_out o0 (fst (fst acc)) /\ same_out o0 (snd (fst acc)) /\
                       same_out o0 (snd acc))) in Hloop.
  - destruct Hloop as ([Ha _] & [Hb _] & [Hc _]); simpl in *.
    destruct qdot; unfold ret in Hrun; simpl in Hrun; injection Hrun as <- <- <- <-;
      (split; [assumption|]); (split; [assumption|]);
      [now intros o [= <-] | discriminate].
  - repeat split.
  - intros i [[x y] z] (Hx & Hy & Hz). skip_step.
    apply yields_for_each; [simpl in *; tauto|].
    intros j [[x' y'] z'] (Hx' & Hy' & Hz').
    eapply yields_weaken; [apply coefficients_of_muscle_shape|].
    intros [[x2 y2] z2]; simpl in *; intros (H1 & H2 & H3).
    repeat split; (eapply same_out_trans; [|eassumption]; assumption).
Qed.

Lemma muscle_force_shape (emg q : Array V) qdot mi s out s' :
  muscle_force E emg q qdot mi s = (Ok out, s') ->
  exists k, shape1 (promote q) = Some k /\
    shape_of out = (selected mi (nbMuscleTotal (model s)), k).
Proof.
  unfold muscle_force. destruct (negb _ || _); [discriminate|].
  intros Hrun. apply bind_inv in Hrun as (n & s1 & Hn & Hrun).
  unfold n_muscles, gets in Hn. injection Hn as <- <-.
  apply bind_inv in Hrun as (k & s1 & Hk & Hrun). apply index_inv in Hk as [Hk ->].
  exists k. split; [assumption|].
  set (n := length _) in *.
  apply (yields_for_each (same_out (alloc (array_type emg) n k))) in Hrun.
  - now destruct Hrun as [Hs _].
  - destruct (decide _); apply same_out_refl.
  - intros i o Ho. skip_step.
    apply yields_for_each; [assumption|].
    intros j o' Ho'.
    eapply yields_weaken; [apply force_of_muscle_shape|].
    intros o2; simpl; intros H2. (eapply same_out_trans; [|eassumption]; assumption).
Qed.


(** *** When the batch functions return *)

Lemma bind_index_some {A B} (o : option A) (k : A -> M V B) s a :
  o = Some a -> bind (index o) k s = k a s.
Proof. now intros ->. Qed.

Lemma bind_index_none {A B} (o : option A) (k : A -> M V B) s :
  o = None -> bind (index o) k s = (Raise (Exc IndexError OutOfBounds), s).
Proof. now intros ->. Qed.

Lemma bind_gets {A B} (f : Model V -> A) (k : A -> M V B) s :
  bind (gets f) k s = k (f (model s)) s.
Proof. reflexivity. Qed.

Lemma mat_get_inside {A} (m : Matrix A) j i :
  mat_wf m -> j < nrows m -> i < ncols m -> is_Some (mat_get m j i).
Proof.
  intros [Hrows Hcols] Hj Hi. unfold mat_get.
  destruct (decide (j < nrows m /\ i < ncols m)); [|tauto].
  destruct (lookup_lt_is_Some_2 (rows m) j) as [r Hr]; [lia|].
  rewrite Hr; simpl. apply lookup_lt_is_Some_2.
  rewrite Forall_forall in Hcols. rewrite (Hcols r); [assumption|].
  eapply list_elem_of_lookup_2. eassumption.
Qed.

Lemma mat_column_inside {A} (m : Matrix A) i :
  mat_wf m -> i < ncols m -> is_Some (mat_column m i).
Proof.
  intros [Hrows Hcols] Hi. unfold mat_column.
  destruct (decide (i < ncols m)); [|tauto].
  apply mapM_is_Some. eapply Forall_impl; [eassumption|].
  intros r Hr; simpl. apply lookup_lt_is_Some_2. now rewrite Hr.
Qed.

Lemma newaxis_wf ty (xs : list V) m : newaxis (Arr1 ty xs) = Arr2 ty m -> mat_wf m.
Proof.
  simpl. intros [= <-]. split; simpl.
  - now rewrite length_map.
  - apply Forall_forall. intros r Hr. apply list_elem_of_fmap in Hr as (x & -> & _). reflexivity.
Qed.

Lemma array_type_promote (a : Array V) : array_type (promote a) = array_type a.
Proof. now destruct a. Qed.

Lemma promote_promote (a : Array V) : promote (promote a) = promote a.
Proof. now destruct a. Qed.

Lemma upcast_supported (mus : Muscle V) s :
  supported (muscle_type mus) -> exists c, _upcast_muscle mus s = (Ok c, s).
Proof.
  unfold _upcast_muscle. intros [H | [H | [H | H]]]; rewrite H; simpl; eauto.
Qed.

Lemma upcast_hill (mus : Muscle V) s :
  hill (muscle_type mus) ->
  exists c, _upcast_muscle mus s = (Ok c, s) /\ c <> IdealizedActuator.
Proof.
  unfold _upcast_muscle. intros [H | [H | H]]; rewrite H; simpl; eauto.
Qed.

Lemma hill_supported (t : MuscleTypeId) : hill t -> supported t.
Proof. unfold hill, supported. tauto. Qed.

Lemma upcast_unsupported (mus : Muscle V) s :
  ~ supported (muscle_type mus) ->
  _upcast_muscle mus s
  = (Raise (Exc ValueError (MuscleTypeNotSupported (muscle_type mus))), s).
Proof.
  unfold _upcast_muscle, supported. intros H.
  repeat (case_decide; [tauto|]). reflexivity.
Qed.

(** The call that opens a sample: it completes when the sample has a
    column in the poses and in the velocities, and touches the kinematic
    cache only. *)
Lemma update_sample_completes (q : Array V) qdot i s :
  is_Some (column q i) ->
  (forall qd, qdot = Some qd -> is_Some (column qd i)) ->
  exists s', update_sample q qdot i s = (Ok tt, s') /\
    muscles (model s') = muscles (model s) /\ use_casadi (model s') = use_casadi (model s).
Proof.
  intros [qi Hqi] Hqd. unfold update_sample. destruct qdot as [qd|].
  - destruct (Hqd qd eq_refl) as [qdi Hqdi].
    rewrite (bind_index_some _ _ _ _ Hqi), (bind_index_some _ _ _ _ Hqdi).
    eexists. split; [reflexivity|]. now split.
  - rewrite (bind_index_some _ _ _ _ Hqi).
    eexists. split; [reflexivity|]. now split.
Qed.

Lemma coefficients_of_muscle_completes (emg : Array V) qdot i j acc s mus :
  use_casadi (model s) = false ->
  muscles (model s) !! j = Some mus ->
  hill (muscle_type mus) ->
  is_Some (item emg j i) ->
  (forall o, o = fst (fst acc) \/ o = snd (fst acc) \/ o = snd acc ->
     j < fst (shape_of o) /\ i < snd (shape_of o)) ->
  exists acc' s', coefficients_of_muscle E emg qdot i j acc s = (Ok acc', s') /\
    model s' = model s.
Proof.
  intros Hnum Hmus Hsup [e He] Hin. destruct acc as [[a b] c]. unfold coefficients_of_muscle.
  rewrite (bind_ok _ _ _ _ _ (muscle_found _ _ _ Hmus)).
  destruct (upcast_hill mus (MkSt (model s) (trace s ++ [Call_muscle j])) Hsup)
    as (cls & Hcls & Hne).
  rewrite (bind_ok _ _ _ _ _ Hcls).
  rewrite !(bind_index_some _ _ _ _ He), (bind_hill_coefficient _ _ _ _ _ Hne).
  destruct (Hin a) as [Hja Hia]; [now left|].
  destruct (Hin b) as [Hjb Hib]; [now right; left|].
  destruct (Hin c) as [Hjc Hic]; [now right; right|].
  destruct (store_inside a j i (eng_FlPE E (model s) cls j) Hja Hia) as [a' Ha'].
  rewrite (bind_store_result _ _ _ _ _ (MkSt (model s) _) Hnum), (bind_index_some _ _ _ _ Ha').
  rewrite (bind_hill_coefficient _ _ _ _ _ Hne).
  destruct (store_inside b j i (eng_FlCE E (model s) cls j (e, e)) Hjb Hib) as [b' Hb'].
  rewrite (bind_store_result _ _ _ _ _ (MkSt (model s) _) Hnum), (bind_index_some _ _ _ _ Hb').
  destruct qdot as [qd|].
  - rewrite (bind_hill_coefficient _ _ _ _ _ Hne).
    destruct (store_inside c j i (eng_FvCE E (model s) cls j) Hjc Hic) as [c' Hc'].
    rewrite (bind_store_result _ _ _ _ _ (MkSt (model s) _) Hnum), (bind_index_some _ _ _ _ Hc').
    eexists _, _. split; reflexivity.
  - eexists _, _. split; reflexivity.
Qed.

Lemma force_of_muscle_completes data_type (emg : Array V) muscle_index i j out s mj mus :
  muscle_index !! j = Some mj ->
  muscles (model s) !! mj = Some mus ->
  supported (muscle_type mus) ->
  is_Some (item emg j i) ->
  j < fst (shape_of out) -> i < snd (shape_of out) ->
  exists out' s', force_of_muscle E data_type emg muscle_index i j out s = (Ok out', s') /\
    model s' = model s.
Proof.
  intros Hmj Hmus Hsup [e He] Hj Hi. unfold force_of_muscle.
  rewrite (bind_index_some _ _ _ _ Hmj).
  rewrite (bind_ok _ _ _ _ _ (muscle_found _ _ _ Hmus)).
  destruct (upcast_supported mus (MkSt (model s) (trace s ++ [Call_muscle mj])) Hsup)
    as [cls Hcls].
  rewrite (bind_ok _ _ _ _ _ Hcls).
  rewrite !(bind_index_some _ _ _ _ He), !bind_gets.
  match goal with |- context [store out j i ?v] =>
    destruct (store_inside out j i v Hj Hi) as [out' Hout'] end.
  rewrite Hout'. eexists _, _. split; reflexivity.
Qed.


Lemma lookup_range_prefix b j : j < b -> range 0 b !! j = Some j.
Proof. intros Hj. unfold range. rewrite lookup_seq_lt; [reflexivity | lia]. Qed.

(** [muscle_force] returns when the selection is the first [b] muscles of
    the model, these are of supported types, the excitations, poses and
    velocities (promoted when one-dimensional) are well-formed matrices of
    one class, and the excitations have a row for each selected muscle and
    a column for each pose column. *)
Lemma muscle_force_completes
  (emg q qd : Array V) mi s ty (me mq mqd : Matrix V) b :
  promote emg = Arr2 ty me -> mat_wf me ->
  promote q = Arr2 ty mq -> mat_wf mq ->
  promote qd = Arr2 ty mqd -> mat_wf mqd -> ncols mq <= ncols mqd ->
  parse_muscle_index mi (nbMuscleTotal (model s)) = MkSlice 0 b ->
  b <= nbMuscleTotal (model s) -> b <= nrows me -> ncols mq <= ncols me ->
  supported_muscles (model s) b ->
  exists out s', muscle_force E emg q (Some qd) mi s = (Ok out, s').
Proof.
  intros Hemg Hme Hq Hmq Hqd Hmqd Hle Hparse Hb Hrows Hcols Hsup.
  assert (Hte : array_type emg = ty) by (now rewrite <- array_type_promote, Hemg).
  assert (Htq : array_type q = ty) by (now rewrite <- array_type_promote, Hq).
  assert (Htd : array_type qd = ty) by (now rewrite <- array_type_promote, Hqd).
  unfold muscle_force. cbv zeta.
  rewrite Hte, (isinstance_true _ _ Htq), (isinstance_true _ _ Htd). cbn [negb orb].
  change (promote <$> Some qd) with (Some (promote qd)).
  unfold n_muscles. rewrite bind_gets, Hparse, Hq, Hemg, Hqd; simpl.
  rewrite length_range, Nat.sub_0_r, bind_ret. unfold slice_indices; simpl.
  rewrite Nat.min_id.
  set (k := ncols mq). set (ms := muscles (model s)).
  set (I := fun (out : Out V) (t : St V) =>
              shape_of out = (b, k) /\ muscles (model t) = ms).
  match goal with |- context [for_each ?xs ?body ?acc0 s] =>
    assert (Hloop : exists acc' s', for_each xs body acc0 s = (Ok acc', s') /\ I acc' s');
      [apply (for_each_completes I)|] end.
  - intros i out t Hi [Hshape Hms]. apply elem_of_range in Hi.
    destruct (update_sample_completes (Arr2 ty mq) (Some (Arr2 ty mqd)) i t)
      as (t' & Hup & Hms' & _).
    { simpl. apply mat_column_inside; [assumption | lia]. }
    { intros ? [= <-]. simpl. apply mat_column_inside; [assumption | lia]. }
    rewrite (bind_ok _ _ _ _ _ Hup).
    apply (for_each_completes I); [|split; [assumption | congruence]].
    intros j o u Hj [Hshape' Hms'']. apply elem_of_range in Hj.
    destruct (lookup_lt_is_Some_2 (muscles (model u)) j) as [mus Hmus].
    { rewrite Hms''. unfold ms. fold (nbMuscleTotal (model s)). lia. }
    destruct (force_of_muscle_completes ty (Arr2 ty me) (range 0 b) i j o u j mus)
      as (o' & u' & Hbody & Hmodel); try assumption.
    { apply lookup_range_prefix. lia. }
    { apply (Hsup j); [lia|]. fold ms. now rewrite <- Hms''. }
    { simpl. apply mat_get_inside; [assumption | lia | lia]. }
    { rewrite Hshape'. simpl. lia. }
    { rewrite Hshape'. simpl. lia. }
    exists o', u'. split; [assumption|]. split; [|now rewrite Hmodel].
    destruct (force_of_muscle_shape _ _ _ _ _ _ _ _ _ Hbody) as [H1 _].
    now rewrite H1.
  - split; [|reflexivity]. now destruct (decide _).
  - destruct Hloop as (out & s' & Hloop & _). eauto.
Qed.


(** *** Selections the batch functions do not serve *)

Lemma range_split lo j hi :
  lo <= j < hi -> range lo hi = (range lo j ++ j :: range (S j) hi)%list.
Proof.
  intros H. unfold range.
  replace (hi - lo) with ((j - lo) + S (hi - S j)) by lia.
  rewrite seq_app. simpl. replace (lo + (j - lo)) with j by lia. reflexivity.
Qed.

(** A loop raises when its first iteration does. *)
Lemma for_each_first_raises {X S} (x : X) (xs : list X) (body : X -> S -> M V S) acc s e s' :
  body x acc s = (Raise e, s') -> for_each (x :: xs) body acc s = (Raise e, s').
Proof. intros H. simpl. now rewrite (bind_raise _ _ _ _ _ H). Qed.

Lemma kinematics_of_muscle_completes (q : Array V) qdot i j lengths velocities s :
  use_casadi (model s) = false ->
  is_Some (muscles (model s) !! j) ->
  is_Some (column q i) ->
  (forall qd, qdot = Some qd -> is_Some (column qd i)) ->
  j < fst (shape_of lengths) -> i < snd (shape_of lengths) ->
  j < fst (shape_of velocities) -> i < snd (shape_of velocities) ->
  exists acc' s',
    kinematics_of_muscle E q qdot i j (lengths, velocities) s = (Ok acc', s') /\
    model s' = model s.
Proof.
  intros Hnum [mus Hmus] [qi Hqi] Hqd Hjl Hil Hjv Hiv. unfold kinematics_of_muscle.
  rewrite (bind_ok _ _ _ _ _ (muscle_found _ _ _ Hmus)).
  rewrite (bind_index_some _ _ _ _ Hqi), bind_gets.
  rewrite (bind_store_result _ _ _ _ _ (MkSt (model s) _) Hnum).
  match goal with |- context [store lengths j i ?v] =>
    destruct (store_inside lengths j i v Hjl Hil) as [lengths' Hl] end.
  rewrite (bind_index_some _ _ _ _ Hl).
  destruct qdot as [qd|]; [|eexists _, _; split; reflexivity].
  destruct (Hqd qd eq_refl) as [qdi Hqdi].
  rewrite (bind_ok _ _ _ _ _
             (muscle_found j mus (MkSt (model s) (trace s ++ [Call_muscle j])) Hmus)).
  rewrite (bind_index_some _ _ _ _ Hqi), (bind_index_some _ _ _ _ Hqdi), bind_gets.
  rewrite (bind_store_result _ _ _ _ _ (MkSt (model s) _) Hnum).
  match goal with |- context [store velocities j i ?v] =>
    destruct (store_inside velocities j i v Hjv Hiv) as [velocities' Hv] end.
  rewrite (bind_index_some _ _ _ _ Hv). eexists _, _. split; reflexivity.
Qed.

(** Storing the length of a muscle whose index is not a row of the output
    raises, after the engine has been asked for it. *)
Lemma kinematics_of_muscle_outside (q : Array V) qdot i j lengths velocities s :
  use_casadi (model s) = false ->
  is_Some (muscles (model s) !! j) ->
  is_Some (column q i) ->
  fst (shape_of lengths) <= j ->
  exists s',
    kinematics_of_muscle E q qdot i j (lengths, velocities) s
    = (Raise (Exc IndexError OutOfBounds), s').
Proof.
  intros Hnum [mus Hmus] [qi Hqi] Hj. unfold kinematics_of_muscle.
  rewrite (bind_ok _ _ _ _ _ (muscle_found _ _ _ Hmus)).
  rewrite (bind_index_some _ _ _ _ Hqi), bind_gets.
  rewrite (bind_store_result _ _ _ _ _ (MkSt (model s) _) Hnum).
  rewrite (bind_index_none _ _ _ (store_outside lengths j i _ Hj)). eauto.
Qed.

Lemma coefficients_of_muscle_outside (emg : Array V) qdot i j acc s mus :
  use_casadi (model s) = false ->
  muscles (model s) !! j = Some mus ->
  hill (muscle_type mus) ->
  is_Some (item emg j i) ->
  fst (shape_of (fst (fst acc))) <= j ->
  exists s',
    coefficients_of_muscle E emg qdot i j acc s = (Raise (Exc IndexError OutOfBounds), s').
Proof.
  intros Hnum Hmus Hsup [e He] Hj. destruct acc as [[a b] c]. unfold coefficients_of_muscle.
  rewrite (bind_ok _ _ _ _ _ (muscle_found _ _ _ Hmus)).
  destruct (upcast_hill mus (MkSt (model s) (trace s ++ [Call_muscle j])) Hsup)
    as (cls & Hcls & Hne).
  rewrite (bind_ok _ _ _ _ _ Hcls).
  rewrite !(bind_index_some _ _ _ _ He), (bind_hill_coefficient _ _ _ _ _ Hne).
  rewrite (bind_store_result _ _ _ _ _ (MkSt (model s) _) Hnum).
  rewrite (bind_index_none _ _ _ (store_outside a j i _ Hj)). eauto.
Qed.

Lemma force_of_muscle_outside data_type (emg : Array V) muscle_index i j out s :
  muscle_index !! j = None ->
  force_of_muscle E data_type emg muscle_index i j out s
  = (Raise (Exc IndexError OutOfBounds), s).
Proof. intros H. unfold force_of_muscle. now rewrite (bind_index_none _ _ _ H). Qed.

(** [muscles_kinematics] raises for every selection of fewer muscles than
    the model has, as soon as there is a sample: the loop over the muscles
    runs over all of them. *)
Lemma muscles_kinematics_short_selection (mq : Matrix V) qdot mi s :
  use_casadi (model s) = false ->
  mat_wf mq -> 1 <= ncols mq ->
  (forall qd, qdot = Some qd ->
     exists mqd, qd = Arr2 NdArray mqd /\ mat_wf mqd /\ ncols mq <= ncols mqd) ->
  selected mi (nbMuscleTotal (model s)) < nbMuscleTotal (model s) ->
  fst (muscles_kinematics E (Arr2 NdArray mq) qdot mi s) = Raise (Exc IndexError OutOfBounds).
Proof.
  intros Hnum Hmq Hk Hqd Hsel. unfold muscles_kinematics. cbv zeta.
  cbn [alloc_tuple array_type].
  assert (Hguard : match qdot with
                   | Some qd => negb (isinstance (array_type qd) NdArray)
                   | None => false
                   end = false).
  { destruct qdot as [qd|]; [|reflexivity].
    destruct (Hqd qd eq_refl) as (mqd & -> & _). reflexivity. }
  rewrite Hguard. unfold n_muscles. rewrite bind_gets. simpl shape1.
  rewrite (bind_index_some _ _ _ (ncols mq) eq_refl).
  fold (selected mi (nbMuscleTotal (model s))) in *.
  set (n := nbMuscleTotal (model s)) in *. set (b := selected mi n) in *.
  set (k := ncols mq) in *.
  assert (Hcol : forall i, i < k -> is_Some (column (Arr2 NdArray mq) i))
    by (intros i Hi; simpl; now apply mat_column_inside).
  assert (Hcold : forall i qd, i < k -> qdot = Some qd -> is_Some (column qd i)).
  { intros i qd Hi Hq. destruct (Hqd qd Hq) as (mqd & -> & Hwf & Hle).
    simpl. apply mat_column_inside; [assumption | lia]. }
  match goal with |- fst (bind (for_each _ ?body ?acc) _ s) = _ =>
    assert (Hfirst : exists s', body 0 acc s = (Raise (Exc IndexError OutOfBounds), s')) end.
  { destruct (update_sample_completes (Arr2 NdArray mq) qdot 0 s) as (s1 & Hup & Hms & Huc);
      [apply Hcol; lia | intros qd; apply Hcold; lia |].
    rewrite (bind_ok _ _ _ _ _ Hup), bind_gets.
    assert (Hn : nbMuscleTotal (model s1) = n) by (unfold nbMuscleTotal, n; now rewrite Hms).
    rewrite Hn, (range_split 0 b n) by lia.
    set (I := fun (acc : Out V * Out V) (t : St V) =>
                shape_of (fst acc) = (b, k) /\ shape_of (snd acc) = (b, k) /\
                model t = model s1).
    assert (Hprefix : exists acc' s2,
               for_each (range 0 b) (kinematics_of_muscle E (Arr2 NdArray mq) qdot 0)
                 (alloc NdArray b k, alloc NdArray b k) s1 = (Ok acc', s2) /\ I acc' s2).
    { apply (for_each_completes I); [|now repeat split].
      intros j [l v] t Hj (Hl & Hv & Hm). apply elem_of_range in Hj. simpl in Hl, Hv.
      destruct (kinematics_of_muscle_completes (Arr2 NdArray mq) qdot 0 j l v t)
        as ([l' v'] & t' & Hbody & Hm');
        try (rewrite ?Hl, ?Hv; simpl; lia).
      - rewrite Hm. congruence.
      - apply lookup_lt_is_Some_2. rewrite Hm. fold (nbMuscleTotal (model s1)). lia.
      - apply Hcol. lia.
      - intros qd. apply Hcold. lia.
      - exists (l', v'), t'. split; [assumption|].
        destruct (kinematics_of_muscle_shape _ _ _ _ _ _ _ _ _ Hbody) as [[H1 _] [H2 _]].
        simpl in H1, H2. unfold I; simpl. rewrite H1, H2, Hm'. now repeat split. }
    destruct Hprefix as ([l v] & s2 & Hloop & Hl & Hv & Hm).
    destruct (kinematics_of_muscle_outside (Arr2 NdArray mq) qdot 0 b l v s2) as [s3 Hout].
    - rewrite Hm. congruence.
    - apply lookup_lt_is_Some_2. rewrite Hm. fold (nbMuscleTotal (model s1)). lia.
    - apply Hcol. lia.
    - simpl in Hl. rewrite Hl. simpl. lia.
    - exists s3. eapply for_each_raises; eassumption. }
  destruct Hfirst as [s' Hfirst].
  rewrite (range_split 0 0 k) by lia. simpl app.
  now rewrite (bind_raise _ _ _ _ _ (for_each_first_raises _ _ _ _ _ _ _ Hfirst)).
Qed.


(** [muscle_force_coefficients] raises for every selection that does not
    start at muscle 0, as soon as there is a sample: the row it stores to is
    the index of the muscle, not its place in the selection. *)
Lemma muscle_force_coefficients_offset_selection
  (me mq : Matrix V) qdot mi s a b :
  use_casadi (model s) = false ->
  mat_wf me -> mat_wf mq -> 1 <= ncols mq -> ncols mq <= ncols me -> b <= nrows me ->
  (forall qd, qdot = Some qd ->
     exists mqd, qd = Arr2 NdArray mqd /\ mat_wf mqd /\ ncols mq <= ncols mqd) ->
  parse_muscle_index mi (nbMuscleTotal (model s)) = MkSlice a b ->
  0 < a < b -> b <= nbMuscleTotal (model s) ->
  hill_muscles (model s) b ->
  fst (muscle_force_coefficients E (Arr2 NdArray me) (Arr2 NdArray mq) qdot mi s)
  = Raise (Exc IndexError OutOfBounds).
Proof.
  intros Hnum Hme Hmq Hk Hcols Hrows Hqd Hparse Hab Hb Hsup.
  unfold muscle_force_coefficients. cbv zeta. cbn [alloc_tuple array_type].
  assert (Hguard : negb (isinstance NdArray NdArray)
                   || match qdot with
                      | Some qd => negb (isinstance (array_type qd) NdArray)
                      | None => false
                      end = false).
  { destruct qdot as [qd|]; [|reflexivity].
    destruct (Hqd qd eq_refl) as (mqd & -> & _). reflexivity. }
  rewrite Hguard. unfold n_muscles. rewrite bind_gets, Hparse.
  change (promote (Arr2 NdArray mq)) with (Arr2 NdArray mq). simpl shape1.
  rewrite (bind_index_some _ _ _ (ncols mq) eq_refl).
  simpl slice_start. simpl slice_stop. rewrite length_range.
  set (k := ncols mq) in *. set (qdot' := promote <$> qdot).
  assert (Hcol : forall i, i < k -> is_Some (column (Arr2 NdArray mq) i))
    by (intros i Hi; simpl; now apply mat_column_inside).
  assert (Hcold : forall i qd, i < k -> qdot' = Some qd -> is_Some (column qd i)).
  { intros i qd Hi Hq. unfold qdot' in Hq. destruct qdot as [qd0|]; [|discriminate].
    injection Hq as <-. destruct (Hqd qd0 eq_refl) as (mqd & -> & Hwf & Hle).
    simpl. apply mat_column_inside; [assumption | lia]. }
  match goal with |- fst (bind (for_each _ ?body ?acc) _ s) = _ =>
    assert (Hfirst : exists s', body 0 acc s = (Raise (Exc IndexError OutOfBounds), s')) end.
  { destruct (update_sample_completes (Arr2 NdArray mq) qdot' 0 s) as (s1 & Hup & Hms & Huc);
      [apply Hcol; lia | intros qd; apply Hcold; lia |].
    rewrite (bind_ok _ _ _ _ _ Hup).
    set (j0 := a `max` (b - a)).
    rewrite (range_split a j0 b) by lia.
    set (I := fun (acc : Out V * Out V * Out V) (t : St V) =>
                (forall o, o = fst (fst acc) \/ o = snd (fst acc) \/ o = snd acc ->
                   shape_of o = (b - a, k)) /\ model t = model s1).
    assert (Hmus : forall (t : St V) j, model t = model s1 -> j < b ->
              exists mus, muscles (model t) !! j = Some mus /\ hill (muscle_type mus)).
    { intros t j Ht Hj.
      destruct (lookup_lt_is_Some_2 (muscles (model s)) j) as [mus Hmus];
        [fold (nbMuscleTotal (model s)); lia|].
      exists mus. rewrite Ht, Hms. split; [assumption|]. now apply (Hsup j). }
    assert (Hprefix : exists acc' s2,
               for_each (range a j0) (coefficients_of_muscle E (Arr2 NdArray me) qdot' 0)
                 (alloc NdArray (b - a) k, alloc NdArray (b - a) k, alloc NdArray (b - a) k) s1
               = (Ok acc', s2) /\ I acc' s2).
    { apply (for_each_completes I).
      - intros j [[o1 o2] o3] t Hj [Hshape Hm]. apply elem_of_range in Hj.
        destruct (Hmus t j Hm) as (mus & Hfound & Hok); [lia|].
        destruct (coefficients_of_muscle_completes (Arr2 NdArray me) qdot' 0 j (o1, o2, o3) t mus)
          as ([[p1 p2] p3] & t' & Hbody & Hm'); try assumption.
        { rewrite Hm. congruence. }
        { simpl. apply mat_get_inside; [assumption | lia | lia]. }
        { intros o Ho. rewrite (Hshape o Ho). simpl. lia. }
        exists (p1, p2, p3), t'. split; [assumption|]. split; [|now rewrite Hm'].
        destruct (coefficients_of_muscle_shape _ _ _ _ _ _ _ _ _ _ Hbody)
          as ([H1 _] & [H2 _] & [H3 _]); simpl in H1, H2, H3.
        intros o [-> | [-> | ->]]; simpl;
          [rewrite H1 | rewrite H2 | rewrite H3]; apply Hshape; simpl; tauto.
      - split; [|reflexivity]. intros o [-> | [-> | ->]]; reflexivity. }
    destruct Hprefix as (acc & s2 & Hloop & Hshape & Hm).
    destruct (Hmus s2 j0 Hm) as (mus & Hfound & Hok); [lia|].
    destruct (coefficients_of_muscle_outside (Arr2 NdArray me) qdot' 0 j0 acc s2 mus)
      as [s3 Hout]; try assumption.
    - rewrite Hm. congruence.
    - simpl. apply mat_get_inside; [assumption | lia | lia].
    - rewrite (Hshape (fst (fst acc))) by tauto. simpl. lia.
    - exists s3. eapply for_each_raises; eassumption. }
  destruct Hfirst as [s' Hfirst].
  rewrite (range_split 0 0 k) by lia. simpl app.
  now rewrite (bind_raise _ _ _ _ _ (for_each_first_raises _ _ _ _ _ _ _ Hfirst)).
Qed.

(** So does [muscle_force]: the slice is clipped to the number of selected
    muscles, which leaves a list shorter than the loop that reads it. *)
Lemma muscle_force_offset_selection
  ty (me mq mqd : Matrix V) mi s a b :
  mat_wf me -> mat_wf mq -> mat_wf mqd ->
  1 <= ncols mq -> ncols mq <= ncols me -> ncols mq <= ncols mqd -> b <= nrows me ->
  parse_muscle_index mi (nbMuscleTotal (model s)) = MkSlice a b ->
  0 < a < b -> b <= nbMuscleTotal (model s) ->
  supported_muscles (model s) b ->
  fst (muscle_force E (Arr2 ty me) (Arr2 ty mq) (Some (Arr2 ty mqd)) mi s)
  = Raise (Exc IndexError OutOfBounds).
Proof.
  intros Hme Hmq Hmqd Hk Hcols Hcolsd Hrows Hparse Hab Hb Hsup.
  unfold muscle_force. cbv zeta.
  change (array_type (Arr2 ty me)) with ty. change (array_type (Arr2 ty mq)) with ty.
  change (array_type (Arr2 ty mqd)) with ty.
  rewrite (isinstance_true ty ty eq_refl). cbn [negb orb].
  unfold n_muscles. rewrite bind_gets, Hparse.
  change (promote (Arr2 ty mq)) with (Arr2 ty mq).
  change (promote (Arr2 ty me)) with (Arr2 ty me).
  change (promote <$> Some (Arr2 ty mqd)) with (Some (Arr2 ty mqd)).
  simpl shape1. rewrite (bind_index_some _ _ _ (ncols mq) eq_refl).
  unfold slice_indices. simpl slice_start. simpl slice_stop. rewrite length_range.
  set (k := ncols mq) in *.
  replace (b `min` (b - a)) with (b - a) by lia.
  set (lo := a `min` (b - a)). set (len := b - a - lo).
  match goal with |- fst (for_each _ ?body ?acc s) = _ =>
    assert (Hfirst : exists s', body 0 acc s = (Raise (Exc IndexError OutOfBounds), s')) end.
  { destruct (update_sample_completes (Arr2 ty mq) (Some (Arr2 ty mqd)) 0 s)
      as (s1 & Hup & Hms & _).
    { simpl. apply mat_column_inside; [assumption | lia]. }
    { intros ? [= <-]. simpl. apply mat_column_inside; [assumption | lia]. }
    rewrite (bind_ok _ _ _ _ _ Hup).
    rewrite (range_split 0 len (b - a)) by (unfold len, lo; lia).
    set (I := fun (out : Out V) (t : St V) =>
                shape_of out = (b - a, k) /\ model t = model s1).
    assert (Hprefix : exists out s2,
               for_each (range 0 len)
                 (force_of_muscle E ty (Arr2 ty me) (range lo (b - a)) 0)
                 (if decide (ty = MX \/ ty = SX)
                  then alloc ty (b - a) k else alloc ty (b - a) k) s1
               = (Ok out, s2) /\ I out s2).
    { apply (for_each_completes I).
      - intros j o t Hj [Hshape Hm]. apply elem_of_range in Hj.
        assert (Hlookup : range lo (b - a) !! j = Some (lo + j))
          by (unfold range; apply lookup_seq_lt; unfold len in Hj; lia).
        destruct (lookup_lt_is_Some_2 (muscles (model s)) (lo + j)) as [mus Hfound];
          [fold (nbMuscleTotal (model s)); unfold len, lo in *; lia|].
        destruct (force_of_muscle_completes ty (Arr2 ty me) (range lo (b - a)) 0 j o t
                    (lo + j) mus) as (o' & t' & Hbody & Hm'); try assumption.
        { now rewrite Hm, Hms. }
        { apply (Hsup (lo + j)); [unfold len, lo in *; lia | assumption]. }
        { simpl. apply mat_get_inside; [assumption | unfold len in Hj; lia | lia]. }
        { rewrite Hshape. simpl. unfold len in Hj. lia. }
        { rewrite Hshape. simpl. lia. }
        exists o', t'. split; [assumption|]. split; [|now rewrite Hm'].
        destruct (force_of_muscle_shape _ _ _ _ _ _ _ _ _ Hbody) as [H1 _].
        now rewrite H1.
      - split; [|reflexivity]. now destruct (decide _). }
    destruct Hprefix as (out & s2 & Hloop & _).
    exists s2. eapply for_each_raises; [eassumption|].
    apply force_of_muscle_outside. apply lookup_ge_None.
    rewrite length_range. unfold len. lia. }
  destruct Hfirst as [s' Hfirst].
  rewrite (range_split 0 0 k) by lia. simpl app.
  now rewrite (for_each_first_raises _ _ _ _ _ _ _ Hfirst).
Qed.

End Batches.

(** ** One-dimensional inputs *)

Section OneDimensional.

Context {V : Type}.
Variable E : Engine V.

Lemma muscle_force_coefficients_promotes (emg q : Array V) qdot mi s :
  muscle_force_coefficients E emg q qdot mi s
  = muscle_force_coefficients E emg (promote q) (promote <$> qdot) mi s.
Proof.
  unfold muscle_force_coefficients.
  rewrite array_type_promote, promote_promote.
  destruct qdot as [qd|]; simpl; [|reflexivity].
  now rewrite array_type_promote, promote_promote.
Qed.

Lemma muscle_force_promotes (emg q : Array V) qdot mi s :
  muscle_force E emg q qdot mi s
  = muscle_force E (promote emg) (promote q) (promote <$> qdot) mi s.
Proof.
  unfold muscle_force.
  rewrite !array_type_promote, !promote_promote.
  destruct qdot as [qd|]; simpl; [|reflexivity].
  now rewrite array_type_promote, promote_promote.
Qed.

Lemma muscles_kinematics_one_dimensional ty (xs : list V) qdot mi s :
  exists e, (is_type_mismatch e \/ e = Exc IndexError OutOfBounds) /\
    muscles_kinematics E (Arr1 ty xs) qdot mi s = (Raise e, s).
Proof.
  unfold muscles_kinematics.
  destruct (match qdot with Some _ => _ | None => _ end).
  - eexists. split; [left; now eexists | reflexivity].
  - eexists. split; [now right | reflexivity].
Qed.

End OneDimensional.

(** * The properties on the five-muscle model *)

Section OnFiveMuscles.

Import Fixture.

Lemma type_mismatch_fails_fast_witness :
  (array_type symbolic_pose <> array_type pose /\
   exists e, is_type_mismatch e /\
     muscles_kinematics engine pose (Some symbolic_pose) None start = (Raise e, start)) /\
  ((array_type symbolic_pose <> array_type excitation \/
    exists qd, Some velocity = Some qd /\ array_type qd <> array_type excitation) /\
   exists e, is_type_mismatch e /\
     muscle_force_coefficients engine excitation symbolic_pose (Some velocity) None start
     = (Raise e, start)).
Proof.
  assert (H1 : array_type symbolic_pose <> array_type pose) by discriminate.
  assert (H2 : array_type symbolic_pose <> array_type excitation \/
               exists qd, Some velocity = Some qd /\ array_type qd <> array_type excitation)
    by (left; discriminate).
  split; split; try assumption.
  - exact (proj1 (type_mismatch_fails_fast engine) pose symbolic_pose None start H1).
  - exact (proj2 (type_mismatch_fails_fast engine)
             excitation symbolic_pose (Some velocity) None start H2).
Defined.

Lemma integrate_type_mismatch_fails_fast_witness :
  vtype symbolic_torque <> vtype (concatenate q0 qdot0) /\
  exists e, is_type_mismatch e /\
    integrate engine constant_solver [0%Z; 1%Z] (concatenate q0 qdot0) symbolic_torque
      TORQUE RK45 start = (Raise e, start).
Proof.
  assert (H : vtype symbolic_torque <> vtype (concatenate q0 qdot0)) by discriminate.
  split; [assumption|].
  exact (integrate_type_mismatch_fails_fast engine constant_solver
           [0%Z; 1%Z] (concatenate q0 qdot0) symbolic_torque TORQUE RK45 start H).
Defined.

(** C4 as stated fails: a torque of the wrong length that is symbolic while
    pose and velocity are numeric raises the same-type error, which is not
    a dimension error. *)
Lemma wrong_length_may_raise_type_error :
  length (vdata symbolic_long_torque) <> nbQ (model start) /\
  fst (forward_dynamics engine q0 qdot0 symbolic_long_torque TORQUE start)
  = Raise (Exc ValueError (MustHaveSameType "q, qdot and controls")) /\
  ~ (exists e, is_dimension_mismatch e /\
       fst (forward_dynamics engine q0 qdot0 symbolic_long_torque TORQUE start) = Raise e).
Proof.
  split; [vm_compute; lia|]. split; [reflexivity|].
  intros (e & (expected & got & _ & [He | He]) & Hraise);
    vm_compute in Hraise; congruence.
Qed.

Lemma forward_dynamics_checks_controls_witness :
  (vtype qdot0 = vtype q0 /\ vtype long_torque = vtype q0 /\
   expected_dimension (model start) TORQUE = Some 1 /\
   length (vdata long_torque) <> 1 /\
   exists e, is_dimension_mismatch e /\
     forward_dynamics engine q0 qdot0 long_torque TORQUE start = (Raise e, start)) /\
  (expected_dimension (model start) (OtherControl 0) = None /\
   exists e, is_unsupported_control e /\
     forward_dynamics engine q0 qdot0 torque (OtherControl 0) start = (Raise e, start)) /\
  ((vtype qdot0 <> vtype q0 \/ vtype symbolic_long_torque <> vtype q0) /\
   exists e, is_type_mismatch e /\
     forward_dynamics engine q0 qdot0 symbolic_long_torque TORQUE start = (Raise e, start)).
Proof.
  assert (Hlen : length (vdata long_torque) <> 1) by (vm_compute; lia).
  assert (Hty : vtype qdot0 <> vtype q0 \/ vtype symbolic_long_torque <> vtype q0)
    by (right; discriminate).
  repeat split; try reflexivity; try assumption.
  - exact (proj1 (forward_dynamics_checks_controls engine q0 qdot0 long_torque TORQUE start)
             eq_refl eq_refl 1 eq_refl Hlen).
  - exact (proj1 (proj2 (forward_dynamics_checks_controls engine q0 qdot0 torque
                           (OtherControl 0) start))
             eq_refl eq_refl eq_refl).
  - exact (proj2 (proj2 (forward_dynamics_checks_controls engine q0 qdot0
                           symbolic_long_torque TORQUE start)) Hty).
Defined.

Lemma excitation_has_no_effect_witness :
  length (vdata excitations) = nbMuscleTotal (model start) /\
  length (vdata other_excitations) = nbMuscleTotal (model start) /\
  (forall d1 s1 d2 s2,
     forward_dynamics engine q0 qdot0 excitations EMG start = (Ok d1, s1) ->
     forward_dynamics engine q0 qdot0 other_excitations EMG start = (Ok d2, s2) ->
     d1 = d2 /\ s1 = s2) /\
  (vtype excitations = vtype other_excitations ->
   forward_dynamics engine q0 qdot0 excitations EMG start
   = forward_dynamics engine q0 qdot0 other_excitations EMG start) /\
  (vtype qdot0 = vtype q0 -> vtype excitations = vtype q0 ->
   exists d s', forward_dynamics engine q0 qdot0 excitations EMG start = (Ok d, s')).
Proof.
  split; [reflexivity|]. split; [reflexivity|].
  exact (excitation_has_no_effect engine q0 qdot0 excitations other_excitations start
           eq_refl eq_refl).
Defined.

(** The derivative of the five-muscle model under muscle control, and the
    engine calls it takes. *)
Lemma forward_dynamics_of_excitation_example :
  forward_dynamics engine q0 qdot0 excitations EMG start
  = (Ok (Vec NdArray [4%Z], Vec NdArray [3%Z]),
     MkSt five_muscles
       [Call_stateSet;
        Call_muscularJointTorque [3%Z] [4%Z];
        Call_ForwardDynamics [3%Z] [4%Z] [3%Z]]).
Proof. reflexivity. Qed.

Lemma five_muscles_supported : supported_muscles (model start) (nbMuscleTotal (model start)).
Proof.
  intros j mus _ Hmus. apply lookup_replicate in Hmus as [-> _]. right. now left.
Qed.

Lemma excitation_wf : mat_wf (Mat 5 1 [[1]; [2]; [3]; [4]; [5]]%Z).
Proof. split; [reflexivity|]. repeat constructor. Qed.

(** C1 on the code.  With five muscles, one sample and the muscles 1..3
    selected, each of the three batch functions raises [IndexError]
    instead of returning an array of two rows, although the same call on
    all the muscles returns: [muscles_kinematics] stores row [j] for every
    muscle of the model, [muscle_force_coefficients] stores at row [j]
    instead of [j - start], and [muscle_force] clips the slice to the
    number of selected muscles and then reads the list past its end. *)
Theorem sub_range_of_muscles_raises :
  fst (muscles_kinematics engine pose (Some velocity) (Some (IndexRange 1 3)) start)
  = Raise (Exc IndexError OutOfBounds) /\
  fst (muscle_force_coefficients engine excitation pose (Some velocity)
         (Some (IndexRange 1 3)) start)
  = Raise (Exc IndexError OutOfBounds) /\
  fst (muscle_force engine excitation pose (Some velocity) (Some (IndexRange 1 3)) start)
  = Raise (Exc IndexError OutOfBounds) /\
  (exists lengths velocities,
     fst (muscles_kinematics engine pose (Some velocity) None start)
     = Ok (lengths, Some velocities) /\
     shape_of lengths = (5, 1) /\ shape_of velocities = (5, 1)) /\
  (exists o1 o2 o3,
     fst (muscle_force_coefficients engine excitation pose (Some velocity) None start)
     = Ok (o1, o2, Some o3) /\
     shape_of o1 = (5, 1) /\ shape_of o2 = (5, 1) /\ shape_of o3 = (5, 1)) /\
  (exists out,
     fst (muscle_force engine excitation pose (Some velocity) None start) = Ok out /\
     shape_of out = (5, 1)).
Proof.
  repeat split; try (vm_compute; reflexivity).
  - eexists _, _. repeat split; vm_compute; reflexivity.
  - eexists _, _, _. repeat split; vm_compute; reflexivity.
  - eexists. split; vm_compute; reflexivity.
Qed.

(** A selection that starts at muscle 0 is served by the two force
    functions, and still not by [muscles_kinematics]. *)
Lemma leading_muscles_selected :
  fst (muscles_kinematics engine pose (Some velocity) (Some (IndexRange 0 2)) start)
  = Raise (Exc IndexError OutOfBounds) /\
  fst (muscle_force_coefficients engine excitation pose (Some velocity)
         (Some (IndexRange 0 2)) start)
  = Ok (MkOut NdArray (Mat 2 1 [[Some 1000]; [Some 1001]]),
        MkOut NdArray (Mat 2 1 [[Some 2001]; [Some 2012]]),
        Some (MkOut NdArray (Mat 2 1 [[Some 3000]; [Some 3001]])))%Z /\
  fst (muscle_force engine excitation pose (Some velocity) (Some (IndexRange 0 2)) start)
  = Ok (MkOut NdArray (Mat 2 1 [[Some 4001]; [Some 4012]]))%Z.
Proof. repeat split; vm_compute; reflexivity. Qed.

End OnFiveMuscles.

(** * Further properties of the methods *)

(** ** The dynamics, call by call *)

Section DynamicsContract.

Context {V : Type}.
Variable E : Engine V.

Lemma take_app_exact {A} (l k : list A) n : length l = n -> take n (l ++ k) = l.
Proof. intros <-. now rewrite take_app_length. Qed.

Lemma drop_app_exact {A} (l k : list A) n : length l = n -> drop n (l ++ k) = k.
Proof. intros <-. now rewrite drop_app_length. Qed.

(** X1.  Under torque control, for a pose, a velocity and a torque of [n_q]
    entries each and of one class, [forward_dynamics] returns the velocity
    and the acceleration the engine computes from pose, velocity and
    torque.  The engine is called once, for [ForwardDynamics], and the
    model is left as it was. *)
Theorem forward_dynamics_of_torque (q qdot tau : Vector V) s :
  vtype qdot = vtype q -> vtype tau = vtype q ->
  length (vdata q) = nbQ (model s) ->
  length (vdata qdot) = nbQ (model s) ->
  length (vdata tau) = nbQ (model s) ->
  forward_dynamics E q qdot tau TORQUE s
  = (Ok (qdot,
         Vec (vtype q) (eng_ForwardDynamics E (model s) (vdata q) (vdata qdot) (vdata tau))),
     MkSt (model s)
       (trace s ++ [Call_ForwardDynamics (vdata q) (vdata qdot) (vdata tau)])).
Proof.
  intros Hqd Htau Hq Hqdot Hlen. unfold forward_dynamics.
  rewrite (forward_dynamics_same_type q qdot tau Hqd Htau).
  unfold bind, n_q, gets, ret, raise; simpl. rewrite Hlen.
  destruct (decide (nbQ (model s) <> nbQ (model s))); [congruence|].
  unfold _forward_dynamics, engine_result, bind, n_q, gets, ret, record_call,
    concatenate, vec_to, vec_from; simpl.
  rewrite (take_app_exact _ _ _ Hq), (drop_app_exact _ _ _ Hq).
  rewrite (take_app_exact _ _ _ Hqdot), (drop_app_exact _ _ _ Hqdot).
  destruct qdot as [ty xs]; simpl in *. now rewrite Hqd.
Qed.


End DynamicsContract.

(** ** The trajectory integrator *)

Section Trajectories.

Context {V : Type}.
Variable E : Engine V.
Variable solve_ivp :
  (V -> Vector V -> M V (Vector V)) -> V * V -> Vector V -> string -> list V ->
  M V (Solution V).

(** The dispatch on the kind of control, when the class of the controls has
    been accepted. *)
Lemma integrate_dispatch (t : list V) (states controls : Vector V) ct im s :
  vtype controls = vtype states ->
  expected_dimension (model s) ct = Some (length (vdata controls)) ->
  exists func, dynamics_of E ct controls = Some func /\
    integrate E solve_ivp t states controls ct im s
    = (let! method :=
         if decide (im = RK45) then ret "RK45"
         else if decide (im = RK4) then ret "RK4"
         else raise NotImplementedError (IntegrationMethodNotImplemented im) in
       let! t0 := index (head t) in
       let! t1 := index (last t) in
       let! y := solve_ivp func (t0, t1) states method t in
       let! nq := n_q in
       let! q := solution_rows y (fun m => rows_to m nq) in
       let! nq' := n_q in
       let! qdot := solution_rows y (fun m => rows_from m nq') in
       ret (q, qdot)) s.
Proof.
  intros Hty Hdim. unfold integrate. rewrite (isinstance_true _ _ Hty); cbn [negb].
  destruct ct as [| |tag]; simpl in Hdim; [| |discriminate]; injection Hdim as Hdim;
    (eexists; split; [reflexivity|]).
  - match goal with |- bind ?d _ s = _ =>
      assert (Hd : d s = (Ok (fun t x => _forward_dynamics E (Some t) x controls), s)) end.
    { simpl. unfold bind, n_q, gets; simpl.
      destruct (decide (length (vdata controls) <> nbQ (model s))); [congruence | reflexivity]. }
    now rewrite (bind_ok _ _ _ _ _ Hd).
  - match goal with |- bind ?d _ s = _ =>
      assert (Hd : d s
                   = (Ok (fun t x => _forward_dynamics_muscles E (Some t) x controls), s)) end.
    { simpl. unfold bind, n_muscles, gets; simpl.
      destruct (decide (length (vdata controls) <> nbMuscleTotal (model s)));
        [congruence | reflexivity]. }
    now rewrite (bind_ok _ _ _ _ _ Hd).
Qed.

(** Past every check of its own, [integrate] is decided by the solver:
    what the solver raises is raised, an array is cut at row [n_q], and
    the empty list raises on the first slice. *)
Lemma integrate_past_the_checks
  (t : list V) (states controls : Vector V) ct im s func name t0 t1 :
  vtype controls = vtype states ->
  expected_dimension (model s) ct = Some (length (vdata controls)) ->
  dynamics_of E ct controls = Some func ->
  method_name im = Some name ->
  head t = Some t0 -> last t = Some t1 ->
  integrate E solve_ivp t states controls ct im s
  = match solve_ivp func (t0, t1) states name t s with
    | (Ok (Grid y), s') =>
        (Ok (rows_to y (nbQ (model s')), rows_from y (nbQ (model s'))), s')
    | (Ok NoSample, s') => (Raise (Exc TypeError ListIndicesMustBeIntegers), s')
    | (Raise e, s') => (Raise e, s')
    end.
Proof.
  intros Hty Hdim Hfunc Hm Ht0 Ht1.
  destruct (integrate_dispatch t states controls ct im s Hty Hdim) as (func' & Hfunc' & ->).
  assert (func' = func) as -> by congruence.
  assert (Hname : (if decide (im = RK45) then ret "RK45"
                   else if decide (im = RK4) then ret "RK4"
                   else raise NotImplementedError (IntegrationMethodNotImplemented im)) s
                  = (Ok name, s)).
  { destruct im; simpl in *; try discriminate; now injection Hm as <-. }
  rewrite (bind_ok _ _ _ _ _ Hname), Ht0, Ht1; simpl. rewrite !bind_ret.
  unfold bind at 1. destruct (solve_ivp func (t0, t1) states name t s) as [[[y|]|e] s'];
    reflexivity.
Qed.

(** What a call of [integrate] that returns has gone through. *)
Lemma integrate_returns_inv
  (t : list V) (states controls : Vector V) ct im s q qdot s' :
  integrate E solve_ivp t states controls ct im s = (Ok (q, qdot), s') ->
  exists func name t0 t1 y,
    vtype controls = vtype states /\
    expected_dimension (model s) ct = Some (length (vdata controls)) /\
    dynamics_of E ct controls = Some func /\
    method_name im = Some name /\
    head t = Some t0 /\ last t = Some t1 /\
    solve_ivp func (t0, t1) states name t s = (Ok (Grid y), s') /\
    q = rows_to y (nbQ (model s')) /\ qdot = rows_from y (nbQ (model s')).
Proof.
  intros Hrun.
  assert (Hty : vtype controls = vtype states).
  { destruct (decide (vtype controls = vtype states)) as [?|Hne]; [assumption|].
    unfold integrate in Hrun. now rewrite (isinstance_false _ _ Hne) in Hrun. }
  assert (Hdim : expected_dimension (model s) ct = Some (length (vdata controls))).
  { unfold integrate in Hrun. rewrite (isinstance_true _ _ Hty) in Hrun.
    simpl negb in Hrun. cbv iota in Hrun.
    apply bind_inv in Hrun as (func & s1 & Hdisp & _).
    destruct ct as [| |tag]; simpl in *.
    - unfold bind, n_q, gets in Hdisp; simpl in Hdisp.
      destruct (decide (length (vdata controls) <> nbQ (model s))) as [|Heq];
        [discriminate|]. f_equal. lia.
    - unfold bind, n_muscles, gets in Hdisp; simpl in Hdisp.
      destruct (decide (length (vdata controls) <> nbMuscleTotal (model s))) as [|Heq];
        [discriminate|]. f_equal. lia.
    - discriminate. }
  destruct (integrate_dispatch t states controls ct im s Hty Hdim) as (func & Hfunc & Heq).
  assert (Hm : exists name, method_name im = Some name).
  { rewrite Heq in Hrun. apply bind_inv in Hrun as (name & s1 & Hname & _).
    destruct im; simpl in *; try discriminate; now eexists. }
  destruct Hm as [name Hm].
  assert (Hends : exists t0 t1, head t = Some t0 /\ last t = Some t1).
  { rewrite Heq in Hrun. apply bind_inv in Hrun as (name' & s1 & _ & Hrun).
    apply bind_inv in Hrun as (t0 & s2 & Ht0 & Hrun). apply index_inv in Ht0 as [Ht0 _].
    apply bind_inv in Hrun as (t1 & s3 & Ht1 & _). apply index_inv in Ht1 as [Ht1 _].
    now exists t0, t1. }
  destruct Hends as (t0 & t1 & Ht0 & Ht1).
  rewrite (integrate_past_the_checks t states controls ct im s func name t0 t1
             Hty Hdim Hfunc Hm Ht0 Ht1) in Hrun.
  destruct (solve_ivp func (t0, t1) states name t s) as [[[y|]|e] s1] eqn:Hy;
    try discriminate.
  injection Hrun as <- <- <-. exists func, name, t0, t1, y. now repeat split.
Qed.

(** X4.  With controls that pass the checks, a method that is neither [RK45]
    nor [RK4] raises the not-implemented error, and an empty vector of
    samples raises [IndexError] on [t[0]]; in both cases the state is the
    one the call started in, whatever the solver: it has not been called. *)
Theorem integrate_checks_method_and_samples
  (t : list V) (states controls : Vector V) ct im s :
  vtype controls = vtype states ->
  expected_dimension (model s) ct = Some (length (vdata controls)) ->
  (method_name im = None ->
   integrate E solve_ivp t states controls ct im s
   = (Raise (Exc NotImplementedError (IntegrationMethodNotImplemented im)), s)) /\
  (is_Some (method_name im) -> t = [] ->
   integrate E solve_ivp t states controls ct im s
   = (Raise (Exc IndexError OutOfBounds), s)).
Proof.
  intros Hty Hdim.
  destruct (integrate_dispatch t states controls ct im s Hty Hdim) as (func & _ & ->).
  split.
  - intros Hm. destruct im; try discriminate. reflexivity.
  - intros [name Hm] ->. destruct im; try discriminate; reflexivity.
Qed.

(** X5.  [integrate] returns exactly when the controls are of the class of
    the initial state and of the length their kind asks for, the method is
    [RK45] or [RK4], there is at least one sample, and the solver returns
    an array (not the empty list it gives when it stored no sample): the
    solver is called once, in the state [integrate] was called in, with the
    dynamics of the kind of control, the span from the first to the last
    sample, the initial state, the name of the method and the samples; the
    array it returns is cut at row [n_q] into pose and velocity. *)
Theorem integrate_returns_iff
  (t : list V) (states controls : Vector V) ct im s q qdot s' :
  integrate E solve_ivp t states controls ct im s = (Ok (q, qdot), s') <->
  exists func name t0 t1 y,
    vtype controls = vtype states /\
    expected_dimension (model s) ct = Some (length (vdata controls)) /\
    dynamics_of E ct controls = Some func /\
    method_name im = Some name /\
    head t = Some t0 /\ last t = Some t1 /\
    solve_ivp func (t0, t1) states name t s = (Ok (Grid y), s') /\
    q = rows_to y (nbQ (model s')) /\ qdot = rows_from y (nbQ (model s')).
Proof.
  split; [apply integrate_returns_inv|].
  intros (func & name & t0 & t1 & y & Hty & Hdim & Hfunc & Hm & Ht0 & Ht1 & Hy & -> & ->).
  rewrite (integrate_past_the_checks t states controls ct im s func name t0 t1
             Hty Hdim Hfunc Hm Ht0 Ht1).
  now rewrite Hy.
Qed.

(** X6.  The two trajectories [integrate] returns partition the rows of the
    array the solver returned, in order, and have its number of columns:
    the pose takes the rows before row [n_q], the velocity all the rows
    from there on.  The array is the one the solver gave for the dynamics
    of the kind of control, the span of the samples and the method name. *)
Theorem integrate_partitions_rows
  (t : list V) (states controls : Vector V) ct im s q qdot s' :
  integrate E solve_ivp t states controls ct im s = (Ok (q, qdot), s') ->
  exists func name t0 t1 y,
    dynamics_of E ct controls = Some func /\ method_name im = Some name /\
    head t = Some t0 /\ last t = Some t1 /\
    solve_ivp func (t0, t1) states name t s = (Ok (Grid y), s') /\
    (rows q ++ rows qdot)%list = rows y /\
    rows q = take (nbQ (model s')) (rows y) /\
    rows qdot = drop (nbQ (model s')) (rows y) /\
    nrows q + nrows qdot = nrows y /\ nrows q <= nbQ (model s') /\
    ncols q = ncols y /\ ncols qdot = ncols y.
Proof.
  intros Hrun. apply integrate_returns_inv in Hrun
    as (func & name & t0 & t1 & y & _ & _ & Hfunc & Hm & Ht0 & Ht1 & Hy & -> & ->).
  exists func, name, t0, t1, y. unfold rows_to, rows_from; simpl.
  rewrite take_drop. repeat split; try assumption; lia.
Qed.

(** C3.  A single time sample: the span handed to the solver has no
    length.  For every solver that stores no sample on such a span, as
    [solve_ivp] does, [integrate] on one sample never returns; and when
    the controls pass the checks and the solver returns, [integrate]
    raises [TypeError] on the slice [results.y[:n_q, :]], in the state the
    solver left. *)
Theorem integrate_single_sample_raises
  (t0 : V) (states controls : Vector V) ct im s :
  stores_no_sample_on_empty_span solve_ivp ->
  (forall q qdot s',
     integrate E solve_ivp [t0] states controls ct im s <> (Ok (q, qdot), s')) /\
  (forall func name y s',
     vtype controls = vtype states ->
     expected_dimension (model s) ct = Some (length (vdata controls)) ->
     dynamics_of E ct controls = Some func ->
     method_name im = Some name ->
     solve_ivp func (t0, t0) states name [t0] s = (Ok y, s') ->
     integrate E solve_ivp [t0] states controls ct im s
     = (Raise (Exc TypeError ListIndicesMustBeIntegers), s')).
Proof.
  intros Hsolver. split.
  - intros q qdot s' Hrun. apply integrate_returns_inv in Hrun
      as (func & name & t0' & t1' & y & _ & _ & _ & _ & Ht0 & Ht1 & Hy & _).
    injection Ht0 as <-. injection Ht1 as <-.
    now apply Hsolver in Hy.
  - intros func name y s' Hty Hdim Hfunc Hm Hy.
    rewrite (integrate_past_the_checks [t0] states controls ct im s func name t0 t0
               Hty Hdim Hfunc Hm eq_refl eq_refl), Hy.
    now rewrite (Hsolver _ _ _ _ _ _ _ _ Hy).
Qed.

(** C5.  The method [RK4]: [integrate] hands the name [RK4] to the solver.
    For every solver that refuses the names it does not know, as
    [solve_ivp] does ([RK4] is not among its methods), [integrate] with
    [RK4] raises the solver's [ValueError] whenever controls and samples
    pass the checks, in the state it was called in: no call with this
    method returns. *)
Theorem integrate_rk4_is_rejected
  (t : list V) (states controls : Vector V) ct s :
  rejects_unknown_methods solve_ivp ->
  (forall q qdot s',
     integrate E solve_ivp t states controls ct RK4 s <> (Ok (q, qdot), s')) /\
  (vtype controls = vtype states ->
   expected_dimension (model s) ct = Some (length (vdata controls)) ->
   t <> [] ->
   integrate E solve_ivp t states controls ct RK4 s
   = (Raise (Exc ValueError (SolverMethodUnknown "RK4")), s)).
Proof.
  intros Hsolver.
  assert (Hno : "RK4" ∉ solver_methods).
  { unfold solver_methods. rewrite !not_elem_of_cons. repeat split; try discriminate.
    apply not_elem_of_nil. }
  split.
  - intros q qdot s' Hrun. apply integrate_returns_inv in Hrun
      as (func & name & t0 & t1 & y & _ & _ & _ & Hm & _ & _ & Hy & _).
    injection Hm as <-. now rewrite (Hsolver _ _ _ _ _ _ Hno) in Hy.
  - intros Hty Hdim Ht.
    destruct (integrate_dispatch t states controls ct RK4 s Hty Hdim) as (func & Hfunc & _).
    assert (Hends : exists t0 t1, head t = Some t0 /\ last t = Some t1).
    { destruct t as [|x t]; [contradiction|]. exists x. simpl.
      destruct (last (x :: t)) as [t1|] eqn:Hl; [now exists t1|].
      now apply last_None in Hl. }
    destruct Hends as (t0 & t1 & Ht0 & Ht1).
    rewrite (integrate_past_the_checks t states controls ct RK4 s func "RK4" t0 t1
               Hty Hdim Hfunc eq_refl Ht0 Ht1).
    now rewrite (Hsolver _ _ _ _ _ _ Hno).
Qed.

End Trajectories.

(** ** What the batch functions compute *)

Section Cells.

Context {V : Type}.

Lemma alloc_filled ty n k (f : nat -> nat -> option V) :
  filled (alloc ty n k) n k f (fun _ _ => False).
Proof.
  split; [|split; [reflexivity | tauto]].
  split; simpl; [apply length_replicate|].
  apply Forall_forall. intros r Hr. apply elem_of_replicate in Hr as [-> _].
  apply length_replicate.
Qed.

Lemma mat_set_wf {A} (m m' : Matrix A) j i v :
  mat_set m j i v = Some m' -> mat_wf m -> mat_wf m'.
Proof.
  unfold mat_set. destruct (decide _); [|discriminate]. intros [= <-] [Hrows Hcols].
  split; simpl.
  - now rewrite length_alter.
  - apply Forall_alter; [assumption|]. intros r Hr. now rewrite length_insert.
Qed.

Lemma mat_get_set_same {A} (m m' : Matrix A) j i v :
  mat_set m j i v = Some m' -> mat_wf m -> mat_get m' j i = Some v.
Proof.
  unfold mat_set, mat_get. destruct (decide _) as [[Hj Hi]|]; [|discriminate].
  intros [= <-] [Hrows Hcols]; simpl.
  destruct (decide (j < nrows m /\ i < ncols m)); [|tauto].
  rewrite list_lookup_alter_eq.
  destruct (lookup_lt_is_Some_2 (rows m) j) as [r Hr]; [lia|].
  rewrite Hr; simpl. apply list_lookup_insert_eq.
  rewrite Forall_forall in Hcols. rewrite (Hcols r); [assumption|].
  eapply list_elem_of_lookup_2. eassumption.
Qed.

Lemma mat_get_set_other {A} (m m' : Matrix A) j i v j' i' :
  mat_set m j i v = Some m' -> j' <> j \/ i' <> i -> mat_get m' j' i' = mat_get m j' i'.
Proof.
  unfold mat_set, mat_get. destruct (decide _); [|discriminate].
  intros [= <-] Hne; simpl.
  destruct (decide (j' < nrows m /\ i' < ncols m)); [|reflexivity].
  destruct (decide (j' = j)) as [->|Hj].
  - rewrite list_lookup_alter_eq. destruct (rows m !! j) as [r|]; simpl; [|reflexivity].
    apply list_lookup_insert_ne. destruct Hne; congruence.
  - now rewrite list_lookup_alter_ne.
Qed.

(** Storing the value due at an entry inside the shape extends what is
    filled by that entry. *)
Lemma filled_store (o : Out V) n k f done j i v :
  filled o n k f done -> j < n -> i < k -> f j i = Some v ->
  exists o', store o j i v = Some o' /\ out_type o' = out_type o /\
    filled o' n k f (fun j' i' => done j' i' \/ j' = j /\ i' = i).
Proof.
  intros (Hwf & Hshape & Hcells) Hj Hi Hv.
  destruct (store_inside o j i v) as [o' Ho']; [now rewrite Hshape..|].
  exists o'. split; [assumption|].
  destruct (store_shape _ _ _ _ _ Ho') as [Hs Ht]. split; [assumption|].
  unfold store in Ho'. destruct (mat_set (out_cells o) j i (Some v)) as [m'|] eqn:Hset;
    [|discriminate]. injection Ho' as <-.
  split; [exact (mat_set_wf _ _ _ _ _ Hset Hwf)|]. split; [now rewrite Hs|].
  assert (Hnew : is_Some (f j i) /\ mat_get m' j i = Some (f j i)).
  { rewrite Hv. split; [eauto | exact (mat_get_set_same _ _ _ _ _ Hset Hwf)]. }
  intros j' i' [Hdone | [-> ->]]; unfold cell; simpl; [|exact Hnew].
  destruct (decide (j' = j /\ i' = i)) as [[-> ->]|Hne]; [exact Hnew|].
  rewrite (mat_get_set_other _ _ _ _ _ _ _ Hset); [now apply Hcells|].
  destruct (decide (j' = j)); [right; intros ->; tauto | now left].
Qed.

Lemma filled_weaken (o : Out V) n k f (done done' : nat -> nat -> Prop) :
  (forall j i, done' j i -> done j i) -> filled o n k f done -> filled o n k f done'.
Proof.
  intros Himp (Hwf & Hshape & Hcells).
  split; [assumption|]. split; [assumption|]. intros j i Hd. apply Hcells, Himp, Hd.
Qed.

End Cells.

Section Loops.

Context {V : Type}.

Lemma range_cons lo hi : lo < hi -> range lo hi = lo :: range (S lo) hi.
Proof.
  intros H. unfold range. replace (hi - lo) with (S (hi - S lo)) by lia. reflexivity.
Qed.

Lemma range_snoc j : range 0 (S j) = (range 0 j ++ [j])%list.
Proof. unfold range. rewrite !Nat.sub_0_r. apply seq_S. Qed.

Lemma range_empty lo : range lo lo = [].
Proof. unfold range. now rewrite Nat.sub_diag. Qed.

(** A loop over [range(lo, hi)] whose iteration [j] takes an invariant at
    [j] to the invariant at [j + 1] completes, and takes the invariant
    from [lo] to [hi]. *)
Lemma for_range {Acc} (I : nat -> Acc -> St V -> Prop) (body : nat -> Acc -> M V Acc) lo hi :
  lo <= hi ->
  (forall j a t, lo <= j < hi -> I j a t ->
     exists a' t', body j a t = (Ok a', t') /\ I (S j) a' t') ->
  forall acc s, I lo acc s ->
    exists acc' s', for_each (range lo hi) body acc s = (Ok acc', s') /\ I hi acc' s'.
Proof.
  intros Hle. remember (hi - lo) as d eqn:Hd. revert lo Hle Hd.
  induction d as [|d IH]; intros lo Hle Hd Hbody acc s Hacc.
  - assert (lo = hi) as -> by lia. rewrite range_empty. simpl. eauto.
  - rewrite range_cons by lia. simpl.
    destruct (Hbody lo acc s) as (a & t & Hrun & Ha); [lia | assumption |].
    rewrite (bind_ok _ _ _ _ _ Hrun).
    apply (IH (S lo)); [lia | lia | | assumption].
    intros j b u Hj. apply Hbody. lia.
Qed.

End Loops.

Section BatchLoop.

Context {V Acc : Type}.
Variables (m0 : Model V) (q : Array V) (qdot : option (Array V)) (n k : nat).
Variable per : nat -> list (EngineCall V).
Variable body : nat -> nat -> Acc -> M V Acc.
Variable outer : nat -> Acc -> M V Acc.
Variable Inv : nat -> nat -> Acc -> Prop.

Hypothesis Hq : forall i, i < k -> is_Some (column q i).
Hypothesis Hqd : forall i qd, i < k -> qdot = Some qd -> is_Some (column qd i).

(** The iteration for sample [i] and muscle [j] completes, makes the calls
    [per j] and leaves the model as it is. *)
Hypothesis Hbody : forall i j acc t,
  i < k -> j < n -> Inv i j acc -> model t = at_sample m0 q qdot i ->
  exists acc', body i j acc t = (Ok acc', MkSt (model t) (trace t ++ per j)) /\
    Inv i (S j) acc'.

Hypothesis Hnext : forall i acc, i < k -> Inv i n acc -> Inv (S i) 0 acc.

(** The iteration for sample [i]: the kinematic cache is updated, then the
    muscles are gone through. *)
Hypothesis Hout : forall i acc t,
  muscles (model t) = muscles m0 ->
  outer i acc t
  = (let! _ := update_sample q qdot i in for_each (range 0 n) (body i) acc) t.

Lemma at_sample_after i j : at_sample (model_after m0 q qdot i) q qdot j = at_sample m0 q qdot j.
Proof. now destruct i. Qed.

Lemma muscles_after i : muscles (model_after m0 q qdot i) = muscles m0.
Proof. now destruct i. Qed.

Lemma update_sample_run i t :
  i < k ->
  update_sample q qdot i t
  = (Ok tt,
     MkSt (at_sample (model t) q qdot i)
       (trace t ++ [Call_updateMuscles (col q i) ((fun qd => col qd i) <$> qdot)])).
Proof.
  intros Hi. destruct (Hq i Hi) as [qi Hqi]. unfold update_sample, at_sample, col.
  destruct qdot as [qd|] eqn:Hqdot; simpl.
  - destruct (Hqd i qd Hi eq_refl) as [qdi Hqdi]. rewrite Hqi, Hqdi. reflexivity.
  - rewrite Hqi. reflexivity.
Qed.

Lemma inner_loop i acc t :
  i < k -> Inv i 0 acc -> model t = at_sample m0 q qdot i ->
  exists acc',
    for_each (range 0 n) (body i) acc t
    = (Ok acc', MkSt (model t) (trace t ++ flat_map per (range 0 n))) /\
    Inv i n acc'.
Proof.
  intros Hi Hacc Hm.
  destruct (for_range
              (fun j a u => Inv i j a /\
                 u = MkSt (model t) (trace t ++ flat_map per (range 0 j)))
              (body i) 0 n (Nat.le_0_l n)) with (acc := acc) (s := t)
    as (acc' & t' & Hrun & Hinv & ->).
  - intros j a u Hj [Ha ->].
    destruct (Hbody i j a (MkSt (model t) (trace t ++ flat_map per (range 0 j))))
      as (a' & Hrun & Ha'); [assumption | lia | assumption | assumption |].
    exists a', (MkSt (model t) ((trace t ++ flat_map per (range 0 j)) ++ per j)).
    split; [assumption|]. split; [assumption|].
    rewrite range_snoc, flat_map_app. simpl. now rewrite app_nil_r, app_assoc.
  - split; [assumption|]. rewrite range_empty. simpl. rewrite app_nil_r. now destruct t.
  - eauto.
Qed.

(** The whole batch: the outputs go from the invariant before the first
    sample to the invariant after the last, the kinematic cache holds the
    last sample, and the engine calls are those of the samples in turn. *)
Lemma batch_loop acc s :
  model s = m0 -> Inv 0 0 acc ->
  exists acc',
    for_each (range 0 k) outer acc s
    = (Ok acc', MkSt (model_after m0 q qdot k) (trace s ++ batch_calls per q qdot n k)) /\
    Inv k 0 acc'.
Proof.
  intros Hm Hacc.
  destruct (for_range
              (fun i a u => Inv i 0 a /\
                 u = MkSt (model_after m0 q qdot i) (trace s ++ batch_calls per q qdot n i))
              outer 0 k (Nat.le_0_l k)) with (acc := acc) (s := s)
    as (acc' & s' & Hrun & Hinv & ->).
  - intros i a u Hi [Ha ->].
    rewrite Hout by apply muscles_after.
    rewrite (bind_ok _ _ _ _ _ (update_sample_run i _ ltac:(lia))). simpl model.
    rewrite at_sample_after.
    match goal with |- context [for_each _ _ a ?t] =>
      destruct (inner_loop i a t) as (a' & Hrun & Ha'); [lia | assumption | reflexivity |]
    end.
    rewrite Hrun. eexists _, _. split; [reflexivity|]. split; [apply Hnext; [lia | assumption]|].
    simpl. f_equal. unfold batch_calls. rewrite range_snoc, flat_map_app. simpl.
    rewrite app_nil_r. unfold sample_calls. now rewrite <- !app_assoc.
  - split; [assumption|]. unfold batch_calls. rewrite range_empty. simpl.
    rewrite app_nil_r. destruct s; simpl in *. now subst.
  - eauto.
Qed.

End BatchLoop.

Section KinematicsValues.

Context {V : Type}.
Variable E : Engine V.

Lemma progress_step n i j j' i' :
  progress n i (S j) j' i' -> progress n i j j' i' \/ j' = j /\ i' = i.
Proof. unfold progress. lia. Qed.

Lemma progress_start n j' i' : progress n 0 0 j' i' -> False.
Proof. unfold progress. lia. Qed.

Lemma progress_next n i j' i' : progress n (S i) 0 j' i' -> progress n i n j' i'.
Proof. unfold progress. lia. Qed.

Lemma column_col (a : Array V) i : is_Some (column a i) -> column a i = Some (col a i).
Proof. intros [x Hx]. unfold col. now rewrite Hx. Qed.

Lemma kinematics_of_muscle_run (m0 : Model V) q qdot n k i j acc t :
  use_casadi m0 = false ->
  is_Some (column q i) ->
  (forall qd, qdot = Some qd -> is_Some (column qd i)) ->
  n <= nbMuscleTotal m0 ->
  i < k -> j < n ->
  kinematics_inv E m0 q qdot n k i j acc ->
  model t = at_sample m0 q qdot i ->
  exists acc',
    kinematics_of_muscle E q qdot i j acc t
    = (Ok acc', MkSt (model t) (trace t ++ kinematics_calls qdot j)) /\
    kinematics_inv E m0 q qdot n k i (S j) acc'.
Proof.
  intros Hnum Hq Hqd Hn Hi Hj [Hl Hv] Hm. destruct acc as [ls vs]; simpl in Hl, Hv.
  assert (Hnum' : use_casadi (model t) = false) by (rewrite Hm; exact Hnum).
  destruct (lookup_lt_is_Some_2 (muscles (model t)) j) as [mus Hmus].
  { rewrite Hm. simpl. fold (nbMuscleTotal m0). lia. }
  unfold kinematics_of_muscle.
  rewrite (bind_ok _ _ _ _ _ (muscle_found _ _ _ Hmus)).
  rewrite (bind_index_some _ _ _ _ (column_col q i Hq)), bind_gets.
  rewrite (bind_store_result _ _ _ _ _ (MkSt (model t) _) Hnum'). simpl model.
  destruct (filled_store ls n k _ _ j i _ Hl Hj Hi eq_refl) as (ls' & Hstore & _ & Hl').
  unfold expected_length in Hstore at 1. rewrite <- Hm in Hstore.
  rewrite (bind_index_some _ _ _ _ Hstore).
  assert (Hl'' : filled ls' n k (fun j i => Some (expected_length E m0 q qdot j i))
                   (progress n i (S j)))
    by (eapply filled_weaken; [apply progress_step | exact Hl']).
  destruct qdot as [qd|].
  - rewrite (bind_ok _ _ _ _ _
               (muscle_found j mus (MkSt (model t) (trace t ++ [Call_muscle j])) Hmus)).
    rewrite (bind_index_some _ _ _ _ (column_col q i Hq)).
    rewrite (bind_index_some _ _ _ _ (column_col qd i (Hqd qd eq_refl))), bind_gets.
    rewrite (bind_store_result _ _ _ _ _ (MkSt (model t) _) Hnum'). simpl model.
    destruct (filled_store vs n k _ _ j i _ Hv Hj Hi eq_refl) as (vs' & Hstorev & _ & Hv').
    unfold expected_velocity in Hstorev at 1. rewrite <- Hm in Hstorev.
    rewrite (bind_index_some _ _ _ _ Hstorev).
    exists (ls', vs'). split.
    + unfold ret. simpl. now rewrite <- app_assoc.
    + split; [exact Hl''|]. simpl.
      eapply filled_weaken; [apply progress_step | exact Hv'].
  - exists (ls', vs). split; [reflexivity|]. now split.
Qed.

(** X9.  On the numeric engine and on all the muscles of the model, for
    a well-formed numpy matrix of poses of [n_q] rows (and of velocities,
    of [n_q] rows and with a column for each pose), [muscles_kinematics]
    returns arrays of [n_muscles] rows and one column per sample.  Entry [(j, i)] of the lengths is the length the
    engine gives for muscle [j] once its kinematic cache holds sample [i],
    and so for the velocities when velocities are given.  The engine is
    updated once per sample, before the muscles of that sample are
    queried; afterwards its cache holds the last sample. *)
Theorem muscles_kinematics_computes (mq : Matrix V) qdot mi s :
  use_casadi (model s) = false ->
  mat_wf mq -> nrows mq = nbQ (model s) ->
  (forall qd, qdot = Some qd ->
     exists mqd, qd = Arr2 NdArray mqd /\ mat_wf mqd /\ nrows mqd = nbQ (model s) /\
       ncols mq <= ncols mqd) ->
  parse_muscle_index mi (nbMuscleTotal (model s)) = MkSlice 0 (nbMuscleTotal (model s)) ->
  exists lengths velocities,
    muscles_kinematics E (Arr2 NdArray mq) qdot mi s
    = (Ok (lengths, velocities),
       MkSt (model_after (model s) (Arr2 NdArray mq) qdot (ncols mq))
         (trace s ++ batch_calls (kinematics_calls qdot) (Arr2 NdArray mq) qdot
                       (nbMuscleTotal (model s)) (ncols mq))) /\
    shape_of lengths = (nbMuscleTotal (model s), ncols mq) /\
    (forall j i, j < nbMuscleTotal (model s) -> i < ncols mq ->
       cell lengths j i = Some (Some (expected_length E (model s) (Arr2 NdArray mq) qdot j i))) /\
    match qdot with
    | None => velocities = None
    | Some qd =>
        exists vs, velocities = Some vs /\
          shape_of vs = (nbMuscleTotal (model s), ncols mq) /\
          forall j i, j < nbMuscleTotal (model s) -> i < ncols mq ->
            cell vs j i = Some (Some (expected_velocity E (model s) (Arr2 NdArray mq) qd j i))
    end.
Proof.
  intros Hnum Hmq _ Hqd' Hparse.
  assert (Hqd : forall qd, qdot = Some qd ->
            exists mqd, qd = Arr2 NdArray mqd /\ mat_wf mqd /\ ncols mq <= ncols mqd).
  { intros qd Hq. destruct (Hqd' qd Hq) as (mqd & ? & ? & _ & ?). now exists mqd. }
  clear Hqd'.
  set (q := Arr2 NdArray mq). set (n := nbMuscleTotal (model s)) in *. set (k := ncols mq).
  assert (Hcol : forall i, i < k -> is_Some (column q i))
    by (intros i Hi; simpl; now apply mat_column_inside).
  assert (Hcold : forall i qd, i < k -> qdot = Some qd -> is_Some (column qd i)).
  { intros i qd Hi Hq. destruct (Hqd qd Hq) as (mqd & -> & Hwf & Hle).
    simpl. apply mat_column_inside; [assumption | unfold k in Hi; lia]. }
  unfold muscles_kinematics. cbv zeta.
  assert (Hguard : match qdot with
                   | Some qd => negb (isinstance (array_type qd) (array_type q))
                   | None => false
                   end = false).
  { destruct qdot as [qd|]; [|reflexivity].
    destruct (Hqd qd eq_refl) as (mqd & -> & _). reflexivity. }
  rewrite Hguard. unfold n_muscles. rewrite bind_gets. fold n. rewrite Hparse.
  simpl slice_start. simpl slice_stop. rewrite length_range, Nat.sub_0_r.
  change (shape1 q) with (Some k). rewrite (bind_index_some _ _ _ k eq_refl).
  match goal with |- context [bind (for_each _ ?outer ?acc0)] =>
    assert (Hloop : exists acc',
               for_each (range 0 k) outer acc0 s
               = (Ok acc',
                  MkSt (model_after (model s) q qdot k)
                    (trace s ++ batch_calls (kinematics_calls qdot) q qdot n k)) /\
               kinematics_inv E (model s) q qdot n k k 0 acc');
      [apply (batch_loop (model s) q qdot n k (kinematics_calls qdot)
                (kinematics_of_muscle E q qdot) outer
                (kinematics_inv E (model s) q qdot n k))|]
  end.
  - assumption.
  - assumption.
  - intros i j acc t Hi Hj Hinv Hm.
    apply (kinematics_of_muscle_run (model s) q qdot n k); auto;
      intros qd Hq; now apply (Hcold i qd).
  - intros i [ls vs] Hi [Hl Hv]. split.
    + eapply filled_weaken; [apply progress_next | exact Hl].
    + destruct qdot; [|exact I]. eapply filled_weaken; [apply progress_next | exact Hv].
  - intros i acc t Hms. unfold bind.
    pose proof (keeps_update_sample q qdot i t) as Hkeep.
    destruct (update_sample q qdot i t) as [[u|e] t']; [|reflexivity].
    unfold gets. simpl in *. unfold nbMuscleTotal at 1. rewrite Hkeep, Hms. reflexivity.
  - reflexivity.
  - assert (Hstart : forall (f : nat -> nat -> option V),
              filled (alloc NdArray n k) n k f (progress n 0 0))
      by (intros f; eapply filled_weaken; [apply progress_start | apply alloc_filled]).
    split; [apply Hstart|]. destruct qdot; [apply Hstart | exact I].
  - destruct Hloop as ([ls vs] & Hloop & Hl & Hv).
    rewrite (bind_ok _ _ _ _ _ Hloop). simpl in Hl.
    destruct Hl as (_ & Hshape & Hcells).
    assert (Hall : forall j i, j < n -> i < k -> progress n k 0 j i)
      by (intros j i Hj Hi; left; lia).
    destruct qdot as [qd|]; simpl in Hv.
    + exists ls, (Some vs). split; [reflexivity|]. split; [assumption|].
      split; [intros j i Hj Hi; now apply (Hcells j i), Hall|].
      destruct Hv as (_ & Hshapev & Hcellsv).
      exists vs. split; [reflexivity|]. split; [assumption|].
      intros j i Hj Hi. now apply (Hcellsv j i), Hall.
    + exists ls, None. split; [reflexivity|]. split; [assumption|].
      split; [intros j i Hj Hi; now apply (Hcells j i), Hall | reflexivity].
Qed.

End KinematicsValues.

Section ForceValues.

Context {V : Type}.
Variable E : Engine V.

Lemma upcast_class (mus : Muscle V) c t :
  class_of (muscle_type mus) = Some c -> _upcast_muscle mus t = (Ok c, t).
Proof.
  unfold _upcast_muscle. destruct (muscle_type mus); simpl; try discriminate;
    now intros [= <-].
Qed.

Lemma supported_class (t : MuscleTypeId) : supported t -> is_Some (class_of t).
Proof. intros [-> | [-> | [-> | ->]]]; simpl; eauto. Qed.

Lemma supported_muscle_class (m : Model V) b j :
  supported_muscles m b -> b <= nbMuscleTotal m -> j < b ->
  exists mus c, muscles m !! j = Some mus /\ class_of (muscle_type mus) = Some c /\
    class_of_muscle m j = Some c.
Proof.
  intros Hsup Hb Hj.
  destruct (lookup_lt_is_Some_2 (muscles m) j) as [mus Hmus];
    [fold (nbMuscleTotal m); lia|].
  destruct (supported_class _ (Hsup j mus Hj Hmus)) as [c Hc].
  exists mus, c. unfold class_of_muscle. now rewrite Hmus.
Qed.

Lemma hill_muscle_class (m : Model V) b j :
  hill_muscles m b -> b <= nbMuscleTotal m -> j < b ->
  exists mus c, muscles m !! j = Some mus /\ class_of (muscle_type mus) = Some c /\
    c <> IdealizedActuator.
Proof.
  intros Hhill Hb Hj.
  destruct (lookup_lt_is_Some_2 (muscles m) j) as [mus Hmus];
    [fold (nbMuscleTotal m); lia|].
  exists mus. destruct (Hhill j mus Hj Hmus) as [H | [H | H]]; rewrite H; simpl;
    eexists; (split; [assumption|]); split; try reflexivity; discriminate.
Qed.

Lemma hill_muscles_supported (m : Model V) b : hill_muscles m b -> supported_muscles m b.
Proof. intros H j mus Hj Hmus. apply hill_supported. now apply (H j). Qed.

Lemma coefficients_of_muscle_run (m0 : Model V) emg q qdot n k i j acc t mus c e :
  use_casadi m0 = false ->
  muscles m0 !! j = Some mus -> class_of (muscle_type mus) = Some c ->
  c <> IdealizedActuator ->
  item emg j i = Some e ->
  i < k -> j < n ->
  coefficients_inv E m0 emg q qdot n k i j acc ->
  model t = at_sample m0 q qdot i ->
  exists acc',
    coefficients_of_muscle E emg qdot i j acc t
    = (Ok acc', MkSt (model t) (trace t ++ [Call_muscle j])) /\
    coefficients_inv E m0 emg q qdot n k i (S j) acc'.
Proof.
  intros Hnum Hmus Hc Hne He Hi Hj (H1 & H2 & H3) Hm.
  destruct acc as [[o1 o2] o3]; simpl in H1, H2, H3.
  assert (Hnum' : use_casadi (model t) = false) by (rewrite Hm; exact Hnum).
  assert (Hmus' : muscles (model t) !! j = Some mus) by (now rewrite Hm).
  assert (Hcls : hill_class_of_muscle m0 j = Some c).
  { unfold hill_class_of_muscle, class_of_muscle. rewrite Hmus, Hc. now destruct c. }
  unfold coefficients_of_muscle.
  rewrite (bind_ok _ _ _ _ _ (muscle_found _ _ _ Hmus')).
  rewrite (bind_ok _ _ _ _ _ (upcast_class mus c _ Hc)).
  rewrite !(bind_index_some _ _ _ _ He), (bind_hill_coefficient _ _ _ _ _ Hne).
  rewrite bind_store_result by first [exact Hnum' | exact Hnum]. simpl model. rewrite ?Hm.
  destruct (filled_store o1 n k _ _ j i (eng_FlPE E (at_sample m0 q qdot i) c j) H1 Hj Hi)
    as (o1' & Hs1 & _ & H1'); [unfold expected_flpe; now rewrite Hcls|].
  rewrite (bind_index_some _ _ _ _ Hs1), (bind_hill_coefficient _ _ _ _ _ Hne).
  rewrite bind_store_result by first [exact Hnum' | exact Hnum]. simpl model. rewrite ?Hm.
  destruct (filled_store o2 n k _ _ j i (eng_FlCE E (at_sample m0 q qdot i) c j (e, e))
              H2 Hj Hi) as (o2' & Hs2 & _ & H2');
    [unfold expected_flce; now rewrite Hcls, He|].
  rewrite (bind_index_some _ _ _ _ Hs2).
  destruct qdot as [qd|].
  - rewrite (bind_hill_coefficient _ _ _ _ _ Hne).
    rewrite bind_store_result by first [exact Hnum' | exact Hnum]. simpl model. rewrite ?Hm.
    destruct (filled_store o3 n k _ _ j i (eng_FvCE E (at_sample m0 q (Some qd) i) c j)
                H3 Hj Hi) as (o3' & Hs3 & _ & H3');
      [unfold expected_fvce; now rewrite Hcls|].
    rewrite (bind_index_some _ _ _ _ Hs3).
    exists (o1', o2', o3'). split; [reflexivity|].
    split; [|split]; simpl; (eapply filled_weaken; [apply progress_step | eassumption]).
  - exists (o1', o2', o3). split; [reflexivity|].
    split; [|split]; simpl; [| |exact I];
      (eapply filled_weaken; [apply progress_step | eassumption]).
Qed.

(** The whole of [muscle_force_coefficients] on the numeric engine, for
    numpy arrays and the first [b] muscles, all of the Hill family: the
    state it ends in and what the outputs hold. *)
Lemma muscle_force_coefficients_run
  (q : Array V) qdot mi s (me mq : Matrix V) b :
  use_casadi (model s) = false ->
  mat_wf me -> promote q = Arr2 NdArray mq -> mat_wf mq ->
  (forall qd, qdot = Some qd ->
     exists mqd, promote qd = Arr2 NdArray mqd /\ mat_wf mqd /\ ncols mq <= ncols mqd) ->
  parse_muscle_index mi (nbMuscleTotal (model s)) = MkSlice 0 b ->
  b <= nbMuscleTotal (model s) -> b <= nrows me -> ncols mq <= ncols me ->
  hill_muscles (model s) b ->
  let emg := Arr2 NdArray me in
  let q' := promote q in
  let qdot' := promote <$> qdot in
  exists o1 o2 o3,
    muscle_force_coefficients E emg q qdot mi s
    = (Ok (o1, o2, (fun _ => o3) <$> qdot),
       MkSt (model_after (model s) q' qdot' (ncols mq))
         (trace s ++ batch_calls (fun j => [Call_muscle j]) q' qdot' b (ncols mq))) /\
    coefficients_inv E (model s) emg q' qdot' b (ncols mq) (ncols mq) 0 (o1, o2, o3).
Proof.
  intros Hnum Hme Hq Hmq Hqd Hparse Hb Hrows Hcols Hhill emg q' qdot'.
  set (k := ncols mq) in *.
  assert (Hty : array_type q = NdArray) by (now rewrite <- array_type_promote, Hq).
  assert (Hcol : forall i, i < k -> is_Some (column q' i)).
  { intros i Hi. unfold q'. rewrite Hq. simpl. now apply mat_column_inside. }
  assert (Hcold : forall i qd, i < k -> qdot' = Some qd -> is_Some (column qd i)).
  { intros i qd Hi Hqd'. unfold qdot' in Hqd'. destruct qdot as [qd0|]; [|discriminate].
    injection Hqd' as <-. destruct (Hqd qd0 eq_refl) as (mqd & -> & Hwf & Hle).
    simpl. apply mat_column_inside; [assumption | lia]. }
  unfold muscle_force_coefficients. cbv zeta.
  change (array_type emg) with NdArray. cbn [alloc_tuple].
  rewrite (isinstance_true _ _ Hty).
  assert (Hguard : match qdot with
                   | Some qd => negb (isinstance (array_type qd) NdArray)
                   | None => false
                   end = false).
  { destruct qdot as [qd|]; [|reflexivity].
    destruct (Hqd qd eq_refl) as (mqd & Hp & _).
    rewrite isinstance_true; [reflexivity|]. now rewrite <- array_type_promote, Hp. }
  rewrite Hguard. cbn [negb orb]. unfold n_muscles. rewrite bind_gets, Hparse.
  fold q' qdot'. simpl slice_start. simpl slice_stop. rewrite length_range, Nat.sub_0_r.
  assert (Hshape1 : shape1 q' = Some k) by (unfold q'; now rewrite Hq).
  rewrite (bind_index_some _ _ _ _ Hshape1).
  match goal with |- context [bind (for_each _ ?outer ?acc0)] =>
    assert (Hloop : exists acc',
               for_each (range 0 k) outer acc0 s
               = (Ok acc',
                  MkSt (model_after (model s) q' qdot' k)
                    (trace s ++ batch_calls (fun j => [Call_muscle j]) q' qdot' b k)) /\
               coefficients_inv E (model s) emg q' qdot' b k k 0 acc');
      [apply (batch_loop (model s) q' qdot' b k (fun j => [Call_muscle j])
                (coefficients_of_muscle E emg qdot') outer
                (coefficients_inv E (model s) emg q' qdot' b k))|]
  end.
  - assumption.
  - assumption.
  - intros i j acc t Hi Hj Hinv Hm.
    destruct (hill_muscle_class (model s) b j Hhill Hb Hj) as (mus & c & Hmus & Hc & Hne).
    destruct (mat_get_inside me j i Hme) as [e He]; [lia | lia |].
    now apply (coefficients_of_muscle_run (model s) emg q' qdot' b k i j acc t mus c e).
  - intros i [[o1 o2] o3] Hi (H1 & H2 & H3). simpl in H1, H2, H3.
    split; [|split]; simpl;
      [eapply filled_weaken; [apply progress_next | eassumption]..|].
    destruct qdot'; [|exact I]. eapply filled_weaken; [apply progress_next | eassumption].
  - reflexivity.
  - reflexivity.
  - assert (Hstart : forall (f : nat -> nat -> option V),
              filled (alloc NdArray b k) b k f (progress b 0 0))
      by (intros f; eapply filled_weaken; [apply progress_start | apply alloc_filled]).
    split; [|split]; simpl; [apply Hstart..|]. destruct qdot'; [apply Hstart | exact I].
  - destruct Hloop as ([[o1 o2] o3] & Hloop & Hinv).
    rewrite (bind_ok _ _ _ _ _ Hloop). exists o1, o2, o3. split; [|exact Hinv].
    unfold qdot'. now destruct qdot.
Qed.

(** X10.  On the numeric engine, for numpy arrays and the first [b]
    muscles of the model (all of them by default), when these are of the
    Hill family, the poses and velocities (promoted when one-dimensional)
    are well-formed matrices of [n_q] rows and the excitations have a row
    for each of these muscles and a column for each sample,
    [muscle_force_coefficients] returns arrays of [b] rows and one column
    per sample.  Entry [(j, i)] is the coefficient the engine gives for
    muscle [j], upcast to the class of its type, once the kinematic cache
    holds sample [i], the activation being [emg[j, i]] twice.  The engine
    is updated once per sample, then each muscle is fetched once. *)
Theorem muscle_force_coefficients_computes
  (q : Array V) qdot mi s (me mq : Matrix V) b :
  use_casadi (model s) = false ->
  mat_wf me -> promote q = Arr2 NdArray mq -> mat_wf mq -> nrows mq = nbQ (model s) ->
  (forall qd, qdot = Some qd ->
     exists mqd, promote qd = Arr2 NdArray mqd /\ mat_wf mqd /\
       nrows mqd = nbQ (model s) /\ ncols mq <= ncols mqd) ->
  parse_muscle_index mi (nbMuscleTotal (model s)) = MkSlice 0 b ->
  b <= nbMuscleTotal (model s) -> b <= nrows me -> ncols mq <= ncols me ->
  hill_muscles (model s) b ->
  let emg := Arr2 NdArray me in
  let q' := promote q in
  let qdot' := promote <$> qdot in
  exists o1 o2 o3,
    muscle_force_coefficients E emg q qdot mi s
    = (Ok (o1, o2, o3),
       MkSt (model_after (model s) q' qdot' (ncols mq))
         (trace s ++ batch_calls (fun j => [Call_muscle j]) q' qdot' b (ncols mq))) /\
    shape_of o1 = (b, ncols mq) /\ shape_of o2 = (b, ncols mq) /\
    (forall j i, j < b -> i < ncols mq ->
       is_Some (expected_flpe E (model s) q' qdot' j i) /\
       cell o1 j i = Some (expected_flpe E (model s) q' qdot' j i) /\
       is_Some (expected_flce E (model s) emg q' qdot' j i) /\
       cell o2 j i = Some (expected_flce E (model s) emg q' qdot' j i)) /\
    match qdot with
    | None => o3 = None
    | Some _ =>
        exists o, o3 = Some o /\ shape_of o = (b, ncols mq) /\
          forall j i, j < b -> i < ncols mq ->
            is_Some (expected_fvce E (model s) q' qdot' j i) /\
            cell o j i = Some (expected_fvce E (model s) q' qdot' j i)
    end.
Proof.
  intros Hnum Hme Hq Hmq _ Hqd' Hparse Hb Hrows Hcols Hhill emg q' qdot'.
  assert (Hqd : forall qd, qdot = Some qd ->
            exists mqd, promote qd = Arr2 NdArray mqd /\ mat_wf mqd /\ ncols mq <= ncols mqd).
  { intros qd Hqd. destruct (Hqd' qd Hqd) as (mqd & ? & ? & _ & ?). now exists mqd. }
  destruct (muscle_force_coefficients_run q qdot mi s me mq b
              Hnum Hme Hq Hmq Hqd Hparse Hb Hrows Hcols Hhill)
    as (o1 & o2 & o3 & Hrun & H1 & H2 & H3).
  fold emg q' qdot' in Hrun, H1, H2, H3. simpl in H1, H2, H3.
  set (k := ncols mq) in *.
  assert (Hall : forall j i, j < b -> i < k -> progress b k 0 j i)
    by (intros j i Hj Hi; left; lia).
  destruct H1 as (_ & Hs1 & Hc1). destruct H2 as (_ & Hs2 & Hc2).
  assert (Hcells : forall j i, j < b -> i < k ->
            is_Some (expected_flpe E (model s) q' qdot' j i) /\
            cell o1 j i = Some (expected_flpe E (model s) q' qdot' j i) /\
            is_Some (expected_flce E (model s) emg q' qdot' j i) /\
            cell o2 j i = Some (expected_flce E (model s) emg q' qdot' j i)).
  { intros j i Hj Hi. destruct (Hc1 j i (Hall j i Hj Hi)), (Hc2 j i (Hall j i Hj Hi)).
    now repeat split. }
  exists o1, o2, ((fun _ => o3) <$> qdot). split; [exact Hrun|].
  split; [assumption|]. split; [assumption|]. split; [exact Hcells|].
  unfold qdot' in *. destruct qdot as [qd|]; simpl in *; [|reflexivity].
  destruct H3 as (_ & Hs3 & Hc3).
  exists o3. split; [reflexivity|]. split; [assumption|].
  intros j i Hj Hi. now apply (Hc3 j i), Hall.
Qed.

End ForceValues.

Section NetForce.

Context {V : Type}.
Variable E : Engine V.

Lemma force_of_muscle_run (m0 : Model V) ty emg q qdot n k i j out t mus c e :
  muscles m0 !! j = Some mus -> class_of (muscle_type mus) = Some c ->
  item emg j i = Some e ->
  i < k -> j < n ->
  filled out n k (expected_force E m0 ty emg q qdot) (progress n i j) ->
  model t = at_sample m0 q qdot i ->
  exists out',
    force_of_muscle E ty emg (range 0 n) i j out t
    = (Ok out', MkSt (model t) (trace t ++ [Call_muscle j])) /\
    filled out' n k (expected_force E m0 ty emg q qdot) (progress n i (S j)).
Proof.
  intros Hmus Hc He Hi Hj Hout Hm.
  assert (Hmus' : muscles (model t) !! j = Some mus) by (now rewrite Hm).
  assert (Hcls : class_of_muscle m0 j = Some c) by (unfold class_of_muscle; now rewrite Hmus).
  unfold force_of_muscle.
  rewrite (bind_index_some _ _ _ _ (lookup_range_prefix n j Hj)).
  rewrite (bind_ok _ _ _ _ _ (muscle_found _ _ _ Hmus')).
  rewrite (bind_ok _ _ _ _ _ (upcast_class mus c _ Hc)).
  rewrite !(bind_index_some _ _ _ _ He), !bind_gets. simpl model. rewrite ?Hm.
  match goal with |- context [store out j i ?v] =>
    destruct (filled_store out n k _ _ j i v Hout Hj Hi) as (out' & Hs & _ & Hout')
  end.
  { unfold expected_force. now rewrite Hcls, He. }
  rewrite Hs. exists out'. split; [reflexivity|].
  eapply filled_weaken; [apply progress_step | exact Hout'].
Qed.

(** The whole of [muscle_force] on the first [b] muscles: the state it
    ends in and what the output holds. *)
Lemma muscle_force_run
  (emg q qd : Array V) mi s ty (me mq mqd : Matrix V) b :
  promote emg = Arr2 ty me -> mat_wf me ->
  promote q = Arr2 ty mq -> mat_wf mq ->
  promote qd = Arr2 ty mqd -> mat_wf mqd -> ncols mq <= ncols mqd ->
  parse_muscle_index mi (nbMuscleTotal (model s)) = MkSlice 0 b ->
  b <= nbMuscleTotal (model s) -> b <= nrows me -> ncols mq <= ncols me ->
  supported_muscles (model s) b ->
  let emg' := promote emg in
  let q' := promote q in
  let qdot' := Some (promote qd) in
  exists out,
    muscle_force E emg q (Some qd) mi s
    = (Ok out,
       MkSt (model_after (model s) q' qdot' (ncols mq))
         (trace s ++ batch_calls (fun j => [Call_muscle j]) q' qdot' b (ncols mq))) /\
    filled out b (ncols mq) (expected_force E (model s) ty emg' q' qdot')
      (progress b (ncols mq) 0).
Proof.
  intros Hemg Hme Hq Hmq Hqd Hmqd Hle Hparse Hb Hrows Hcols Hsup emg' q' qdot'.
  set (k := ncols mq) in *.
  assert (Hte : array_type emg = ty) by (now rewrite <- array_type_promote, Hemg).
  assert (Htq : array_type q = ty) by (now rewrite <- array_type_promote, Hq).
  assert (Htd : array_type qd = ty) by (now rewrite <- array_type_promote, Hqd).
  assert (Hcol : forall i, i < k -> is_Some (column q' i)).
  { intros i Hi. unfold q'. rewrite Hq. simpl. now apply mat_column_inside. }
  assert (Hcold : forall i qd0, i < k -> qdot' = Some qd0 -> is_Some (column qd0 i)).
  { intros i qd0 Hi [= <-]. rewrite Hqd. simpl. apply mat_column_inside; [assumption | lia]. }
  unfold muscle_force. cbv zeta.
  rewrite Hte, (isinstance_true _ _ Htq), (isinstance_true _ _ Htd). cbn [negb orb].
  change (promote <$> Some qd) with qdot'. fold emg' q'.
  unfold n_muscles. rewrite bind_gets, Hparse.
  simpl slice_start. simpl slice_stop. rewrite length_range, Nat.sub_0_r.
  unfold slice_indices. simpl slice_start. simpl slice_stop.
  rewrite Nat.min_id, Nat.min_0_l.
  assert (Hshape1 : shape1 q' = Some k) by (unfold q'; now rewrite Hq).
  rewrite (bind_index_some _ _ _ _ Hshape1).
  apply (batch_loop (model s) q' qdot' b k (fun j => [Call_muscle j])
           (force_of_muscle E ty emg' (range 0 b)) _
           (fun i j out =>
              filled out b k (expected_force E (model s) ty emg' q' qdot')
                (progress b i j))).
  - assumption.
  - assumption.
  - intros i j out t Hi Hj Hinv Hm.
    destruct (supported_muscle_class (model s) b j Hsup Hb Hj) as (mus & c & Hmus & Hc & _).
    assert (He : is_Some (item emg' j i)).
    { unfold emg'. rewrite Hemg. simpl. apply mat_get_inside; [assumption | lia | lia]. }
    destruct He as [e He].
    now apply (force_of_muscle_run (model s) ty emg' q' qdot' b k i j out t mus c e).
  - intros i out Hi Hout. eapply filled_weaken; [apply progress_next | exact Hout].
  - reflexivity.
  - reflexivity.
  - destruct (decide (ty = MX \/ ty = SX));
      (eapply filled_weaken; [apply progress_start | apply alloc_filled]).
Qed.

(** X11.  Under the same conditions, for excitations that may be
    one-dimensional too, [muscle_force] returns an array of [b] rows and
    one column per sample whose entry [(j, i)] is the force the engine
    gives for muscle [j], upcast to the class of its type, once the
    kinematic cache holds sample [i], under the activation [emg[j, i]]
    twice; with the casadi engine and numpy inputs that force is
    evaluated first.  The engine is updated once per sample, then each
    muscle is fetched once. *)
Theorem muscle_force_computes
  (emg q qd : Array V) mi s ty (me mq mqd : Matrix V) b :
  promote emg = Arr2 ty me -> mat_wf me ->
  promote q = Arr2 ty mq -> mat_wf mq ->
  promote qd = Arr2 ty mqd -> mat_wf mqd -> ncols mq <= ncols mqd ->
  parse_muscle_index mi (nbMuscleTotal (model s)) = MkSlice 0 b ->
  b <= nbMuscleTotal (model s) -> b <= nrows me -> ncols mq <= ncols me ->
  supported_muscles (model s) b ->
  let emg' := promote emg in
  let q' := promote q in
  let qdot' := Some (promote qd) in
  exists out,
    muscle_force E emg q (Some qd) mi s
    = (Ok out,
       MkSt (model_after (model s) q' qdot' (ncols mq))
         (trace s ++ batch_calls (fun j => [Call_muscle j]) q' qdot' b (ncols mq))) /\
    shape_of out = (b, ncols mq) /\
    forall j i, j < b -> i < ncols mq ->
      is_Some (expected_force E (model s) ty emg' q' qdot' j i) /\
      cell out j i = Some (expected_force E (model s) ty emg' q' qdot' j i).
Proof.
  intros Hemg Hme Hq Hmq Hqd Hmqd Hle Hparse Hb Hrows Hcols Hsup emg' q' qdot'.
  destruct (muscle_force_run emg q qd mi s ty me mq mqd b
              Hemg Hme Hq Hmq Hqd Hmqd Hle Hparse Hb Hrows Hcols Hsup)
    as (out & Hrun & _ & Hshape & Hcells).
  exists out. split; [exact Hrun|]. split; [exact Hshape|].
  intros j i Hj Hi. apply Hcells. left. lia.
Qed.

End NetForce.

(** ** One-dimensional inputs, as single samples *)

Section SingleSamples.

Context {V : Type}.
Variable E : Engine V.

Lemma alloc_tuple_one_column ty n : snd (shape_of (alloc_tuple (casadi_number E) ty n 1)) = 1.
Proof. now destruct ty. Qed.

(** The one column of a promoted vector is the vector. *)
Lemma column_of_promoted (xs : list V) : col (promote (Arr1 NdArray xs)) 0 = xs.
Proof.
  unfold col. simpl. unfold mat_column. simpl.
  assert (H : mapM (.!! 0) (map (fun x : V => [x]) xs) = Some xs).
  { induction xs as [|x xs IH]; [reflexivity|]. simpl. now rewrite IH. }
  now rewrite H.
Qed.

(** C9.  [muscle_force_coefficients] turns a one-dimensional [q] (and
    [qdot]) into a matrix of one column before anything else is computed,
    and [muscle_force] does so for [emg] as well: the call is the call on
    the promoted arrays, and whatever it returns has exactly one column.
    What it returns is the single-sample batch.  On the numeric engine,
    for the first [b] muscles, of the Hill family, and excitations that are
    a matrix with a row for each of them and at least one column,
    [muscle_force_coefficients] on one-dimensional numpy poses and
    velocities of [n_q] entries updates the engine once, with the vectors as they are,
    fetches each muscle once and returns arrays of shape [(b, 1)] whose
    entry [(j, 0)] is the coefficient of muscle [j] under the activation
    [emg[j, 0]].  [muscle_force] on one-dimensional excitations, poses and
    velocities does the same for the forces, for muscles of any supported
    type.  [muscles_kinematics] has no such step: on a one-dimensional [q]
    it raises, in the state it was called in, reading [q.shape[1]] (or the
    same-type error before that). *)
Theorem one_dimensional_inputs_are_single_samples :
  (forall (emg : Array V) ty xs qdot mi s,
     promote (Arr1 ty xs) = Arr2 ty (Mat (length xs) 1 (map (fun x => [x]) xs)) /\
     muscle_force_coefficients E emg (Arr1 ty xs) qdot mi s
     = muscle_force_coefficients E emg (promote (Arr1 ty xs)) (promote <$> qdot) mi s /\
     muscle_force E emg (Arr1 ty xs) qdot mi s
     = muscle_force E (promote emg) (promote (Arr1 ty xs)) (promote <$> qdot) mi s) /\
  (forall (emg : Array V) ty xs qdot mi s o1 o2 o3 s',
     muscle_force_coefficients E emg (Arr1 ty xs) qdot mi s = (Ok (o1, o2, o3), s') ->
     snd (shape_of o1) = 1 /\ snd (shape_of o2) = 1 /\
     forall o, o3 = Some o -> snd (shape_of o) = 1) /\
  (forall (emg : Array V) ty xs qdot mi s out s',
     muscle_force E emg (Arr1 ty xs) qdot mi s = (Ok out, s') ->
     snd (shape_of out) = 1) /\
  (forall (me : Matrix V) xs qdot mi s b,
     use_casadi (model s) = false ->
     mat_wf me -> length xs = nbQ (model s) ->
     (forall qd, qdot = Some qd ->
        exists ys, qd = Arr1 NdArray ys /\ length ys = nbQ (model s)) ->
     parse_muscle_index mi (nbMuscleTotal (model s)) = MkSlice 0 b ->
     b <= nbMuscleTotal (model s) -> b <= nrows me -> 1 <= ncols me ->
     hill_muscles (model s) b ->
     let emg := Arr2 NdArray me in
     let q' := promote (Arr1 NdArray xs) in
     let qdot' := promote <$> qdot in
     exists o1 o2 o3,
       muscle_force_coefficients E emg (Arr1 NdArray xs) qdot mi s
       = (Ok (o1, o2, o3),
          MkSt (at_sample (model s) q' qdot' 0)
            (trace s ++ batch_calls (fun j => [Call_muscle j]) q' qdot' b 1)) /\
       col q' 0 = xs /\
       shape_of o1 = (b, 1) /\ shape_of o2 = (b, 1) /\
       (forall j, j < b ->
          is_Some (expected_flpe E (model s) q' qdot' j 0) /\
          cell o1 j 0 = Some (expected_flpe E (model s) q' qdot' j 0) /\
          is_Some (expected_flce E (model s) emg q' qdot' j 0) /\
          cell o2 j 0 = Some (expected_flce E (model s) emg q' qdot' j 0)) /\
       match qdot with
       | None => o3 = None
       | Some _ =>
           exists o, o3 = Some o /\ shape_of o = (b, 1) /\
             forall j, j < b ->
               is_Some (expected_fvce E (model s) q' qdot' j 0) /\
               cell o j 0 = Some (expected_fvce E (model s) q' qdot' j 0)
       end) /\
  (forall (es xs ys : list V) mi s b,
     length xs = nbQ (model s) -> length ys = nbQ (model s) ->
     parse_muscle_index mi (nbMuscleTotal (model s)) = MkSlice 0 b ->
     b <= nbMuscleTotal (model s) -> b <= length es ->
     supported_muscles (model s) b ->
     let emg' := promote (Arr1 NdArray es) in
     let q' := promote (Arr1 NdArray xs) in
     let qdot' := Some (promote (Arr1 NdArray ys)) in
     exists out,
       muscle_force E (Arr1 NdArray es) (Arr1 NdArray xs) (Some (Arr1 NdArray ys)) mi s
       = (Ok out,
          MkSt (at_sample (model s) q' qdot' 0)
            (trace s ++ batch_calls (fun j => [Call_muscle j]) q' qdot' b 1)) /\
       col q' 0 = xs /\
       shape_of out = (b, 1) /\
       forall j, j < b ->
         is_Some (expected_force E (model s) NdArray emg' q' qdot' j 0) /\
         cell out j 0 = Some (expected_force E (model s) NdArray emg' q' qdot' j 0)) /\
  (forall ty (xs : list V) qdot mi s,
     exists e, (is_type_mismatch e \/ e = Exc IndexError OutOfBounds) /\
       muscles_kinematics E (Arr1 ty xs) qdot mi s = (Raise e, s)).
Proof.
  pose proof column_of_promoted as Hcolumn.
  split; [|split; [|split; [|split; [|split]]]].
  - intros emg ty xs qdot mi s. split; [reflexivity|]. split.
    + apply muscle_force_coefficients_promotes.
    + apply muscle_force_promotes.
  - intros emg ty xs qdot mi s o1 o2 o3 s' H.
    apply muscle_force_coefficients_shape in H as (k & Hk & H1 & H2 & H3).
    injection Hk as <-. rewrite H1, H2.
    split; [apply alloc_tuple_one_column|]. split; [apply alloc_tuple_one_column|].
    intros o Ho. rewrite (H3 o Ho). apply alloc_tuple_one_column.
  - intros emg ty xs qdot mi s out s' H.
    apply muscle_force_shape in H as (k & Hk & ->). now injection Hk as <-.
  - intros me xs qdot mi s b Hnum Hme _ Hqd Hparse Hb Hrows Hcols Hhill emg q' qdot'.
    destruct (muscle_force_coefficients_run E (Arr1 NdArray xs) qdot mi s me
                (Mat (length xs) 1 (map (fun x => [x]) xs)) b Hnum Hme eq_refl
                (newaxis_wf NdArray xs _ eq_refl))
      as (o1 & o2 & o3 & Hrun & H1 & H2 & H3); try assumption.
    { intros qd Hq. destruct (Hqd qd Hq) as (ys & -> & _).
      eexists. split; [reflexivity|]. split; [|simpl; lia].
      exact (newaxis_wf NdArray ys _ eq_refl). }
    fold emg q' qdot' in Hrun, H1, H2, H3. simpl in H1, H2, H3.
    assert (Hall : forall j, j < b -> progress b 1 0 j 0) by (intros j Hj; left; lia).
    destruct H1 as (_ & Hs1 & Hc1). destruct H2 as (_ & Hs2 & Hc2).
    exists o1, o2, ((fun _ => o3) <$> qdot). split; [exact Hrun|].
    split; [apply Hcolumn|]. split; [assumption|]. split; [assumption|]. split.
    + intros j Hj. destruct (Hc1 j 0 (Hall j Hj)), (Hc2 j 0 (Hall j Hj)). now repeat split.
    + unfold qdot' in *. destruct qdot as [qd|]; simpl in *; [|reflexivity].
      destruct H3 as (_ & Hs3 & Hc3).
      exists o3. split; [reflexivity|]. split; [assumption|].
      intros j Hj. now apply (Hc3 j 0), Hall.
  - intros es xs ys mi s b _ _ Hparse Hb Hrows Hsup emg' q' qdot'.
    destruct (muscle_force_run E (Arr1 NdArray es) (Arr1 NdArray xs) (Arr1 NdArray ys) mi s
                NdArray
                (Mat (length es) 1 (map (fun x => [x]) es))
                (Mat (length xs) 1 (map (fun x => [x]) xs))
                (Mat (length ys) 1 (map (fun x => [x]) ys)) b
                eq_refl (newaxis_wf NdArray es _ eq_refl)
                eq_refl (newaxis_wf NdArray xs _ eq_refl)
                eq_refl (newaxis_wf NdArray ys _ eq_refl))
      as (out & Hrun & _ & Hshape & Hcells); try assumption; try (simpl; lia).
    exists out. split; [exact Hrun|]. split; [apply Hcolumn|]. split; [exact Hshape|].
    intros j Hj. apply (Hcells j 0). left. simpl. lia.
  - apply muscles_kinematics_one_dimensional.
Qed.

End SingleSamples.

(** ** Batches without samples *)

Section EmptyBatches.

Context {V : Type}.
Variable E : Engine V.

Lemma alloc_tuple_cases ty n k :
  alloc_tuple (casadi_number E) ty n k
  = if decide (ty = NdArray) then alloc ty n k
    else MkOut ty (Mat 2 1 [[Some (casadi_number E n)]; [Some (casadi_number E k)]]).
Proof. now destruct ty. Qed.

(** X8.  A batch without samples: for poses with no column, each of the
    three functions returns in the state it was called in, whatever the
    selection; the engine is not called.  [muscle_force] returns an array
    of as many rows as muscles are selected and no column, and so do
    [muscles_kinematics] and [muscle_force_coefficients] for numpy arrays.
    For the casadi classes these two return the column vector of the two
    numbers instead, the number of selected muscles and 0:
    [data_type((n, k))] is not an array of shape [(n, k)] there. *)
Theorem empty_batch ty (mq : Matrix V) mi s :
  ncols mq = 0 ->
  let n := selected mi (nbMuscleTotal (model s)) in
  let out :=
    if decide (ty = NdArray) then alloc ty n 0
    else MkOut ty (Mat 2 1 [[Some (casadi_number E n)]; [Some (casadi_number E 0)]]) in
  (forall qdot,
     (forall qd, qdot = Some qd -> array_type qd = ty) ->
     muscles_kinematics E (Arr2 ty mq) qdot mi s
     = (Ok (out, (fun _ => out) <$> qdot), s)) /\
  (forall emg qdot,
     array_type emg = ty ->
     (forall qd, qdot = Some qd -> array_type qd = ty) ->
     muscle_force_coefficients E emg (Arr2 ty mq) qdot mi s
     = (Ok (out, out, (fun _ => out) <$> qdot), s)) /\
  (forall emg qd,
     array_type emg = ty -> array_type qd = ty ->
     muscle_force E emg (Arr2 ty mq) (Some qd) mi s = (Ok (alloc ty n 0), s)).
Proof.
  intros Hk n out. unfold out, n. rewrite <- alloc_tuple_cases. split; [|split].
  - intros qdot Hqd. unfold muscles_kinematics. cbv zeta.
    assert (Hguard : match qdot with
                     | Some qd => negb (isinstance (array_type qd) (array_type (Arr2 ty mq)))
                     | None => false
                     end = false).
    { destruct qdot as [qd|]; [|reflexivity]. simpl.
      now rewrite (isinstance_true _ _ (Hqd qd eq_refl)). }
    rewrite Hguard. unfold n_muscles. rewrite bind_gets. simpl shape1. rewrite Hk.
    rewrite (bind_index_some _ _ _ 0 eq_refl), range_empty.
    destruct qdot; reflexivity.
  - intros emg qdot Hemg Hqd. unfold muscle_force_coefficients. cbv zeta.
    rewrite Hemg. change (array_type (Arr2 ty mq)) with ty.
    rewrite (isinstance_true ty ty eq_refl).
    assert (Hguard : match qdot with
                     | Some qd => negb (isinstance (array_type qd) ty)
                     | None => false
                     end = false).
    { destruct qdot as [qd|]; [|reflexivity].
      now rewrite (isinstance_true _ _ (Hqd qd eq_refl)). }
    rewrite Hguard. cbn [negb orb]. unfold n_muscles. rewrite bind_gets.
    change (promote (Arr2 ty mq)) with (Arr2 ty mq). simpl shape1. rewrite Hk.
    rewrite (bind_index_some _ _ _ 0 eq_refl), range_empty.
    destruct qdot; reflexivity.
  - intros emg qd Hemg Hqd. unfold muscle_force. cbv zeta.
    rewrite Hemg. change (array_type (Arr2 ty mq)) with ty.
    rewrite (isinstance_true ty ty eq_refl), (isinstance_true _ _ Hqd). cbn [negb orb].
    unfold n_muscles. rewrite bind_gets.
    change (promote (Arr2 ty mq)) with (Arr2 ty mq). simpl shape1. rewrite Hk.
    rewrite (bind_index_some _ _ _ 0 eq_refl), range_empty. simpl.
    now destruct (decide (ty = MX \/ ty = SX)).
Qed.

End EmptyBatches.

(** ** Muscles of a type that is not supported *)

Section UnsupportedType.

Context {V : Type}.
Variable E : Engine V.

Lemma update_sample_at (q : Array V) qdot i t :
  is_Some (column q i) ->
  (forall qd, qdot = Some qd -> is_Some (column qd i)) ->
  update_sample q qdot i t
  = (Ok tt,
     MkSt (at_sample (model t) q qdot i)
       (trace t ++ [Call_updateMuscles (col q i) ((fun qd => col qd i) <$> qdot)])).
Proof.
  intros [qi Hqi] Hqd. unfold update_sample, at_sample, col.
  destruct qdot as [qd|]; simpl.
  - destruct (Hqd qd eq_refl) as [qdi Hqdi]. rewrite Hqi, Hqdi. reflexivity.
  - rewrite Hqi. reflexivity.
Qed.

Lemma coefficients_of_muscle_unsupported (emg : Array V) qdot i j acc t mus :
  muscles (model t) !! j = Some mus ->
  ~ supported (muscle_type mus) ->
  coefficients_of_muscle E emg qdot i j acc t
  = (Raise (Exc ValueError (MuscleTypeNotSupported (muscle_type mus))),
     MkSt (model t) (trace t ++ [Call_muscle j])).
Proof.
  intros Hmus Hno. destruct acc as [[o1 o2] o3]. unfold coefficients_of_muscle.
  rewrite (bind_ok _ _ _ _ _ (muscle_found _ _ _ Hmus)).
  now rewrite (bind_raise _ _ _ _ _ (upcast_unsupported mus _ Hno)).
Qed.

(** X12.  On the numeric engine and for numpy poses and velocities of
    [n_q] rows, when muscle [j0] of the selection is of a type that is not
    supported and the muscles before it are of the Hill family, [muscle_force_coefficients] raises
    the error that names this type.  It does so in the first sample, after
    the engine's kinematic cache has been set to that sample and the
    muscles up to [j0] have been fetched: the error is not raised before
    the engine is touched. *)
Theorem unsupported_muscle_type_raises
  (q : Array V) qdot mi s (me mq : Matrix V) b j0 mus :
  use_casadi (model s) = false ->
  mat_wf me -> promote q = Arr2 NdArray mq -> mat_wf mq -> nrows mq = nbQ (model s) ->
  (forall qd, qdot = Some qd ->
     exists mqd, promote qd = Arr2 NdArray mqd /\ mat_wf mqd /\
       nrows mqd = nbQ (model s) /\ ncols mq <= ncols mqd) ->
  parse_muscle_index mi (nbMuscleTotal (model s)) = MkSlice 0 b ->
  b <= nbMuscleTotal (model s) -> b <= nrows me ->
  1 <= ncols mq -> ncols mq <= ncols me ->
  j0 < b ->
  muscles (model s) !! j0 = Some mus ->
  ~ supported (muscle_type mus) ->
  hill_muscles (model s) j0 ->
  let q' := promote q in
  let qdot' := promote <$> qdot in
  muscle_force_coefficients E (Arr2 NdArray me) q qdot mi s
  = (Raise (Exc ValueError (MuscleTypeNotSupported (muscle_type mus))),
     MkSt (at_sample (model s) q' qdot' 0)
       (trace s ++ Call_updateMuscles (col q' 0) ((fun qd => col qd 0) <$> qdot')
                :: flat_map (fun j => [Call_muscle j]) (range 0 (S j0)))).
Proof.
  intros Hnum Hme Hq Hmq _ Hqd' Hparse Hb Hrows Hk Hcols Hj0 Hmus Hno Hhill q' qdot'.
  assert (Hqd : forall qd, qdot = Some qd ->
            exists mqd, promote qd = Arr2 NdArray mqd /\ mat_wf mqd /\ ncols mq <= ncols mqd).
  { intros qd Hqd. destruct (Hqd' qd Hqd) as (mqd & ? & ? & _ & ?). now exists mqd. }
  clear Hqd'.
  set (k := ncols mq) in *. set (emg := Arr2 NdArray me).
  assert (Hty : array_type q = NdArray) by (now rewrite <- array_type_promote, Hq).
  assert (Hcol : is_Some (column q' 0)).
  { unfold q'. rewrite Hq. simpl. apply mat_column_inside; [assumption | lia]. }
  assert (Hcold : forall qd, qdot' = Some qd -> is_Some (column qd 0)).
  { intros qd Hqd'. unfold qdot' in Hqd'. destruct qdot as [qd0|]; [|discriminate].
    injection Hqd' as <-. destruct (Hqd qd0 eq_refl) as (mqd & -> & Hwf & Hle).
    simpl. apply mat_column_inside; [assumption | lia]. }
  unfold muscle_force_coefficients. cbv zeta.
  change (array_type emg) with NdArray. cbn [alloc_tuple]. rewrite (isinstance_true _ _ Hty).
  assert (Hguard : match qdot with
                   | Some qd => negb (isinstance (array_type qd) NdArray)
                   | None => false
                   end = false).
  { destruct qdot as [qd|]; [|reflexivity].
    destruct (Hqd qd eq_refl) as (mqd & Hp & _).
    rewrite isinstance_true; [reflexivity|]. now rewrite <- array_type_promote, Hp. }
  rewrite Hguard. cbn [negb orb]. unfold n_muscles. rewrite bind_gets, Hparse.
  fold q' qdot'. simpl slice_start. simpl slice_stop. rewrite length_range, Nat.sub_0_r.
  assert (Hshape1 : shape1 q' = Some k) by (unfold q'; now rewrite Hq).
  rewrite (bind_index_some _ _ _ _ Hshape1).
  rewrite (range_cons 0 k) by lia.
  match goal with |- bind (for_each (0 :: _) ?outer ?acc0) _ s = (_, ?u) =>
    assert (Hfirst : outer 0 acc0 s
                     = (Raise (Exc ValueError (MuscleTypeNotSupported (muscle_type mus))), u))
  end.
  { rewrite (bind_ok _ _ _ _ _ (update_sample_at q' qdot' 0 s Hcol Hcold)).
    rewrite (range_split 0 j0 b) by lia.
    set (t := MkSt (at_sample (model s) q' qdot' 0)
                (trace s ++ [Call_updateMuscles (col q' 0) ((fun qd => col qd 0) <$> qdot')])).
    assert (Hprefix : exists acc,
               for_each (range 0 j0) (coefficients_of_muscle E emg qdot' 0)
                 (alloc NdArray b k, alloc NdArray b k, alloc NdArray b k) t
               = (Ok acc,
                  MkSt (model t)
                    (trace t ++ flat_map (fun j => [Call_muscle j]) (range 0 j0))) /\
               coefficients_inv E (model s) emg q' qdot' b k 0 j0 acc).
    { apply (inner_loop (model s) q' qdot' j0 1 (fun j => [Call_muscle j])
               (coefficients_of_muscle E emg qdot')
               (fun i j => coefficients_inv E (model s) emg q' qdot' b k i j)).
      - intros i j a u Hi Hj Hinv Hm. assert (i = 0) as -> by lia.
        destruct (hill_muscle_class (model s) j0 j Hhill ltac:(lia) Hj)
          as (m & c & Hm' & Hc & Hne).
        destruct (mat_get_inside me j 0 Hme) as [e He]; [lia | lia |].
        apply (coefficients_of_muscle_run E (model s) emg q' qdot' b k 0 j a u m c e);
          try assumption; lia.
      - lia.
      - assert (Hstart : forall (f : nat -> nat -> option V),
                  filled (alloc NdArray b k) b k f (progress b 0 0))
          by (intros f; eapply filled_weaken; [apply progress_start | apply alloc_filled]).
        split; [|split]; simpl; [apply Hstart..|]. destruct qdot'; [apply Hstart | exact I].
      - reflexivity. }
    destruct Hprefix as (acc & Hprefix & _).
    rewrite (for_each_raises _ _ _ _ _ _ _ _ _ _ Hprefix
               (coefficients_of_muscle_unsupported emg qdot' 0 j0 acc
                  (MkSt (model t)
                     (trace t ++ flat_map (fun j => [Call_muscle j]) (range 0 j0)))
                  mus Hmus Hno)).
    f_equal. unfold t. cbn [model trace]. f_equal.
    rewrite range_snoc, flat_map_app.
    change (flat_map (fun j => [Call_muscle j]) [j0]) with [@Call_muscle V j0].
    now rewrite <- !app_assoc. }
  now rewrite (bind_raise _ _ _ _ _ (for_each_first_raises _ _ _ _ _ _ _ Hfirst)).
Qed.

End UnsupportedType.

(** ** What no call changes *)

Section Topology.

Context {V : Type}.

#[local] Instance same_topology_preorder : PreOrder (@same_topology V).
Proof.
  split.
  - intros m. now repeat split.
  - intros m1 m2 m3 (H1 & H2 & H3 & H4) (H1' & H2' & H3' & H4').
    unfold same_topology. rewrite H1', H2', H3', H4'. now repeat split.
Qed.

#[local] Abbreviation R := (@same_topology V).

Lemma frames_ret {A} (a : A) : frames R (@ret V A a).
Proof. intros s. reflexivity. Qed.

Lemma frames_raise {A} c msg : frames R (@raise V A c msg).
Proof. intros s. reflexivity. Qed.

Lemma frames_gets {A} (f : Model V -> A) : frames R (gets f).
Proof. intros s. reflexivity. Qed.

Lemma frames_record_call c : frames R (@record_call V c).
Proof. intros s. reflexivity. Qed.

Lemma frames_index {A} (o : option A) : frames R (@index V A o).
Proof. destruct o; [apply frames_ret | apply frames_raise]. Qed.

Lemma frames_bind {A B} (c : M V A) (k : A -> M V B) :
  frames R c -> (forall a, frames R (k a)) -> frames R (bind c k).
Proof.
  intros Hc Hk s. unfold bind. specialize (Hc s).
  destruct (c s) as [[a|e] s']; simpl in *; [|assumption].
  etransitivity; [exact Hc | apply Hk].
Qed.

Lemma frames_bind_post {A B} (Q : A -> Prop) (c : M V A) (k : A -> M V B) :
  frames R c ->
  (forall s a s', c s = (Ok a, s') -> Q a) ->
  (forall a, Q a -> frames R (k a)) ->
  frames R (bind c k).
Proof.
  intros Hc HQ Hk s. unfold bind. specialize (Hc s). specialize (HQ s).
  destruct (c s) as [[a|e] s']; simpl in *; [|assumption].
  etransitivity; [exact Hc | apply Hk; eauto].
Qed.

Lemma frames_for_each {X S} (xs : list X) (body : X -> S -> M V S) acc :
  (forall x a, frames R (body x a)) -> frames R (for_each xs body acc).
Proof.
  intros Hbody. revert acc.
  induction xs as [|x xs IH]; intros acc; simpl.
  - apply frames_ret.
  - apply frames_bind; [apply Hbody | intros a; apply IH].
Qed.

Lemma frames_muscle j : frames R (@muscle V j).
Proof.
  intros s. unfold muscle, bind, record_call, gets; simpl.
  destruct (muscles (model s) !! j); reflexivity.
Qed.

Lemma frames_upcast (mus : Muscle V) : frames R (_upcast_muscle mus).
Proof.
  unfold _upcast_muscle.
  repeat (case_decide; [apply frames_ret|]). apply frames_raise.
Qed.

Lemma frames_store_result (out : Out V) j i x : frames R (store_result out j i x).
Proof.
  intros s. unfold store_result, bind, gets, index, ret, raise; simpl.
  destruct (use_casadi (model s)); [destruct (out_type out)|];
    destruct (store out j i x); reflexivity.
Qed.

Lemma frames_hill_coefficient attribute mus (value : Model V -> V) :
  frames R (hill_coefficient attribute mus value).
Proof. destruct mus; first [apply frames_raise | apply frames_gets]. Qed.

End Topology.

Ltac frames_step :=
  first
    [ apply frames_ret | apply frames_raise | apply frames_gets | apply frames_record_call
    | apply frames_index | apply frames_muscle | apply frames_upcast
    | apply frames_store_result | apply frames_hill_coefficient
    | apply frames_bind; [|intros ?]
    | apply frames_for_each; intros ? ?
    | match goal with
      | |- frames _ (match ?x with _ => _ end) => destruct x
      | |- frames _ (let (_, _) := ?x in _) => destruct x
      end ].

Section TopologyOfMethods.

Context {V : Type}.
Variable E : Engine V.

#[local] Existing Instance same_topology_preorder.

Lemma updateMuscles_topology q qdot : frames same_topology (@updateMuscles V q qdot).
Proof. intros s. now repeat split. Qed.

Lemma update_sample_topology (q : Array V) qdot i : frames same_topology (update_sample q qdot i).
Proof.
  unfold update_sample. repeat frames_step; apply updateMuscles_topology.
Qed.

Lemma muscles_kinematics_topology (q : Array V) qdot mi :
  frames same_topology (muscles_kinematics E q qdot mi).
Proof.
  unfold muscles_kinematics, kinematics_of_muscle, n_muscles.
  repeat frames_step; apply update_sample_topology.
Qed.

Lemma muscle_force_coefficients_topology (emg q : Array V) qdot mi :
  frames same_topology (muscle_force_coefficients E emg q qdot mi).
Proof.
  unfold muscle_force_coefficients, coefficients_of_muscle, n_muscles.
  repeat frames_step; apply update_sample_topology.
Qed.

Lemma muscle_force_topology (emg q : Array V) qdot mi :
  frames same_topology (muscle_force E emg q qdot mi).
Proof.
  unfold muscle_force, force_of_muscle, n_muscles.
  repeat frames_step; apply update_sample_topology.
Qed.

Lemma set_muscle_parameters_topology index (v : V) :
  frames same_topology (set_muscle_parameters index v).
Proof.
  intros s. unfold set_muscle_parameters.
  destruct (muscles (model s) !! index) as [mus|] eqn:Hmus;
    [|rewrite (bind_raise _ _ _ _ _ (muscle_missing _ _ Hmus)); reflexivity].
  rewrite (bind_ok _ _ _ _ _ (muscle_found _ _ _ Hmus)).
  unfold bind, record_call, modify; simpl.
  repeat split. simpl. apply list_eq. intros j. rewrite !list_lookup_fmap.
  destruct (decide (j = index)) as [->|Hne].
  - rewrite list_lookup_alter_eq, Hmus. reflexivity.
  - now rewrite list_lookup_alter_ne.
Qed.

Lemma get_muscle_parameter_topology index p :
  frames same_topology (@get_muscle_parameter V index p).
Proof. unfold get_muscle_parameter. case_decide; repeat frames_step. Qed.

Lemma forward_dynamics_topology (q qdot controls : Vector V) controls_type :
  frames same_topology (forward_dynamics E q qdot controls controls_type).
Proof.
  unfold forward_dynamics.
  destruct (negb _ || negb _); [apply frames_raise|].
  apply frames_bind_post with (Q := fun func => forall x, frames same_topology (func x)).
  - unfold n_q, n_muscles. repeat case_decide; repeat frames_step.
  - intros s func s'. unfold bind, n_q, n_muscles, gets, ret, raise; simpl.
    repeat case_decide; simpl; intros [= <- <-]; intros x;
      unfold _forward_dynamics_muscles, _forward_dynamics, engine_result, n_q;
      repeat frames_step.
  - intros func Hfunc. unfold n_q. repeat frames_step. apply Hfunc.
Qed.

Lemma after_calls_topology (s : St V) (calls : list (Call V)) :
  same_topology (model s) (model (after_calls E s calls)).
Proof.
  revert s. induction calls as [|c calls IH]; intros s; [reflexivity|].
  unfold after_calls in *. simpl. etransitivity; [|apply IH].
  destruct c; simpl.
  - apply muscles_kinematics_topology.
  - apply muscle_force_coefficients_topology.
  - apply muscle_force_topology.
  - apply set_muscle_parameters_topology.
  - apply get_muscle_parameter_topology.
  - apply forward_dynamics_topology.
Qed.

(** X14.  No sequence of calls changes the topology of a model: the number
    of generalized coordinates, the number of muscles, the type of each
    muscle, the muscle states and the casadi flag are after the calls what
    they were before, whether the calls return or raise; in particular the
    muscles that were of a supported type still are. *)
Theorem topology_is_kept (s : St V) (calls : list (Call V)) :
  same_topology (model s) (model (after_calls E s calls)) /\
  nbMuscleTotal (model (after_calls E s calls)) = nbMuscleTotal (model s) /\
  forall b, supported_muscles (model s) b ->
    supported_muscles (model (after_calls E s calls)) b.
Proof.
  pose proof (after_calls_topology s calls) as Hall.
  split; [exact Hall|]. destruct Hall as (_ & _ & _ & Htypes). split.
  - unfold nbMuscleTotal.
    rewrite <- (length_fmap muscle_type (muscles (model (after_calls E s calls)))), Htypes.
    apply length_fmap.
  - intros b Hsup j mus Hj Hmus.
    assert (Hty : (muscle_type <$> muscles (model s)) !! j = Some (muscle_type mus))
      by (rewrite <- Htypes, list_lookup_fmap, Hmus; reflexivity).
    rewrite list_lookup_fmap in Hty.
    destruct (muscles (model s) !! j) as [mus0|] eqn:Hmus0; [|discriminate].
    injection Hty as <-. now apply (Hsup j mus0).
Qed.

End TopologyOfMethods.

(** ** Parameters, set and read *)

Section ParametersSetAndRead.

Context {V : Type}.
Variable E : Engine V.

(** What [get_muscle_parameter] gives for the optimal length: the value
    the engine holds on the casadi engine, [AttributeError] on the numeric
    one, and the engine's error for a muscle it does not have. *)
Lemma get_optimal_length_result index (s : St V) :
  fst (get_muscle_parameter index OPTIMAL_LENGTH s)
  = match current_optimal_length index s with
    | Some v =>
        if use_casadi (model s) then Ok v
        else Raise (Exc AttributeError (NoAttribute "to_mx"))
    | None => Raise (Exc RuntimeError EngineFailure)
    end.
Proof.
  unfold current_optimal_length, get_muscle_parameter; simpl.
  destruct (muscles (model s) !! index) as [mus|] eqn:Hmus; simpl.
  - rewrite (bind_ok _ _ _ _ _ (muscle_found _ _ _ Hmus)).
    unfold bind, gets, ret, raise; simpl. now destruct (use_casadi (model s)).
  - now rewrite (bind_raise _ _ _ _ _ (muscle_missing _ _ Hmus)).
Qed.

Lemma set_muscle_parameters_use_casadi index (v : V) s :
  use_casadi (model (snd (set_muscle_parameters index v s))) = use_casadi (model s).
Proof. apply (set_muscle_parameters_topology index v s). Qed.

(** C8.  Setting the optimal length of a muscle of the model succeeds.
    From then on, right away and after any sequence of calls on the model
    among which there is no further set on that muscle,
    [get_muscle_parameter] returns the value that was set on the casadi
    engine; on the numeric engine it raises [AttributeError] instead,
    [to_mx] being called on a float. *)
Theorem set_then_get index v (s : St V) (later : list (Call V)) :
  index < nbMuscleTotal (model s) ->
  Forall (fun c => ~ sets_muscle index c) later ->
  fst (set_muscle_parameters index v s) = Ok tt /\
  fst (get_muscle_parameter index OPTIMAL_LENGTH
         (after_calls E (snd (set_muscle_parameters index v s)) later))
  = if use_casadi (model s) then Ok v
    else Raise (Exc AttributeError (NoAttribute "to_mx")).
Proof.
  intros Hlt Hlater. destruct (set_muscle_parameters_sets index v s Hlt) as [Hok Hset].
  split; [assumption|].
  rewrite get_optimal_length_result, (after_calls_optimal_length E), Hset by assumption.
  destruct (after_calls_topology E (snd (set_muscle_parameters index v s)) later)
    as (-> & _).
  now rewrite set_muscle_parameters_use_casadi.
Qed.

(** X13.  Setting the optimal length of one muscle does not change what
    [get_muscle_parameter] gives for any other index (the value on the
    casadi engine, [AttributeError] on the numeric one, the engine's error
    for a muscle it does not have): whether the set succeeds or raises. *)
Theorem set_leaves_other_muscles index j (v : V) s :
  j <> index ->
  fst (get_muscle_parameter j OPTIMAL_LENGTH (snd (set_muscle_parameters index v s)))
  = fst (get_muscle_parameter j OPTIMAL_LENGTH s).
Proof.
  intros Hne. rewrite !get_optimal_length_result.
  now rewrite (set_muscle_parameters_other j index v s), set_muscle_parameters_use_casadi.
Qed.

End ParametersSetAndRead.

(** ** The name of a model *)

Section Name.

Import Stdlib.Strings.Ascii.

Lemma append_cons c (s t : string) : (String c s ++ t) = String c (s ++ t).
Proof. reflexivity. Qed.

Lemma append_empty_r (s : string) : (s ++ "") = s.
Proof. induction s as [|c s IH]; [reflexivity|]. now rewrite append_cons, IH. Qed.

Lemma append_assoc (s t u : string) : ((s ++ t) ++ u) = (s ++ (t ++ u)).
Proof. induction s as [|c s IH]; [reflexivity|]. now rewrite !append_cons, IH. Qed.

Lemma has_char_app c (s t : string) :
  has_char c (s ++ t) = has_char c s || has_char c t.
Proof.
  induction s as [|c' s IH]; [reflexivity|].
  rewrite append_cons. cbn [has_char]. now rewrite IH, orb_assoc.
Qed.

Lemma prefix_empty (s : string) : String.prefix "" s = true.
Proof. now destruct s. Qed.

Lemma prefix_app (s t : string) : String.prefix s (s ++ t) = true.
Proof.
  induction s as [|c s IH]; [apply prefix_empty|].
  rewrite append_cons. simpl. destruct (Ascii.ascii_dec c c); [exact IH | congruence].
Qed.

Lemma prefix_other c c' (s t : string) :
  Ascii.eqb c c' = false -> String.prefix (String c s) (String c' t) = false.
Proof.
  intros Hne. simpl. destruct (Ascii.ascii_dec c c') as [->|]; [|reflexivity].
  now rewrite Ascii.eqb_refl in Hne.
Qed.

Lemma split_from_not_nil sep k cur s : split_from sep k cur s <> [].
Proof.
  revert k cur. induction s as [|c s IH]; intros k cur; cbn [split_from]; [discriminate|].
  destruct k; [|apply IH]. destruct (String.prefix sep (String c s)); [discriminate | apply IH].
Qed.

Lemma last_cons_split (x : string) sep k cur s :
  last (x :: split_from sep k cur s) = last (split_from sep k cur s).
Proof.
  pose proof (split_from_not_nil sep k cur s) as Hne.
  destruct (split_from sep k cur s); [contradiction | reflexivity].
Qed.

(** A string without the separator [/] is one piece. *)
Lemma split_slash_none cur b :
  has_char "/"%char b = false -> split_from "/" 0 cur b = [cur ++ b].
Proof.
  revert cur. induction b as [|c b IH]; intros cur Hb; cbn [has_char] in Hb.
  - simpl. now rewrite append_empty_r.
  - apply orb_false_iff in Hb as [Hc Hb].
    cbn [split_from]. rewrite (prefix_other _ _ _ _ Hc), (IH _ Hb).
    now rewrite append_assoc.
Qed.

(** The last piece is what follows the last [/]. *)
Lemma split_slash_last cur a b :
  last (split_from "/" 0 cur (a ++ String "/" b)) = last (split_from "/" 0 "" b).
Proof.
  revert cur. induction a as [|c a IH]; intros cur.
  - change ("" ++ String "/" b) with (String "/" b). cbn [split_from].
    change (String.prefix "/" (String "/" b)) with (String.prefix "" b).
    rewrite prefix_empty. apply last_cons_split.
  - rewrite append_cons. cbn [split_from].
    destruct (String.prefix "/" (String c (a ++ String "/" b))).
    + rewrite last_cons_split. apply IH.
    + apply IH.
Qed.

(** The first piece is what precedes the first occurrence of the
    separator, here for a piece without a dot. *)
Lemma split_suffix_first cur base rest :
  has_char "."%char base = false ->
  hd "" (split_from ".bioMod" 0 cur (base ++ ".bioMod" ++ rest)) = (cur ++ base).
Proof.
  revert cur. induction base as [|c base IH]; intros cur Hb; cbn [has_char] in Hb.
  - change ("" ++ ".bioMod" ++ rest) with (String "." ("bioMod" ++ rest)).
    cbn [split_from].
    change (String "." ("bioMod" ++ rest)) with (".bioMod" ++ rest).
    rewrite prefix_app. simpl. now rewrite append_empty_r.
  - apply orb_false_iff in Hb as [Hc Hb].
    rewrite append_cons. cbn [split_from].
    rewrite (prefix_other _ _ _ _ Hc), (IH _ Hb). now rewrite append_assoc.
Qed.

(** No piece holds a character that the string does not hold. *)
Lemma split_from_pieces c sep k cur s :
  has_char c cur = false -> has_char c s = false ->
  Forall (fun p => has_char c p = false) (split_from sep k cur s).
Proof.
  revert k cur. induction s as [|c' s IH]; intros k cur Hcur Hs; cbn [has_char] in Hs.
  - simpl. now constructor.
  - apply orb_false_iff in Hs as [Hc Hs]. cbn [split_from].
    destruct k; [|now apply IH].
    destruct (String.prefix sep (String c' s)).
    + constructor; [exact Hcur | now apply IH].
    + apply IH; [|exact Hs]. rewrite has_char_app, Hcur. cbn [has_char orb]. now rewrite Hc.
Qed.

(** No piece of a split at [/] holds a [/]. *)
Lemma split_slash_pieces cur s :
  has_char "/"%char cur = false ->
  Forall (fun p => has_char "/"%char p = false) (split_from "/" 0 cur s).
Proof.
  revert cur. induction s as [|c s IH]; intros cur Hcur.
  - simpl. now constructor.
  - cbn [split_from]. destruct (Ascii.eqb "/"%char c) eqn:Hc.
    + apply Ascii.eqb_eq in Hc as <-.
      change (String.prefix "/" (String "/" s)) with (String.prefix "" s).
      rewrite prefix_empty. constructor; [exact Hcur | now apply IH].
    + rewrite (prefix_other _ _ _ _ Hc). apply IH.
      rewrite has_char_app, Hcur. cbn [has_char orb]. now rewrite Hc.
Qed.

(** X15.  The name of a model loaded from [dir/base.bioMod] is [base],
    when [base] holds neither a slash nor a dot; [dir] is any string, with
    or without slashes. *)
Theorem name_of_model_file (dir base : string) :
  has_char "/"%char base = false -> has_char "."%char base = false ->
  name (dir ++ "/" ++ base ++ ".bioMod") = base.
Proof.
  intros Hslash Hdot. unfold name, split.
  change (dir ++ "/" ++ base ++ ".bioMod") with (dir ++ String "/" (base ++ ".bioMod")).
  rewrite split_slash_last, split_slash_none
    by (rewrite has_char_app, Hslash; reflexivity).
  simpl last. cbn [default from_option id].
  change ("" ++ base ++ ".bioMod") with (base ++ ".bioMod" ++ "").
  now rewrite (split_suffix_first "" base "" Hdot).
Qed.

(** X16.  The name of a model never holds a slash, whatever the path of
    its file. *)
Theorem name_has_no_slash (path : string) : has_char "/"%char (name path) = false.
Proof.
  unfold name, split.
  assert (Hlast : has_char "/"%char (default "" (last (split_from "/" 0 "" path))) = false).
  { pose proof (split_slash_pieces "" path eq_refl) as Hall.
    destruct (last (split_from "/" 0 "" path)) as [p|] eqn:Hp; [|reflexivity].
    apply last_Some_elem_of in Hp. rewrite Forall_forall in Hall. now apply Hall. }
  pose proof (split_from_pieces "/"%char ".bioMod" 0 ""
                (default "" (last (split_from "/" 0 "" path))) eq_refl Hlast) as Hall.
  destruct (split_from ".bioMod" 0 "" _); [reflexivity|].
  now inversion Hall.
Qed.

End Name.

(** ** The properties on the example models *)

Section FurtherExamples.

Import Fixture.

Lemma five_muscles_hill : hill_muscles (model start) (nbMuscleTotal (model start)).
Proof.
  intros j mus _ Hmus. apply lookup_replicate in Hmus as [-> _]. now left.
Qed.

Lemma poses_wf : mat_wf poses.
Proof. split; [reflexivity|]. repeat constructor. Qed.

Lemma velocities_wf : mat_wf velocities.
Proof. split; [reflexivity|]. repeat constructor. Qed.

Lemma excitation_rows_wf : mat_wf excitation_rows.
Proof. split; [reflexivity|]. repeat constructor. Qed.

Lemma velocities_fit qd :
  Some (Arr2 NdArray velocities) = Some qd ->
  exists mqd, promote qd = Arr2 NdArray mqd /\ mat_wf mqd /\ ncols poses <= ncols mqd.
Proof.
  intros [= <-]. exists velocities. split; [reflexivity|].
  split; [apply velocities_wf | vm_compute; lia].
Qed.

Lemma forward_dynamics_of_torque_witness :
  forward_dynamics engine q0 qdot0 torque TORQUE start
  = (Ok (qdot0, Vec NdArray [9%Z]),
     MkSt five_muscles [Call_ForwardDynamics [3%Z] [4%Z] [9%Z]]).
Proof.
  exact (forward_dynamics_of_torque engine q0 qdot0 torque start
           eq_refl eq_refl eq_refl eq_refl eq_refl).
Defined.


Lemma integrate_checks_controls_witness :
  (exists e,
     integrate engine constant_solver [0%Z; 1%Z] (concatenate q0 qdot0) long_torque
       TORQUE RK45 start = (Raise e, start) /\
     is_dimension_mismatch e) /\
  (exists e,
     integrate engine constant_solver [0%Z; 1%Z] (concatenate q0 qdot0) torque
       (OtherControl 0) RK45 start = (Raise e, start) /\
     is_unsupported_control e).
Proof.
  split.
  - refine (integrate_checks_controls engine constant_solver [0%Z; 1%Z]
              (concatenate q0 qdot0) long_torque TORQUE RK45 start eq_refl _).
    intros n [= <-]. vm_compute. lia.
  - refine (integrate_checks_controls engine constant_solver [0%Z; 1%Z]
              (concatenate q0 qdot0) torque (OtherControl 0) RK45 start eq_refl _).
    intros n [=].
Defined.

Lemma integrate_checks_method_and_samples_witness :
  integrate engine constant_solver [0%Z; 1%Z] (concatenate q0 qdot0) torque
    TORQUE (OtherMethod 0) start
  = (Raise (Exc NotImplementedError (IntegrationMethodNotImplemented (OtherMethod 0))), start) /\
  integrate engine constant_solver [] (concatenate q0 qdot0) torque TORQUE RK4 start
  = (Raise (Exc IndexError OutOfBounds), start).
Proof.
  split.
  - exact (proj1 (integrate_checks_method_and_samples engine constant_solver [0%Z; 1%Z]
                    (concatenate q0 qdot0) torque TORQUE (OtherMethod 0) start
                    eq_refl eq_refl) eq_refl).
  - exact (proj2 (integrate_checks_method_and_samples engine constant_solver []
                    (concatenate q0 qdot0) torque TORQUE RK4 start
                    eq_refl eq_refl) (ex_intro _ "RK4" eq_refl) eq_refl).
Defined.

Lemma integrate_returns_iff_witness :
  integrate engine constant_solver [0%Z; 1%Z] (concatenate q0 qdot0) torque TORQUE RK45 start
  = (Ok (Mat 1 2 [[3%Z; 3%Z]], Mat 1 2 [[4%Z; 4%Z]]), start).
Proof.
  apply (proj2 (integrate_returns_iff engine constant_solver [0%Z; 1%Z]
                  (concatenate q0 qdot0) torque TORQUE RK45 start
                  (Mat 1 2 [[3%Z; 3%Z]]) (Mat 1 2 [[4%Z; 4%Z]]) start)).
  exists (fun t x => _forward_dynamics engine (Some t) x torque), "RK45", 0%Z, 1%Z,
    (Mat 2 2 [[3%Z; 3%Z]; [4%Z; 4%Z]]).
  repeat split.
Defined.

Lemma integrate_partitions_rows_witness :
  exists y,
    constant_solver (fun t x => _forward_dynamics engine (Some t) x torque) (0%Z, 1%Z)
      (concatenate q0 qdot0) "RK45" [0%Z; 1%Z] start = (Ok (Grid y), start) /\
    ([[3%Z; 3%Z]] ++ [[4%Z; 4%Z]])%list = rows y /\
    1 + 1 = nrows y /\ 2 = ncols y.
Proof.
  destruct (integrate_partitions_rows engine constant_solver [0%Z; 1%Z]
              (concatenate q0 qdot0) torque TORQUE RK45 start
              (Mat 1 2 [[3%Z; 3%Z]]) (Mat 1 2 [[4%Z; 4%Z]]) start eq_refl)
    as (func & name & t0 & t1 & y & Hfunc & Hname & Ht0 & Ht1 & Hy & Hrows & _ & _ & Hn & _
        & Hc & _).
  injection Hfunc as <-. injection Hname as <-. injection Ht0 as <-. injection Ht1 as <-.
  exists y. split; [exact Hy|]. split; [exact Hrows|]. split; [exact Hn | exact Hc].
Defined.

Lemma muscle_force_type_mismatch_fails_fast_witness :
  (exists e, is_type_mismatch e /\
     muscle_force engine excitation symbolic_pose (Some velocity) None start
     = (Raise e, start)) /\
  (exists e, is_type_mismatch e /\
     muscle_force engine excitation pose None None start = (Raise e, start)).
Proof.
  split.
  - refine (muscle_force_type_mismatch_fails_fast engine excitation symbolic_pose
              (Some velocity) None start _).
    left. discriminate.
  - refine (muscle_force_type_mismatch_fails_fast engine excitation pose None None start _).
    right. intros qd [=].
Defined.

Lemma empty_batch_witness :
  muscles_kinematics engine (Arr2 NdArray no_pose) None (Some (IndexRange 1 3)) start
  = (Ok (alloc NdArray 2 0, None), start) /\
  muscles_kinematics engine (Arr2 MX no_pose) None (Some (IndexRange 1 3)) start
  = (Ok (MkOut MX (Mat 2 1 [[Some 2%Z]; [Some 0%Z]]), None), start) /\
  muscle_force_coefficients engine excitation (Arr2 NdArray no_pose) (Some velocity) None start
  = (Ok (alloc NdArray 5 0, alloc NdArray 5 0, Some (alloc NdArray 5 0)), start) /\
  muscle_force engine excitation (Arr2 NdArray no_pose) (Some velocity) None start
  = (Ok (alloc NdArray 5 0), start).
Proof.
  split; [|split; [|split]].
  - refine (proj1 (empty_batch engine NdArray no_pose (Some (IndexRange 1 3)) start eq_refl)
              None _).
    intros qd [=].
  - refine (proj1 (empty_batch engine MX no_pose (Some (IndexRange 1 3)) start eq_refl)
              None _).
    intros qd [=].
  - refine (proj1 (proj2 (empty_batch engine NdArray no_pose None start eq_refl))
              excitation (Some velocity) eq_refl _).
    intros qd [= <-]. reflexivity.
  - exact (proj2 (proj2 (empty_batch engine NdArray no_pose None start eq_refl))
             excitation velocity eq_refl eq_refl).
Defined.

Lemma muscles_kinematics_computes_witness :
  exists lengths vs,
    muscles_kinematics engine (Arr2 NdArray poses) (Some (Arr2 NdArray velocities)) None start
    = (Ok (lengths, Some vs),
       MkSt (with_kinematics five_muscles [5%Z] (Some [6%Z]))
         (batch_calls (fun j => [Call_muscle j; Call_muscle j])
            (Arr2 NdArray poses) (Some (Arr2 NdArray velocities)) 5 2)) /\
    shape_of lengths = (5, 2) /\ shape_of vs = (5, 2) /\
    cell lengths 4 1 = Some (Some 405%Z) /\ cell vs 4 1 = Some (Some 406%Z).
Proof.
  destruct (muscles_kinematics_computes engine poses
              (Some (Arr2 NdArray velocities)) None start eq_refl poses_wf eq_refl)
    as (lengths & velocities & Hrun & Hshape & Hcells & vs & -> & Hvshape & Hvcells).
  - intros qd [= <-]. exists velocities. split; [reflexivity|].
    split; [apply velocities_wf|]. split; [reflexivity | vm_compute; lia].
  - reflexivity.
  - exists lengths, vs. split; [exact Hrun|]. split; [exact Hshape|]. split; [exact Hvshape|].
    split.
    + apply (Hcells 4 1); vm_compute; lia.
    + apply (Hvcells 4 1); vm_compute; lia.
Defined.

Lemma muscle_force_coefficients_computes_witness :
  exists o1 o2 o3 s',
    muscle_force_coefficients engine (Arr2 NdArray excitation_rows) (Arr2 NdArray poses)
      (Some (Arr2 NdArray velocities)) (Some (IndexRange 0 3)) start
    = (Ok (o1, o2, Some o3), s') /\
    trace s'
    = batch_calls (fun j => [Call_muscle j]) (Arr2 NdArray poses)
        (Some (Arr2 NdArray velocities)) 3 2 /\
    shape_of o1 = (3, 2) /\ shape_of o2 = (3, 2) /\ shape_of o3 = (3, 2) /\
    cell o1 2 1 = Some (Some 1002%Z) /\ cell o2 2 1 = Some (Some 2050%Z) /\
    cell o3 2 1 = Some (Some 3002%Z).
Proof.
  destruct (muscle_force_coefficients_computes engine (Arr2 NdArray poses)
              (Some (Arr2 NdArray velocities)) (Some (IndexRange 0 3)) start
              excitation_rows poses 3 eq_refl excitation_rows_wf eq_refl poses_wf eq_refl)
    as (o1 & o2 & o3 & Hrun & Hs1 & Hs2 & Hcells & Hthird).
  - intros qd [= <-]. exists velocities. split; [reflexivity|].
    split; [apply velocities_wf|]. split; [reflexivity | vm_compute; lia].
  - reflexivity.
  - vm_compute; lia.
  - vm_compute; lia.
  - vm_compute; lia.
  - intros j mus Hj Hmus. apply (five_muscles_hill j mus); [vm_compute in *; lia | exact Hmus].
  - destruct Hthird as (o & -> & Hs3 & Hc3).
    exists o1, o2, o. eexists. split; [exact Hrun|]. split; [reflexivity|].
    split; [exact Hs1|]. split; [exact Hs2|]. split; [exact Hs3|].
    destruct (Hcells 2 1) as (_ & H1 & _ & H2); [lia | vm_compute; lia |].
    destruct (Hc3 2 1) as [_ H3]; [lia | vm_compute; lia |].
    split; [exact H1|]. split; [exact H2 | exact H3].
Defined.

Lemma muscle_force_computes_witness :
  exists out s',
    muscle_force engine (Arr2 NdArray excitation_rows) (Arr2 NdArray poses)
      (Some (Arr2 NdArray velocities)) None start
    = (Ok out, s') /\
    shape_of out = (5, 2) /\ cell out 4 1 = Some (Some 4090%Z).
Proof.
  destruct (muscle_force_computes engine (Arr2 NdArray excitation_rows) (Arr2 NdArray poses)
              (Arr2 NdArray velocities) None start NdArray excitation_rows poses velocities 5
              eq_refl excitation_rows_wf eq_refl poses_wf eq_refl velocities_wf)
    as (out & Hrun & Hshape & Hcells).
  - vm_compute; lia.
  - reflexivity.
  - vm_compute; lia.
  - vm_compute; lia.
  - vm_compute; lia.
  - apply five_muscles_supported.
  - exists out. eexists. split; [exact Hrun|]. split; [exact Hshape|].
    destruct (Hcells 4 1) as [_ H]; [lia | vm_compute; lia | exact H].
Defined.

Lemma unsupported_muscle_type_raises_witness :
  muscle_force_coefficients engine (Arr2 NdArray excitation_rows) (Arr2 NdArray poses)
    None None odd_start
  = (Raise (Exc ValueError (MuscleTypeNotSupported (OTHER_MUSCLE_TYPE 9))),
     MkSt (with_kinematics odd_muscles [3%Z] None)
       [Call_updateMuscles [3%Z] None; Call_muscle 0; Call_muscle 1; Call_muscle 2]).
Proof.
  refine (unsupported_muscle_type_raises engine (Arr2 NdArray poses) None None odd_start
            excitation_rows poses 3 2 (MkMuscle (OTHER_MUSCLE_TYPE 9) 7%Z)
            eq_refl excitation_rows_wf eq_refl poses_wf eq_refl _ eq_refl _ _ _ _ _
            eq_refl _ _).
  - intros qd [=].
  - vm_compute; lia.
  - vm_compute; lia.
  - vm_compute; lia.
  - vm_compute; lia.
  - lia.
  - intros [[=] | [[=] | [[=] | [=]]]].
  - intros j mus Hj Hmus.
    destruct j as [|[|j]]; [| |lia]; injection Hmus as <-; unfold hill; simpl; tauto.
Defined.

Lemma set_leaves_other_muscles_witness :
  fst (get_muscle_parameter 1 OPTIMAL_LENGTH
         (snd (set_muscle_parameters 0 11%Z casadi_start)))
  = Ok 7%Z.
Proof.
  refine (eq_trans (set_leaves_other_muscles 0 1 11%Z casadi_start _) eq_refl). lia.
Defined.

Lemma get_muscle_parameter_cases_witness :
  (exists e, is_unimplemented_parameter e /\
     get_muscle_parameter 2 (OtherParameter 0) start = (Raise e, start)) /\
  get_muscle_parameter 2 OPTIMAL_LENGTH start
  = (Raise (Exc AttributeError (NoAttribute "to_mx")), MkSt five_muscles [Call_muscle 2]) /\
  get_muscle_parameter 2 OPTIMAL_LENGTH casadi_start
  = (Ok 7%Z, MkSt casadi_muscles [Call_muscle 2]).
Proof.
  split; [|split].
  - refine (proj1 get_muscle_parameter_cases 2 (OtherParameter 0) start _). discriminate.
  - exact (proj2 get_muscle_parameter_cases 2 (MkMuscle HILL 7%Z) start eq_refl).
  - exact (proj2 get_muscle_parameter_cases 2 (MkMuscle HILL 7%Z) casadi_start eq_refl).
Defined.

Lemma set_then_get_witness :
  (fst (set_muscle_parameters 2 11%Z start) = Ok tt /\
   fst (get_muscle_parameter 2 OPTIMAL_LENGTH
          (after_calls engine (snd (set_muscle_parameters 2 11%Z start))
             [Do_set_muscle_parameters 3 8%Z; Do_forward_dynamics q0 qdot0 torque TORQUE]))
   = Raise (Exc AttributeError (NoAttribute "to_mx"))) /\
  (fst (set_muscle_parameters 2 11%Z casadi_start) = Ok tt /\
   fst (get_muscle_parameter 2 OPTIMAL_LENGTH
          (after_calls engine (snd (set_muscle_parameters 2 11%Z casadi_start))
             [Do_set_muscle_parameters 3 8%Z; Do_forward_dynamics q0 qdot0 torque TORQUE]))
   = Ok 11%Z).
Proof.
  assert (Hlater : Forall (fun c : Call Z => ~ sets_muscle 2 c)
            [Do_set_muscle_parameters 3 8%Z; Do_forward_dynamics q0 qdot0 torque TORQUE])
    by (repeat (constructor; [simpl; first [tauto | lia]|]); constructor).
  split.
  - refine (set_then_get engine 2 11%Z start _ _ Hlater). vm_compute. lia.
  - refine (set_then_get engine 2 11%Z casadi_start _ _ Hlater). vm_compute. lia.
Defined.

Lemma documented_solver_stores_no_sample : stores_no_sample_on_empty_span documented_solver.
Proof.
  intros func t0 y0 method t_eval s y s'. unfold documented_solver. simpl.
  destruct (decide (method ∈ solver_methods)); [|discriminate].
  destruct (decide (t0 = t0)); [|contradiction].
  unfold bind, ret. destruct (func t0 y0 s) as [[x|err] s1]; [|discriminate].
  now intros [= <- _].
Qed.

Lemma documented_solver_rejects : rejects_unknown_methods documented_solver.
Proof.
  intros func t_span y0 method t_eval s Hno. unfold documented_solver.
  now destruct (decide (method ∈ solver_methods)).
Qed.

Lemma integrate_single_sample_raises_witness :
  integrate engine documented_solver [0%Z] (concatenate q0 qdot0) torque TORQUE RK45 start
  = (Raise (Exc TypeError ListIndicesMustBeIntegers),
     MkSt five_muscles [Call_ForwardDynamics [3%Z] [4%Z] [9%Z]]).
Proof.
  exact (proj2 (integrate_single_sample_raises engine documented_solver 0%Z
                  (concatenate q0 qdot0) torque TORQUE RK45 start
                  documented_solver_stores_no_sample)
           (fun t x => _forward_dynamics engine (Some t) x torque) "RK45" NoSample
           (MkSt five_muscles [Call_ForwardDynamics [3%Z] [4%Z] [9%Z]])
           eq_refl eq_refl eq_refl eq_refl eq_refl).
Defined.

Lemma integrate_rk4_is_rejected_witness :
  integrate engine documented_solver [0%Z; 1%Z] (concatenate q0 qdot0) torque TORQUE RK4 start
  = (Raise (Exc ValueError (SolverMethodUnknown "RK4")), start).
Proof.
  refine (proj2 (integrate_rk4_is_rejected engine documented_solver [0%Z; 1%Z]
                   (concatenate q0 qdot0) torque TORQUE start documented_solver_rejects)
            eq_refl eq_refl _).
  discriminate.
Defined.

Lemma one_dimensional_inputs_are_single_samples_witness :
  (exists o1 o2 o3,
     muscle_force_coefficients engine excitation pose_1d (Some velocity_1d) None start
     = (Ok (o1, o2, Some o3),
        MkSt (with_kinematics five_muscles [3%Z] (Some [4%Z]))
          [Call_updateMuscles [3%Z] (Some [4%Z]);
           Call_muscle 0; Call_muscle 1; Call_muscle 2; Call_muscle 3; Call_muscle 4]) /\
     shape_of o1 = (5, 1) /\ shape_of o2 = (5, 1) /\ shape_of o3 = (5, 1) /\
     cell o1 4 0 = Some (Some 1004%Z) /\ cell o2 4 0 = Some (Some 2045%Z) /\
     cell o3 4 0 = Some (Some 3004%Z)) /\
  (exists out,
     muscle_force engine excitation_1d pose_1d (Some velocity_1d) None start
     = (Ok out,
        MkSt (with_kinematics five_muscles [3%Z] (Some [4%Z]))
          [Call_updateMuscles [3%Z] (Some [4%Z]);
           Call_muscle 0; Call_muscle 1; Call_muscle 2; Call_muscle 3; Call_muscle 4]) /\
     shape_of out = (5, 1) /\ cell out 4 0 = Some (Some 4045%Z)) /\
  (exists e, (is_type_mismatch e \/ e = Exc IndexError OutOfBounds) /\
     muscles_kinematics engine pose_1d (Some velocity_1d) None start = (Raise e, start)).
Proof.
  pose proof (one_dimensional_inputs_are_single_samples engine)
    as (_ & _ & _ & Hcoefficients & Hforce & Hkinematics).
  split; [|split].
  - destruct (Hcoefficients (Mat 5 1 [[1]; [2]; [3]; [4]; [5]]%Z) [3%Z] (Some velocity_1d)
                None start 5 eq_refl excitation_wf eq_refl)
      as (o1 & o2 & o3 & Hrun & _ & Hs1 & Hs2 & Hcells & o & -> & Hs3 & Hc3).
    + intros qd [= <-]. now eexists.
    + reflexivity.
    + vm_compute; lia.
    + vm_compute; lia.
    + vm_compute; lia.
    + exact five_muscles_hill.
    + exists o1, o2, o. split; [exact Hrun|].
      split; [exact Hs1|]. split; [exact Hs2|]. split; [exact Hs3|].
      destruct (Hcells 4) as (_ & H1 & _ & H2); [lia|].
      destruct (Hc3 4) as [_ H3]; [lia|].
      split; [exact H1|]. split; [exact H2 | exact H3].
  - destruct (Hforce [1; 2; 3; 4; 5]%Z [3%Z] [4%Z] None start 5 eq_refl eq_refl eq_refl)
      as (out & Hrun & _ & Hshape & Hcells).
    + vm_compute; lia.
    + vm_compute; lia.
    + exact five_muscles_supported.
    + exists out. split; [exact Hrun|]. split; [exact Hshape|].
      destruct (Hcells 4) as [_ H]; [lia | exact H].
  - exact (Hkinematics NdArray [3%Z] (Some velocity_1d) None start).
Defined.

Lemma name_of_model_file_witness :
  name "/home/user/models/arm26.bioMod" = "arm26".
Proof.
  exact (name_of_model_file "/home/user/models" "arm26" eq_refl eq_refl).
Defined.

End FurtherExamples.
